(** * LevelBot Analytics: the scenario-validation core, embedded in Rocq

    A shallow embedding of the pure decision logic of the analytics engine
    ([risk_utils.py], [indicators.py], [entry_filter_retest.py],
    [context_evaluator.py], and the call site in [entry_filter.py]).

    Modelling conventions.
    - A Python [float] is idealised as a rational number ([Q]): every
      arithmetic operation is exact, there is no NaN and no infinity.
      Equality of prices is [Qeq] ([==]).
    - An [Optional[float]] is an [option Q]; Python truthiness of such a
      value ([None] and [0.0] are falsy) is [truthy].
    - A Python [str] is a [string] of ASCII characters; [upper] and [lower]
      act on the ASCII letters only.
    - A call that may raise returns a [result]: [Ok v] or [Raise e].
    - The rejection log is the list of rows that [csv.DictReader] yields;
      of a row only the columns the counters read are kept.
    - The clock is a parameter: [today] is what [_TODAY_UTC()] returns.
    - Printing ([print], debug output) is not modelled. *)

From Stdlib Require Import ZArith QArith Qabs Qround Lqa Lia.
From Stdlib Require Import String Ascii List Bool.
Import ListNotations.

Open Scope Q_scope.

(** ** Python values *)

Module Py.

(** The exceptions the modelled code can raise. *)
Inductive exn : Type :=
| ValueError
| ZeroDivisionError
| IndexError
| TypeError
| AttributeError.

Inductive result (A : Type) : Type :=
| Ok (v : A)
| Raise (e : exn).
Arguments Ok {A} v.
Arguments Raise {A} e.

Definition bind {A B : Type} (r : result A) (k : A -> result B) : result B :=
  match r with
  | Ok v => k v
  | Raise e => Raise e
  end.

(** Float comparisons, as booleans. *)
Definition ltb (x y : Q) : bool := negb (Qle_bool y x).
Definition gtb (x y : Q) : bool := ltb y x.
Definition leb (x y : Q) : bool := Qle_bool x y.

(** [if x:] for an [Optional[float]]: the value when it is neither
    [None] nor zero. *)
Definition truthy (o : option Q) : option Q :=
  match o with
  | Some x => if Qeq_bool x 0 then None else Some x
  | None => None
  end.

(** [a / b] on floats. *)
Definition div (a b : Q) : result Q :=
  if Qeq_bool b 0 then Raise ZeroDivisionError else Ok (a / b).

(** [max(xs)] on a list of floats; the empty list is a [ValueError]. *)
Definition max2 (a b : Q) : Q := if ltb a b then b else a.

Definition max (xs : list Q) : result Q :=
  match xs with
  | [] => Raise ValueError
  | x :: rest => Ok (fold_left max2 rest x)
  end.

(** [xs[-k]] for [k >= 1]: the [k]-th element from the end. *)
Definition from_end {A : Type} (xs : list A) (k : nat) : result A :=
  if (Nat.ltb (length xs) k) || (Nat.eqb k 0) then Raise IndexError
  else match nth_error xs (length xs - k) with
       | Some x => Ok x
       | None => Raise IndexError
       end.

(** [xs[-k:-1]]: the last [k] elements without the very last one. *)
Definition slice_from_end_but_last {A : Type} (xs : list A) (k : nat) : list A :=
  removelast (skipn (length xs - k) xs).

End Py.

Import Py.

Declare Scope py_scope.
Delimit Scope py_scope with py.
Infix "<?" := Py.ltb (at level 70, no associativity) : py_scope.
Infix ">?" := Py.gtb (at level 70, no associativity) : py_scope.
Infix "<=?" := Py.leb (at level 70, no associativity) : py_scope.
Notation "x <- r ;; k" := (Py.bind r (fun x => k))
  (at level 61, r at next level, right associativity) : py_scope.
Open Scope py_scope.

(** ** Strings: [upper], [lower], [in], [join] *)

Module PyStr.

Definition is_lower (c : ascii) : bool :=
  let n := nat_of_ascii c in (Nat.leb 97 n) && (Nat.leb n 122).

Definition is_upper (c : ascii) : bool :=
  let n := nat_of_ascii c in (Nat.leb 65 n) && (Nat.leb n 90).

Definition upper_char (c : ascii) : ascii :=
  if is_lower c then ascii_of_nat (nat_of_ascii c - 32) else c.

Definition lower_char (c : ascii) : ascii :=
  if is_upper c then ascii_of_nat (nat_of_ascii c + 32) else c.

Fixpoint map_string (f : ascii -> ascii) (s : string) : string :=
  match s with
  | EmptyString => EmptyString
  | String c rest => String (f c) (map_string f rest)
  end.

Definition upper (s : string) : string := map_string upper_char s.
Definition lower (s : string) : string := map_string lower_char s.

(** [needle in hay] *)
Fixpoint contains (needle hay : string) : bool :=
  if String.prefix needle hay then true
  else match hay with
       | EmptyString => false
       | String _ rest => contains needle rest
       end.

(** [sep.join(parts)] *)
Definition join (sep : string) (parts : list string) : string :=
  String.concat sep parts.

End PyStr.

(** ** config.py *)

Module Config.

Definition STRUCTURAL_TARGET_RATIO : Q := 3.0.
Definition PARTIAL_TARGET_RATIO : Q := 1.5.
Definition RR_MIN : Q := 3.0.
Definition RR_MAX : Q := 10.0.
Definition DAILY_REJECTION_LIMIT : Z := 10.
Definition MAX_CONSECUTIVE_REJECTIONS : Z := 3.

End Config.

(** ** risk_utils.py *)

Module RiskUtils.

Import Config.

Definition is_long (side : string) : bool := String.eqb side "LONG".
Definition is_short (side : string) : bool := String.eqb side "SHORT".

(** [(side == "LONG" and raw < entry_price) or
     (side == "SHORT" and raw > entry_price)] *)
Definition on_limit_side (side : string) (raw entry_price : Q) : bool :=
  (is_long side && (raw <? entry_price)) || (is_short side && (raw >? entry_price)).

(** Stage 1 of the limit: trendline-based, within 6 ATR. *)
Definition limit_trendline (entry_price atr : Q) (trendline_price : option Q)
    (side : string) : option Q :=
  match truthy trendline_price with
  | Some tp =>
      let buffer := 0.25 * atr in
      let raw := if is_long side then tp - buffer else tp + buffer in
      let dist := Qabs (entry_price - raw) in
      if (dist <? 6 * atr) && on_limit_side side raw entry_price
      then Some raw else None
  | None => None
  end.

(** Stage 2: swing level ([if side == "LONG" and swing_low: ...
    elif side == "SHORT" and swing_high: ...]), within 3 ATR. *)
Definition limit_swing (entry_price atr : Q) (swing_high swing_low : option Q)
    (side : string) : option Q :=
  match (if is_long side then truthy swing_low else None) with
  | Some sl =>
      let raw := sl * 0.997 - 0.25 * atr in
      let dist := Qabs (entry_price - raw) in
      if (raw <? entry_price) && (dist <? 3 * atr) then Some raw else None
  | None =>
      match (if is_short side then truthy swing_high else None) with
      | Some sh =>
          let raw := sh * 1.003 + 0.25 * atr in
          let dist := Qabs (entry_price - raw) in
          if (raw >? entry_price) && (dist <? 3 * atr) then Some raw else None
      | None => None
      end
  end.

(** Stages 3 and 4: point of control, then low-volume exit; the two
    stages run the same test on their level. *)
Definition limit_level (entry_price atr : Q) (level : option Q)
    (side : string) : option Q :=
  match truthy level with
  | Some p =>
      let raw := if is_long side then p - 0.25 * atr else p + 0.25 * atr in
      let dist := Qabs (entry_price - raw) in
      if on_limit_side side raw entry_price
      then (if dist <? 3 * atr then Some raw else None)
      else None
  | None => None
  end.

(** [a] when it returned a level, the next stage otherwise. *)
Definition or_else {A : Type} (a : option A) (next : option A) : option A :=
  match a with
  | Some x => Some x
  | None => next
  end.

Definition select_structural_limit (entry_price atr : Q)
    (swing_high swing_low trendline_price poc low_volume_exit : option Q)
    (side : string) : result (option Q) :=
  if atr <=? 0 then Raise ValueError
  else Ok (or_else (limit_trendline entry_price atr trendline_price side)
          (or_else (limit_swing entry_price atr swing_high swing_low side)
          (or_else (limit_level entry_price atr poc side)
                   (limit_level entry_price atr low_volume_exit side)))).

(** Target, stage 1: [if side == "LONG" and hi: ... elif side == "SHORT"
    and lo: ...] on the pair of swing levels that [breakout] selects. *)
Definition swing_candidate (entry_price : Q) (hi lo : option Q)
    (side : string) : option Q :=
  match (if is_long side then truthy hi else None) with
  | Some h =>
      let candidate := h * 0.995 in
      if candidate >? entry_price then Some candidate else None
  | None =>
      match (if is_short side then truthy lo else None) with
      | Some l =>
          let candidate := l * 1.005 in
          if candidate <? entry_price then Some candidate else None
      | None => None
      end
  end.

Definition target_swing (entry_price : Q)
    (swing_high swing_low next_swing_high next_swing_low : option Q)
    (side : string) (breakout : bool) : option Q :=
  if breakout
  then swing_candidate entry_price next_swing_high next_swing_low side
  else swing_candidate entry_price swing_high swing_low side.

(** [(side == "LONG" and p > entry_price) or
     (side == "SHORT" and p < entry_price)] *)
Definition on_target_side (side : string) (p entry_price : Q) : bool :=
  (is_long side && (p >? entry_price)) || (is_short side && (p <? entry_price)).

(** Stages 2 to 4: [if target is None and level: if <favourable>:
    target = level]. *)
Definition target_level (target : option Q) (entry_price : Q) (level : option Q)
    (side : string) : option Q :=
  match target with
  | Some t => Some t
  | None =>
      match truthy level with
      | Some p => if on_target_side side p entry_price then Some p else None
      | None => None
      end
  end.

(** [(1 if side == "LONG" else -1)] *)
Definition sign (side : string) : Q := if is_long side then 1 else -1.

Definition select_structural_target (entry_price structural_limit atr : Q)
    (swing_high swing_low next_swing_high next_swing_low
     trendline_target poc low_volume_exit : option Q)
    (side : string) (breakout : bool) (confidence : Q)
    : result (Q * option Q * bool) :=
  let stop_dist := Qabs (entry_price - structural_limit) in
  let target := target_swing entry_price swing_high swing_low
                  next_swing_high next_swing_low side breakout in
  let target := target_level target entry_price poc side in
  let target := target_level target entry_price trendline_target side in
  let target := target_level target entry_price low_volume_exit side in
  let target :=
    match target with
    | Some t => t
    | None => entry_price + stop_dist * STRUCTURAL_TARGET_RATIO * sign side
    end in
  rr_used <- Py.div (Qabs (target - entry_price)) stop_dist ;;
  if rr_used >? STRUCTURAL_TARGET_RATIO
  then Ok (target,
           Some (entry_price + stop_dist * PARTIAL_TARGET_RATIO * sign side),
           true)
  else Ok (target, None, false).

(** The ratio the caller recomputes:
    [abs(structural_target - current_price) / abs(current_price - structural_limit)]. *)
Definition rr (entry_price structural_limit target : Q) : result Q :=
  Py.div (Qabs (target - entry_price)) (Qabs (entry_price - structural_limit)).

End RiskUtils.

(** ** indicators.py *)

Module Indicators.

Definition calculate_trend (closes : list Q) (atr : Q) (ema_period : Z)
    : result string :=
  if Nat.ltb (length closes) 6 then Ok "flat"%string
  else
    last <- from_end closes 1 ;;
    ref <- from_end closes 5 ;;
    if last >? ref + 0.2 * atr then Ok "up"%string
    else if last <? ref - 0.2 * atr then Ok "down"%string
    else Ok "flat"%string.

(** The dictionary built by [calculate_candle_stats]. *)
Record candle_stats : Type := {
  body : Q;
  upper_wick : Q;
  lower_wick : Q;
  volume : Q;
  volume_spike : bool;
  strong_body : bool;
  doji : bool;
  weak_volume : bool
}.

(** Truthiness of a [float] level. *)
Definition nonzero (x : Q) : bool := negb (Qeq_bool x 0).

Definition str_eq (a b : string) : bool := String.eqb a b.

Definition evaluate_direction (current_price swing_high swing_low : Q)
    (trend_1h : string) (atr : Q) (highs lows : list Q) (cs : candle_stats)
    : option string * list string * bool :=
  let in_middle := (swing_low <? current_price) && (current_price <? swing_high) in
  let breakout_up :=
    nonzero swing_high && (current_price >? swing_high + 0.1 * atr) &&
    strong_body cs && volume_spike cs && str_eq trend_1h "up" in
  let breakout_down :=
    nonzero swing_low && (current_price <? swing_low - 0.1 * atr) &&
    strong_body cs && volume_spike cs && str_eq trend_1h "down" in
  let large_bounce := 1.8 in
  let bounce_up :=
    nonzero swing_low && (lower_wick cs >? body cs * 1.5) &&
    (current_price >? swing_low) && negb (str_eq trend_1h "down") in
  let bounce_down :=
    nonzero swing_high && (upper_wick cs >? body cs * 1.5) &&
    (current_price <? swing_high) && negb (str_eq trend_1h "up") in
  let '(direction, reasons) :=
    if breakout_up
    then (Some "LONG"%string, ["Breakout up + volume + 1H trend"%string])
    else if breakout_down
    then (Some "SHORT"%string, ["Breakout down + volume + 1H trend"%string])
    else if bounce_up && (Qabs (current_price - swing_low) <? large_bounce * atr)
    then (Some "LONG"%string, ["Bounce from swing-LOW within 1.8 ATR"%string])
    else if bounce_down && (Qabs (current_price - swing_high) <? large_bounce * atr)
    then (Some "SHORT"%string, ["Bounce from swing-HIGH within 1.8 ATR"%string])
    else (None, []) in
  let '(direction, reasons) :=
    match direction with
    | None =>
        if current_price >? swing_high
        then (Some "LONG"%string, reasons ++ ["Simple up breakout"%string])
        else if current_price <? swing_low
        then (Some "SHORT"%string, reasons ++ ["Simple down breakout"%string])
        else (direction, reasons)
    | Some _ => (direction, reasons)
    end in
  let '(direction, reasons) :=
    match direction with
    | None =>
        if strong_body cs && volume_spike cs
        then
          if current_price >? swing_high + 0.1 * atr
          then (Some "LONG"%string, reasons ++ ["Flat-breakout + volume"%string])
          else if current_price <? swing_low - 0.1 * atr
          then (Some "SHORT"%string, reasons ++ ["Flat-breakout + volume"%string])
          else (direction, reasons)
        else (direction, reasons)
    | Some _ => (direction, reasons)
    end in
  (direction, reasons, in_middle).

(** [trend_1h in ("up", "down")] *)
Definition is_up_or_down (trend_1h : string) : bool :=
  str_eq trend_1h "up" || str_eq trend_1h "down".

Definition classify_market_mode (trend_1h : string) (atr_fast atr_slow : Q)
    (vols_15m : list Q) : result string :=
  last <- from_end vols_15m 1 ;;
  prev <- Py.max (slice_from_end_but_last vols_15m 5) ;;
  let spike := last >? prev in
  if str_eq trend_1h "flat" && (atr_fast <? atr_slow * 0.6) then Ok "flet"%string
  else if is_up_or_down trend_1h && spike then Ok "trend"%string
  else if atr_fast >? atr_slow * 1.8 then Ok "scalp"%string
  else Ok "neutral"%string.

(** The values of [marketMode] in the data model. *)
Definition market_modes : list string :=
  ["trend"; "scalp"; "flat"; "neutral"]%string.

End Indicators.

(** ** context_evaluator.py *)

Module ContextEvaluator.

Import Config.

(** One field of a row as [csv.DictReader] yields it: the column is not
    in the header ([Missing], so [row.get] gives its default), the row is
    too short for the column ([Blank], the value [None]), or a text. *)
Inductive cell : Type :=
| Missing
| Blank
| Text (s : string).

(** The two columns of a log row that the counters read. *)
Record row : Type := {
  date : cell;
  scenario_status : cell
}.

(** The counters of a [ContextEvaluator] instance. *)
Record counters : Type := {
  daily_rejection_count : Z;
  consecutive_rejections : Z
}.

(** [row.get("date") != today] *)
Definition date_differs (r : row) (today : string) : bool :=
  match date r with
  | Text d => negb (String.eqb d today)
  | Missing | Blank => true
  end.

(** [row.get("scenario_status", "").upper()]; [None.upper()] raises. *)
Definition status_upper (r : row) : result string :=
  match scenario_status r with
  | Text s => Ok (PyStr.upper s)
  | Missing => Ok (PyStr.upper "")
  | Blank => Raise AttributeError
  end.

(** The body of the loop of [_load_today_stats] for one row; the status
    is read from the row once, the second [row.get] gives the same. *)
Definition load_row (today : string) (st : counters) (r : row) : result counters :=
  if date_differs r today then Ok st
  else
    s <- status_upper r ;;
    if String.eqb s "REJECTED"
    then Ok {| daily_rejection_count := daily_rejection_count st + 1;
               consecutive_rejections := consecutive_rejections st + 1 |}
    else
      if String.eqb s "ACCEPTED"
      then Ok {| daily_rejection_count := daily_rejection_count st;
                 consecutive_rejections := 0 |}
      else Ok st.

Fixpoint load_rows (today : string) (st : counters) (rows : list row)
    : result counters :=
  match rows with
  | [] => Ok st
  | r :: rest => st' <- load_row today st r ;; load_rows today st' rest
  end.

(** The log file: absent, or the rows after the header line of a file
    whose lines are complete. *)
Definition log_file : Type := option (list row).

Definition _load_today_stats (today : string) (log : log_file) (st : counters)
    : result counters :=
  match log with
  | None => Ok st
  | Some rows => load_rows today st rows
  end.

(** [ContextEvaluator()] *)
Definition init (today : string) (log : log_file) : result counters :=
  _load_today_stats today log
    {| daily_rejection_count := 0; consecutive_rejections := 0 |}.

(** [_write_csv_row]: a missing file is created with the header line
    and the row; a file that starts with that header gets the row
    appended. The header is written for a missing file only: a file that
    exists without it, empty or with other columns, is not covered. *)
Definition _write_csv_row (log : log_file) (r : row) : log_file :=
  match log with
  | None => Some [r]
  | Some rows => Some (rows ++ [r])
  end.

(** [log_scenario]; [today] is the value [_TODAY_UTC()] returns during
    the call. The state is the instance's counters and the log file. *)
Definition log_scenario (today : string) (st : counters) (log : log_file)
    (date_utc symbol status : string) : counters * log_file :=
  let r := {| date := Text date_utc;
              scenario_status := Text (PyStr.upper status) |} in
  let log' := _write_csv_row log r in
  if negb (String.eqb date_utc today) then (st, log')
  else if String.eqb (PyStr.upper status) "REJECTED"
  then ({| daily_rejection_count := daily_rejection_count st + 1;
           consecutive_rejections := consecutive_rejections st + 1 |}, log')
  else if String.eqb (PyStr.upper status) "ACCEPTED"
  then ({| daily_rejection_count := daily_rejection_count st;
           consecutive_rejections := 0 |}, log')
  else (st, log').

(** An event handed to [log_scenario]: date, symbol, status. *)
Definition event : Type := string * string * string.

(** A sequence of [log_scenario] calls, all made while the UTC date is
    [today]. *)
Fixpoint log_scenarios (today : string) (st : counters) (log : log_file)
    (events : list event) : counters * log_file :=
  match events with
  | [] => (st, log)
  | (d, sym, s) :: rest =>
      let '(st', log') := log_scenario today st log d sym s in
      log_scenarios today st' log' rest
  end.

Definition check_daily_rejection_limit (st : counters) : bool :=
  Z.leb (Z.abs DAILY_REJECTION_LIMIT) (daily_rejection_count st).

Definition check_consecutive_rejections (st : counters) : bool :=
  Z.leb MAX_CONSECUTIVE_REJECTIONS (consecutive_rejections st).

Definition reset_counters (st : counters) : counters :=
  {| daily_rejection_count := 0; consecutive_rejections := 0 |}.

End ContextEvaluator.

(** ** entry_filter_retest.py *)

Module EntryFilterRetest.

Import Indicators.

(** The dictionaries the filter returns, by their ["status"]. *)
Inductive verdict : Type :=
| Skip (reason : string) (atr : Q)
| Valid (scenario_bias : string) (evaluation_price : Q)
        (structural_target structural_limit : Q)
        (reason : string) (rr atr : Q)
| WaitRetest (reason : string) (atr : Q).

Definition status (v : verdict) : string :=
  match v with
  | Skip _ _ => "skip"
  | Valid _ _ _ _ _ _ _ => "valid"
  | WaitRetest _ _ => "wait_retest"
  end.

Definition reason (v : verdict) : string :=
  match v with
  | Skip r _ => r
  | Valid _ _ _ _ r _ _ => r
  | WaitRetest r _ => r
  end.

Definition body_stretch_reason : string := "body stretch — evaluation too late".

(** [round(x, 2)]: to the nearest hundredth, ties to the even one. *)
Definition round_half_even (x : Q) : Z :=
  let f := Qfloor x in
  let r := x - inject_Z f in
  if r <? 0.5 then f
  else if r >? 0.5 then (f + 1)%Z
  else if Z.even f then f else (f + 1)%Z.

Definition round2 (x : Q) : Q := inject_Z (round_half_even (x * 100)) / 100.

(** [if reasons: reason_str = " ".join(reasons).lower();
     if "breakout" in reason_str or "exit from low-volume area" in reason_str] *)
Definition exempt (reasons : option (list string)) : bool :=
  match reasons with
  | None | Some [] => false
  | Some rs =>
      let reason_str := PyStr.lower (PyStr.join " " rs) in
      PyStr.contains "breakout" reason_str ||
      PyStr.contains "exit from low-volume area" reason_str
  end.

(** [trend == direction] for a trend that may be [None]. *)
Definition same (trend : option string) (direction : string) : bool :=
  match trend with
  | Some t => String.eqb t direction
  | None => false
  end.

(** [[abs(closes_15m[i] - closes_15m[i - 1]) for i in range(-3, 0)]] *)
Definition body_sizes (closes_15m : list Q) : result (list Q) :=
  a3 <- from_end closes_15m 3 ;;
  a4 <- from_end closes_15m 4 ;;
  b2 <- from_end closes_15m 2 ;;
  b3 <- from_end closes_15m 3 ;;
  c1 <- from_end closes_15m 1 ;;
  c2 <- from_end closes_15m 2 ;;
  Ok [Qabs (a3 - a4); Qabs (b2 - b3); Qabs (c1 - c2)].

(** [confidence < 2]; the default [confidence=None] cannot be compared. *)
Definition confidence_below_2 (confidence : option Q) : result bool :=
  match confidence with
  | Some c => Ok (c <? 2)
  | None => Raise TypeError
  end.

(** The three phase tests on the level of the direction, then the
    verdicts in the order of the source. *)
Definition phase_verdict (impulse_phase overheated_phase retest_zone confirm : bool)
    (direction : string) (current_price atr : Q)
    (structural_target structural_limit rr : Q) (confidence : option Q)
    (overheated_reason valid_reason wait_reason : string)
    : result (option verdict) :=
  if impulse_phase then Ok None
  else
    hot <- (if overheated_phase then confidence_below_2 confidence else Ok false) ;;
    if hot then Ok (Some (Skip overheated_reason atr))
    else if retest_zone && confirm
    then Ok (Some (Valid direction current_price structural_target structural_limit
                     valid_reason (round2 rr) atr))
    else if retest_zone then Ok (Some (WaitRetest wait_reason atr))
    else Ok None.

Definition entry_filter_retest (direction : string) (current_price : Q)
    (closes_15m : list Q) (swing_high swing_low atr : Q) (cs : candle_stats)
    (structural_target structural_limit rr : Q)
    (trend_1h trend_4h : option string) (macd_confirms : bool)
    (confidence : option Q) (debug : bool) (retest_age : Z)
    (reasons : option (list string)) : result (option verdict) :=
  if exempt reasons then Ok None
  else
    let confirm :=
      strong_body cs || volume_spike cs || macd_confirms || same trend_1h direction in
    if same trend_1h direction && same trend_4h direction && confirm then Ok None
    else
      bodies <- body_sizes closes_15m ;;
      stretched <- (if Z.ltb 0 retest_age
                    then m <- Py.max bodies ;; Ok (m >? atr * 1.2)
                    else Ok false) ;;
      if stretched && negb confirm
      then Ok (Some (Skip body_stretch_reason atr))
      else if String.eqb direction "LONG"
      then
        let impulse_phase :=
          (swing_high <? current_price) && (current_price <=? swing_high + atr * 0.3) in
        let overheated_phase := current_price >? swing_high + atr * 2.0 in
        let retest_zone := Qabs (current_price - swing_high) <=? atr * 0.1 in
        phase_verdict impulse_phase overheated_phase retest_zone confirm
          direction current_price atr structural_target structural_limit rr confidence
          "overheated long — price significantly above swing_high"
          "validation after retest with confirmation (LONG)"
          "waiting for confirmation after return to swing_high (LONG)"
      else if String.eqb direction "SHORT"
      then
        let impulse_phase :=
          (swing_low - atr * 0.3 <=? current_price) && (current_price <? swing_low) in
        let overheated_phase := current_price <? swing_low - atr * 2.0 in
        let retest_zone := Qabs (current_price - swing_low) <=? atr * 0.1 in
        phase_verdict impulse_phase overheated_phase retest_zone confirm
          direction current_price atr structural_target structural_limit rr confidence
          "overheated short — price significantly below swing_low"
          "validation after retest with confirmation (SHORT)"
          "waiting for confirmation after return to swing_low (SHORT)"
      else Ok None.

End EntryFilterRetest.

(** ** entry_filter.py: the call of the retest filter in [check_entry] *)

Module EntryFilter.

Import Indicators EntryFilterRetest.

(** ["MACD does not confirm" not in reasons] *)
Definition macd_not_denied (reasons : list string) : bool :=
  negb (existsb (String.eqb "MACD does not confirm") reasons).

(** [retest_check = entry_filter_retest(..., debug=False, retest_age=0,
    reasons=reasons)]: the arguments [check_entry] fixes are fixed here,
    the others are whatever the pipeline computed before. *)
Definition retest_check (direction : string) (current_price : Q)
    (closes_15m : list Q) (swing_high swing_low atr : Q) (cs : candle_stats)
    (structural_target structural_limit rr : Q) (trend_1h trend_4h : string)
    (confidence : Q) (reasons : list string) : result (option verdict) :=
  entry_filter_retest direction current_price closes_15m swing_high swing_low
    atr cs structural_target structural_limit rr (Some trend_1h) (Some trend_4h)
    (macd_not_denied reasons) (Some confidence) false 0 (Some reasons).

End EntryFilter.

(** ** trendline_detector.py *)

Module TrendlineDetector.

(** The settings of a [TrendlineDetector]. *)
Record detector : Type := {
  min_touches : Z;
  min_slope : Q;
  tolerance_pct : Q
}.

(** [TrendlineDetector(api)] with the default settings. *)
Definition default_detector : detector :=
  {| min_touches := 2; min_slope := 0.0002; tolerance_pct := 0.01 |}.

(** The dictionary [_find_trendline] returns. *)
Record trendline : Type := {
  slope : Q;
  points : (nat * Q) * (nat * Q);
  touches : nat;
  age : nat;
  price_now : Q
}.

(** An index as a float. *)
Definition of_nat (k : nat) : Q := inject_Z (Z.of_nat k).

(** [prices[k]] for an index the loops keep in range. *)
Definition price_at (prices : list Q) (k : nat) : Q := nth k prices 0.

(** The loop [for k in range(i + 1, j)] over the indices left, counting
    the closes within the tolerance of the line. *)
Fixpoint count_hits (d : detector) (prices : list Q) (x1 : nat) (y1 slope : Q)
    (ks : list nat) (hits : nat) : result nat :=
  match ks with
  | [] => Ok hits
  | k :: rest =>
      let y_k := y1 + slope * (of_nat k - of_nat x1) in
      let price_k := price_at prices k in
      diff_pct <- Py.div (Qabs (price_k - y_k)) y_k ;;
      count_hits d prices x1 y1 slope rest
        (if diff_pct <? tolerance_pct d then S hits else hits)
  end.

(** The body of the two outer loops for one pair [i < j]: [None] stands
    for [continue] and for a pair with too few hits. The test
    [slope >= -min_slope] is written [-min_slope <= slope]. *)
Definition try_pair (d : detector) (prices : list Q) (kind : string)
    (i j : nat) : result (option trendline) :=
  let n := length prices in
  let y1 := price_at prices i in
  let y2 := price_at prices j in
  let slope := (y2 - y1) / (of_nat j - of_nat i) in
  if String.eqb kind "high" && (- min_slope d <=? slope) then Ok None
  else if String.eqb kind "low" && (slope <=? min_slope d) then Ok None
  else
    hits <- count_hits d prices i y1 slope (seq (i + 1) (j - (i + 1))) 0 ;;
    if (min_touches d - 2 <=? Z.of_nat hits)%Z
    then Ok (Some {| slope := slope;
                     points := ((i, y1), (j, y2));
                     touches := hits + 2;
                     age := n - j;
                     price_now := y2 + slope * (of_nat n - of_nat j) |})
    else Ok None.

(** The pairs in the order the loops visit them:
    [for i in range(n): for j in range(i + 3, n)]. *)
Definition pairs (n : nat) : list (nat * nat) :=
  flat_map (fun i => map (fun j => (i, j)) (seq (i + 3) (n - (i + 3)))) (seq 0 n).

(** The first pair that yields a line ends the search. *)
Fixpoint first_line (d : detector) (prices : list Q) (kind : string)
    (ps : list (nat * nat)) : result (option trendline) :=
  match ps with
  | [] => Ok None
  | (i, j) :: rest =>
      r <- try_pair d prices kind i j ;;
      match r with
      | Some t => Ok (Some t)
      | None => first_line d prices kind rest
      end
  end.

Definition _find_trendline (d : detector) (prices : list Q) (kind : string)
    : result (option trendline) :=
  first_line d prices kind (pairs (length prices)).

(** [check_trendline_breakout] for one timeframe:
    [if line and <price beyond line["price_now"]>: reasons.append(...)]. *)
Definition breakout_reason (beyond : Q -> Q -> bool) (current_price : Q)
    (line : option trendline) (text : string) : list string :=
  match line with
  | Some t => if beyond current_price (price_now t) then [text] else []
  | None => []
  end.

(** [check_trendline_breakout]; of [key_levels] the four trendline
    entries are read, each a line or [None]. *)
Definition check_trendline_breakout (current_price : Q) (direction : string)
    (up_15m up_1h down_15m down_1h : option trendline) : list string :=
  if String.eqb direction "LONG"
  then breakout_reason Py.gtb current_price up_15m
         "breakout of upward trendline 15m"
       ++ breakout_reason Py.gtb current_price up_1h
            "breakout of upward trendline 1h"
  else if String.eqb direction "SHORT"
  then breakout_reason Py.ltb current_price down_15m
         "breakout of downward trendline 15m"
       ++ breakout_reason Py.ltb current_price down_1h
            "breakout of downward trendline 1h"
  else [].

End TrendlineDetector.

(** ** entry_filter.py: more of [check_entry] *)

Module CheckEntry.

(** [is_breakout = any("breakout" in r or "exit" in r for r in reasons)] *)
Definition is_breakout (reasons : list string) : bool :=
  existsb (fun r => PyStr.contains "breakout" r || PyStr.contains "exit" r) reasons.

End CheckEntry.

(** ** indicators.py: candles, true range and ATR *)

Module Candles.

Import Indicators.

(** The fields [candle[1]] to [candle[5]] of a kline row after [float()]:
    open, high, low, close, volume. Parsing the strings is not modelled. *)
Record kline : Type := {
  k_open : Q;
  k_high : Q;
  k_low : Q;
  k_close : Q;
  k_volume : Q
}.

(** [sum(xs)] *)
Definition py_sum (xs : list Q) : Q := fold_left Qplus xs 0.

(** [xs[-n:]] for [n >= 1] *)
Definition last_n {A : Type} (n : nat) (xs : list A) : list A :=
  skipn (length xs - n) xs.

(** [min(a, b)]: [b] only when it is strictly smaller. *)
Definition min2 (a b : Q) : Q := if b <? a then b else a.

(** [len(xs)] as a float divisor. *)
Definition len (xs : list Q) : Q := inject_Z (Z.of_nat (length xs)).

Definition calculate_candle_stats (candle : kline) (atr : Q)
    (volume_series : list Q) : result candle_stats :=
  let o := k_open candle in
  let h := k_high candle in
  let l := k_low candle in
  let c := k_close candle in
  let v := k_volume candle in
  let body := Qabs (c - o) in
  let upper := h - Py.max2 o c in
  let lower := min2 o c - l in
  let last := if Nat.leb 10 (length volume_series)
              then last_n 10 volume_series else volume_series in
  avg_v <- Py.div (py_sum last) (len last) ;;
  Ok {| body := body;
        upper_wick := upper;
        lower_wick := lower;
        volume := v;
        volume_spike := v >? avg_v * 1.6;
        strong_body := body >? atr * 0.6;
        doji := (body <? atr * 0.1) && (upper >? body) && (lower >? body);
        weak_volume := v <? avg_v * 0.8 |}.

(** An elementwise operation of NumPy on two one-dimensional arrays:
    equal lengths, or one of them of length 1 and stretched. *)
Definition broadcast (f : Q -> Q -> Q) (xs ys : list Q) : result (list Q) :=
  if Nat.eqb (length xs) (length ys)
  then Ok (map (fun p => f (fst p) (snd p)) (combine xs ys))
  else match xs, ys with
       | [x], _ => Ok (map (f x) ys)
       | _, [y] => Ok (map (fun a => f a y) xs)
       | _, _ => Raise ValueError
       end.

(** [prev_close = np.roll(close, 1); prev_close[0] = close[0]] *)
Definition prev_close (close : list Q) : result (list Q) :=
  match close with
  | [] => Raise IndexError
  | c0 :: _ => Ok (c0 :: removelast close)
  end.

Definition _true_range (high low close : list Q) : result (list Q) :=
  prev <- prev_close close ;;
  hl <- broadcast Qminus high low ;;
  hp <- broadcast Qminus high prev ;;
  lp <- broadcast Qminus low prev ;;
  inner <- broadcast Py.max2 (map Qabs hp) (map Qabs lp) ;;
  broadcast Py.max2 hl inner.

(** [np.convolve(tr, np.ones(period) / period, mode="valid")[-1]]: the
    last [period] true ranges, each times [1 / period], summed; an empty
    array or an empty kernel is a [ValueError]. *)
Definition calculate_atr (highs lows closes : list Q) (period : Z) : result Q :=
  if (Z.of_nat (length highs) <? period + 1)%Z then Ok 0
  else
    tr <- _true_range highs lows closes ;;
    if (period <=? 0)%Z then Raise ValueError
    else match tr with
         | [] => Raise ValueError
         | _ => Ok (py_sum (map (fun t => t * (1 / inject_Z period))
                              (last_n (Z.to_nat period) tr)))
         end.

End Candles.

(** ** indicators.py: EMA and MACD *)

Module Macd.

(** The loop of [_ema] after the first element. *)
Fixpoint ema_loop (alpha prev : Q) (rest : list Q) : list Q :=
  match rest with
  | [] => []
  | x :: r =>
      let o := alpha * x + (1 - alpha) * prev in
      o :: ema_loop alpha o r
  end.

Definition _ema (arr : list Q) (period : Z) : result (list Q) :=
  alpha <- Py.div 2 (inject_Z (period + 1)) ;;
  match arr with
  | [] => Raise IndexError
  | x0 :: rest => Ok (x0 :: ema_loop alpha x0 rest)
  end.

(** The dictionary of [calculate_normalized_macd]; a key that is absent
    is [None], so [{}] has the three of them [None]. *)
Record macd_data : Type := {
  macd : option Q;
  signal : option Q;
  histogram : option Q
}.

Definition empty_macd : macd_data :=
  {| macd := None; signal := None; histogram := None |}.

Definition calculate_normalized_macd (closes : list Q) : result macd_data :=
  if Nat.ltb (length closes) 26 then Ok empty_macd
  else
    e12 <- _ema closes 12 ;;
    e26 <- _ema closes 26 ;;
    macd_line <- Candles.broadcast Qminus e12 e26 ;;
    sig <- _ema macd_line 9 ;;
    hist <- Candles.broadcast Qminus macd_line sig ;;
    m <- from_end macd_line 1 ;;
    s <- from_end sig 1 ;;
    h <- from_end hist 1 ;;
    Ok {| macd := Some m; signal := Some s; histogram := Some h |}.

End Macd.

(** ** indicators.py: the confidence score *)

Module Confidence.

Import Macd.

(** The dictionary of [calculate_volume_profile]. *)
Record volume_profile : Type := {
  poc : option Q;
  low_volume_nodes : list Q
}.

(** [d.get(key, 0)] *)
Definition get0 (o : option Q) : Q :=
  match o with
  | Some x => x
  | None => 0
  end.

(** [direction == text] for a direction that may be [None]. *)
Definition dir_is (direction : option string) (text : string) : bool :=
  match direction with
  | Some d => String.eqb d text
  | None => false
  end.

(** [bool(soft)] *)
Definition nonempty {A : Type} (xs : list A) : bool :=
  match xs with
  | [] => false
  | _ :: _ => true
  end.

(** The score, the reasons and the soft signals are threaded through the
    four blocks in the order of the source; [reasons.append] is [++]. *)
Definition assess_confidence (direction : option string) (reasons : list string)
    (swing_age : Z) (trend_4h : string) (vp : volume_profile) (md : macd_data)
    (current_price atr : Q) : Q * list string :=
  let confidence : Q := inject_Z (Z.of_nat (length reasons)) in
  let soft : list string := [] in
  let '(confidence, reasons) :=
    if (swing_age <=? 10)%Z
    then (confidence + 1, reasons ++ ["fresh level"%string])
    else if (50 <? swing_age)%Z
    then (confidence - 1, reasons ++ ["very old level"%string])
    else (confidence, reasons) in
  let '(confidence, reasons, soft) :=
    if dir_is direction "LONG" && String.eqb trend_4h "up"
    then (confidence + 1, reasons ++ ["4H confirms"%string], soft)
    else if dir_is direction "SHORT" && String.eqb trend_4h "down"
    then (confidence + 1, reasons ++ ["4H confirms"%string], soft)
    else if String.eqb trend_4h "flat"
    then (confidence, reasons, soft ++ ["4H flat"%string])
    else (confidence - 1, reasons ++ ["4H does not confirm"%string], soft) in
  let '(confidence, reasons) :=
    match poc vp with
    | Some poc_val =>
        let diff := Qabs (current_price - poc_val) in
        if diff <? 0.3 * atr
        then (confidence - 1, reasons ++ ["near POC"%string])
        else if existsb (fun n => Qabs (current_price - n) <? 0.000000001)
                  (low_volume_nodes vp)
        then (confidence + 1, reasons ++ ["exit from low-volume area"%string])
        else (confidence, reasons)
    | None => (confidence, reasons)
    end in
  let macd_v := get0 (macd md) in
  let sig := get0 (signal md) in
  let hist := get0 (histogram md) in
  let '(confidence, reasons, soft) :=
    if dir_is direction "LONG"
    then
      if (macd_v >? sig) && (hist >? 0)
      then (confidence + 1, reasons ++ ["MACD confirms"%string], soft)
      else if hist >? -0.002
      then (confidence, reasons, soft ++ ["MACD weak"%string])
      else (confidence - 1, reasons ++ ["MACD does not confirm"%string], soft)
    else if dir_is direction "SHORT"
    then
      if (macd_v <? sig) && (hist <? 0)
      then (confidence + 1, reasons ++ ["MACD conforms"%string], soft)
      else if hist <? 0.002
      then (confidence, reasons, soft ++ ["MACD weak"%string])
      else (confidence - 1, reasons ++ ["MACD does not confirm"%string], soft)
    else (confidence, reasons, soft) in
  let '(confidence, reasons) :=
    if (2 <=? confidence) && nonempty soft
    then (confidence - 0.5, reasons ++ soft)
    else (confidence, reasons) in
  (inject_Z (EntryFilterRetest.round_half_even (confidence * 2)) / 2, reasons).

End Confidence.

(** ** levels_detector.py *)

Module LevelsDetector.

Import Candles.

(** [min(values)]; the empty list is a [ValueError]. *)
Definition py_min (xs : list Q) : result Q :=
  match xs with
  | [] => Raise ValueError
  | x :: rest => Ok (fold_left min2 rest x)
  end.

(** [statistics.mean(xs)]; the empty list raises [StatisticsError], a
    [ValueError]. *)
Definition mean (xs : list Q) : result Q :=
  match xs with
  | [] => Raise ValueError
  | _ => Ok (py_sum xs / len xs)
  end.

(** [round(v / tol)] *)
Definition bucket (tol v : Q) : Z := EntryFilterRetest.round_half_even (v / tol).

(** A [Counter] keeps its keys in the order they were first seen. *)
Fixpoint counter_add (k : Z) (c : list (Z * nat)) : list (Z * nat) :=
  match c with
  | [] => [(k, 1%nat)]
  | (k', n) :: rest =>
      if Z.eqb k k' then (k', S n) :: rest else (k', n) :: counter_add k rest
  end.

Definition counter (ks : list Z) : list (Z * nat) :=
  fold_left (fun c k => counter_add k c) ks [].

(** [buckets.most_common(1)[0]]: the first entry with the largest count. *)
Definition most_common1 (c : list (Z * nat)) : result (Z * nat) :=
  match c with
  | [] => Raise IndexError
  | e :: rest =>
      Ok (fold_left (fun best e' => if Nat.ltb (snd best) (snd e') then e' else best)
            rest e)
  end.

(** [spread * tol_pct or 1e-8] *)
Definition tolerance (spread tol_pct : Q) : Q :=
  let t := spread * tol_pct in
  if Qeq_bool t 0 then 0.00000001 else t.

Definition _cluster_level (values : list Q) (tol_pct : Q)
    : result (option Q * nat) :=
  match values with
  | [] => Ok (None, 0%nat)
  | _ =>
      hi <- Py.max values ;;
      lo <- py_min values ;;
      let spread := hi - lo in
      let tol := tolerance spread tol_pct in
      let buckets := counter (map (bucket tol) values) in
      top <- most_common1 buckets ;;
      let most_common_bucket := fst top in
      let freq := snd top in
      let level_vals :=
        filter (fun v => Z.eqb (bucket tol v) most_common_bucket) values in
      m <- mean level_vals ;;
      Ok (Some m, freq)
  end.

(** [_age]: the scan from the last index down, on the reversed series;
    [pos] is [len(series) - idx]. *)
Fixpoint age_scan (level : Q) (reversed : list Q) (pos : nat) : option nat :=
  match reversed with
  | [] => None
  | x :: rest =>
      if Qabs (x - level) <? 0.00000001 then Some pos
      else age_scan level rest (S pos)
  end.

Definition _age (level : Q) (series : list Q) : nat :=
  match age_scan level (rev series) 1 with
  | Some a => a
  | None => length series
  end.

(** The dictionary of [detect_swing_levels]. *)
Record swing_levels : Type := {
  swing_high : Q;
  swing_low : Q;
  swing_age : nat;
  tests_high : nat;
  tests_low : nat;
  next_swing_high : option Q;
  next_swing_low : option Q
}.

(** What [detect_swing_levels] returns: [None], [{}] or the levels. *)
Inductive detection : Type :=
| NoData
| NoLevels
| Levels (l : swing_levels).

(** [detect_swing_levels] on the klines that [get_klines] returned. *)
Definition detect_swing_levels (data : list kline) : result detection :=
  match data with
  | [] => Ok NoData
  | _ =>
      let highs := map k_high data in
      let lows := map k_low data in
      high <- _cluster_level highs 0.15 ;;
      low <- _cluster_level lows 0.15 ;;
      match fst high, fst low with
      | Some sh, Some sl =>
          let next_highs := filter (fun h => h >? sh * 1.01) highs in
          let next_lows := filter (fun l => l <? sl * 0.99) lows in
          next_high <- _cluster_level next_highs 0.10 ;;
          next_low <- _cluster_level next_lows 0.10 ;;
          let age_high := _age sh highs in
          let age_low := _age sl lows in
          Ok (Levels {| swing_high := sh;
                        swing_low := sl;
                        swing_age := Nat.min age_high age_low;
                        tests_high := snd high;
                        tests_low := snd low;
                        next_swing_high := fst next_high;
                        next_swing_low := fst next_low |})
      | _, _ => Ok NoLevels
      end
  end.

End LevelsDetector.

(** ** utils/market_watch.py: [VolatilityGuard] *)

Module MarketWatch.

Import Candles.

Record guard : Type := {
  max_factor : Q;
  cool_off : Q;
  last_trigger : Q;
  window : list Q
}.

(** [VolatilityGuard(max_factor, cool_off)] *)
Definition init (max_factor cool_off : Q) : guard :=
  {| max_factor := max_factor; cool_off := cool_off;
     last_trigger := 0; window := [] |}.

(** [append] on a [deque(maxlen=60)]: a full deque drops its oldest
    element. *)
Definition deque_append (w : list Q) (x : Q) : list Q :=
  if Nat.ltb (length w) 60 then w ++ [x] else tl w ++ [x].

(** [push]; [now] is what [time.time()] returns during the call. *)
Definition push (now : Q) (g : guard) (atr_1m : Q) : bool * guard :=
  let w := deque_append (window g) atr_1m in
  let g1 := {| max_factor := max_factor g; cool_off := cool_off g;
               last_trigger := last_trigger g; window := w |} in
  if Nat.ltb (length w) 60 then (false, g1)
  else
    let atr_hour := py_sum w / 60 in
    if atr_1m >? atr_hour * max_factor g
    then (true, {| max_factor := max_factor g; cool_off := cool_off g;
                   last_trigger := now; window := w |})
    else (false, g1).

Definition in_cool_off (now : Q) (g : guard) : bool :=
  (now - last_trigger g) <? cool_off g.

(** A run of [push] calls, each with the time it is made at; the answers
    come in the order of the calls. *)
Fixpoint pushes (g : guard) (readings : list (Q * Q)) : list bool * guard :=
  match readings with
  | [] => ([], g)
  | (now, atr_1m) :: rest =>
      let '(b, g') := push now g atr_1m in
      let '(bs, g'') := pushes g' rest in
      (b :: bs, g'')
  end.

End MarketWatch.

(** * Vocabulary of the properties *)

Module Spec.

Import RiskUtils.

(** A level is on the unfavourable side of the entry: below it for a
    LONG, above it for a SHORT. *)
Definition unfavourable (side : string) (entry_price l : Q) : Prop :=
  (is_long side = true /\ l < entry_price) \/
  (is_short side = true /\ entry_price < l).

(** A level is on the favourable side of the entry: above it for a LONG,
    below it for a SHORT. *)
Definition favourable (side : string) (entry_price t : Q) : Prop :=
  (is_long side = true /\ entry_price < t) \/
  (is_short side = true /\ t < entry_price).

(** Two prices agree within a tolerance. *)
Definition within (tol x y : Q) : Prop := Qabs (x - y) <= tol.

(** The trend rule as the specification words it, for an answer of the
    code on at least six closes: the latest close is compared with the
    close five bars back, [closes[-6]]. *)
Definition trend_as_stated (closes : list Q) (atr : Q) (answer : result string)
    : Prop :=
  forall last back : Q,
    from_end closes 1 = Ok last -> from_end closes 6 = Ok back ->
    (answer = Ok "up"%string <-> back + 0.2 * atr < last) /\
    (answer = Ok "down"%string <-> last < back - 0.2 * atr) /\
    (answer = Ok "flat"%string
     <-> ~ back + 0.2 * atr < last /\ ~ last < back - 0.2 * atr).

Import ContextEvaluator.

(** A log row dated [today] whose status reads REJECTED, in any case. *)
Definition rejected_row (today : string) (r : row) : Prop :=
  exists s, date r = Text today /\ scenario_status r = Text s /\
            PyStr.upper s = "REJECTED"%string.

(** An event dated [today] whose status reads REJECTED, in any case. *)
Definition rejected_event (today : string) (e : event) : Prop :=
  fst (fst e) = today /\ PyStr.upper (snd e) = "REJECTED"%string.

(** Both counters moved up by one. *)
Definition bumped (st : counters) : counters :=
  {| daily_rejection_count := daily_rejection_count st + 1;
     consecutive_rejections := consecutive_rejections st + 1 |}.

(** The consecutive counter back at zero, the daily one as it was. *)
Definition settled (st : counters) : counters :=
  {| daily_rejection_count := daily_rejection_count st;
     consecutive_rejections := 0 |}.

End Spec.

Import Spec.

(** * Vocabulary of the further properties *)

Module Facts.

Import ContextEvaluator.

(** A row dated [today] whose status reads REJECTED, as a test. *)
Definition is_rejected_today (today : string) (r : row) : bool :=
  match date r, scenario_status r with
  | Text d, Text s => String.eqb d today && String.eqb (PyStr.upper s) "REJECTED"
  | _, _ => false
  end.

(** A row dated [today] whose status reads ACCEPTED, as a test. *)
Definition is_accepted_today (today : string) (r : row) : bool :=
  match date r, scenario_status r with
  | Text d, Text s => String.eqb d today && String.eqb (PyStr.upper s) "ACCEPTED"
  | _, _ => false
  end.

(** The number of today's rejections in a log. *)
Definition count_rejected (today : string) (rows : list row) : nat :=
  length (filter (is_rejected_today today) rows).

(** Today's rejections since today's last acceptance, read from the end
    of the log backwards. *)
Fixpoint streak (today : string) (reversed : list row) : nat :=
  match reversed with
  | [] => 0
  | r :: rest =>
      if is_accepted_today today r then 0
      else if is_rejected_today today r then S (streak today rest)
      else streak today rest
  end.



(** The number of elements of a list, as a float. *)
Definition number_of {A : Type} (xs : list A) : Q :=
  inject_Z (Z.of_nat (length xs)).

(** The consecutive count is between zero and the daily count. *)
Definition counters_ordered (st : counters) : Prop :=
  (0 <= consecutive_rejections st <= daily_rejection_count st)%Z.

(** The two bounce reasons of [evaluate_direction]. *)
Definition bounce_reasons : list string :=
  ["Bounce from swing-LOW within 1.8 ATR"; "Bounce from swing-HIGH within 1.8 ATR"]%string.

(** The two reasons of a confirmed breakout. *)
Definition confirmed_breakout_reasons : list string :=
  ["Breakout up + volume + 1H trend"; "Breakout down + volume + 1H trend"]%string.

(** The reasons of a breakout without confirmation. *)
Definition plain_breakout_reasons : list string :=
  ["Simple up breakout"; "Simple down breakout"; "Flat-breakout + volume"]%string.

(** How often a key occurs in a list of keys. *)
Definition occurrences (k : Z) (ks : list Z) : nat :=
  length (filter (fun x => Z.eqb x k) ks).

(** The count a [Counter] holds for a key, zero for a key it lacks. *)
Fixpoint counted (k : Z) (c : list (Z * nat)) : nat :=
  match c with
  | [] => 0
  | (k', n) :: rest => if Z.eqb k k' then n else counted k rest
  end.

(** The values of a series that fall into one bucket of width [tol]. *)
Definition in_bucket (tol : Q) (k : Z) (values : list Q) : list Q :=
  filter (fun v => Z.eqb (LevelsDetector.bucket tol v) k) values.

(** The highs and the lows of a run of klines. *)
Definition highs_of (data : list Candles.kline) : list Q :=
  map Candles.k_high data.

Definition lows_of (data : list Candles.kline) : list Q :=
  map Candles.k_low data.

End Facts.

Import Facts.

(** * Properties *)

(** ** Comparisons and absolute values *)

Lemma ltb_spec (x y : Q) : BoolSpec (x < y) (y <= x) (x <? y).
Proof.
  unfold Py.ltb. destruct (Qle_bool y x) eqn:E; constructor.
  - now apply Qle_bool_iff.
  - apply Qnot_le_lt. intro H. apply Qle_bool_iff in H. congruence.
Qed.

Lemma gtb_spec (x y : Q) : BoolSpec (y < x) (x <= y) (x >? y).
Proof. unfold Py.gtb. apply ltb_spec. Qed.

Lemma leb_spec (x y : Q) : BoolSpec (x <= y) (y < x) (x <=? y).
Proof.
  unfold Py.leb. destruct (Qle_bool x y) eqn:E; constructor.
  - now apply Qle_bool_iff.
  - apply Qnot_le_lt. intro H. apply Qle_bool_iff in H. congruence.
Qed.

Lemma eq0_spec (x : Q) : BoolSpec (x == 0) (~ x == 0) (Qeq_bool x 0).
Proof.
  destruct (Qeq_bool x 0) eqn:E; constructor.
  - now apply Qeq_bool_iff.
  - now apply Qeq_bool_neq.
Qed.

Lemma Qabs_cases (x : Q) : (0 <= x /\ Qabs x == x) \/ (x <= 0 /\ Qabs x == - x).
Proof.
  destruct (Qlt_le_dec x 0) as [H | H].
  - right. split; [lra | apply Qabs_neg; lra].
  - left. split; [exact H | now apply Qabs_pos].
Qed.

(** Turns the comparisons of a goal or a hypothesis into facts on [Q]. *)
Ltac cmp :=
  repeat match goal with
    | |- context [Py.ltb ?x ?y] => destruct (ltb_spec x y)
    | |- context [Py.gtb ?x ?y] => destruct (gtb_spec x y)
    | |- context [Py.leb ?x ?y] => destruct (leb_spec x y)
    | |- context [Qeq_bool ?x 0] => destruct (eq0_spec x)
    | H : context [Py.ltb ?x ?y] |- _ => destruct (ltb_spec x y)
    | H : context [Py.gtb ?x ?y] |- _ => destruct (gtb_spec x y)
    | H : context [Py.leb ?x ?y] |- _ => destruct (leb_spec x y)
    | H : context [Qeq_bool ?x 0] |- _ => destruct (eq0_spec x)
    end.

(** ** risk_utils.py: the structural limit *)

Section StructuralLimit.

Import RiskUtils.

Variables (entry_price atr : Q) (side : string).

Lemma on_limit_side_unfavourable (raw : Q) :
  on_limit_side side raw entry_price = true ->
  unfavourable side entry_price raw.
Proof.
  unfold on_limit_side, unfavourable.
  destruct (is_long side), (is_short side); simpl; cmp; simpl;
    intros; try discriminate; auto.
Qed.

Lemma limit_trendline_unfavourable (tl : option Q) (l : Q) :
  limit_trendline entry_price atr tl side = Some l ->
  unfavourable side entry_price l.
Proof.
  unfold limit_trendline. destruct (truthy tl) as [tp |]; [| discriminate].
  cbv zeta.
  destruct (on_limit_side side _ entry_price) eqn:E;
    [| rewrite andb_false_r; discriminate].
  destruct (_ <? _); simpl; [| discriminate].
  intros Hret; injection Hret as <-. now apply on_limit_side_unfavourable.
Qed.

Lemma limit_swing_unfavourable (sh sl : option Q) (l : Q) :
  limit_swing entry_price atr sh sl side = Some l ->
  unfavourable side entry_price l.
Proof.
  unfold limit_swing, unfavourable.
  destruct (is_long side) eqn:L.
  - destruct (truthy sl) as [v |].
    + cbv zeta. cmp; simpl; try discriminate.
      intros Hret; injection Hret as <-. now left.
    + destruct (is_short side) eqn:S; [| discriminate].
      apply String.eqb_eq in L, S. congruence.
  - destruct (is_short side) eqn:S; [| discriminate].
    destruct (truthy sh) as [v |]; [| discriminate].
    cbv zeta. cmp; simpl; try discriminate.
    intros Hret; injection Hret as <-. now right.
Qed.

Lemma limit_level_unfavourable (level : option Q) (l : Q) :
  limit_level entry_price atr level side = Some l ->
  unfavourable side entry_price l.
Proof.
  unfold limit_level. destruct (truthy level) as [p |]; [| discriminate].
  cbv zeta.
  destruct (on_limit_side side _ entry_price) eqn:E; [| discriminate].
  destruct (_ <? _); [| discriminate].
  intros Hret; injection Hret as <-. now apply on_limit_side_unfavourable.
Qed.

Lemma select_structural_limit_unfavourable
    (sh sl tl poc lv : option Q) (l : Q) :
  select_structural_limit entry_price atr sh sl tl poc lv side = Ok (Some l) ->
  0 < atr /\ unfavourable side entry_price l.
Proof.
  unfold select_structural_limit. cmp; [discriminate |].
  intros Hret; injection Hret as Hret. split; [assumption |].
  unfold or_else in Hret.
  destruct (limit_trendline _ _ _ _) eqn:E1;
    [injection Hret as <-; eapply limit_trendline_unfavourable; eassumption |].
  destruct (limit_swing _ _ _ _ _) eqn:E2;
    [injection Hret as <-; eapply limit_swing_unfavourable; eassumption |].
  destruct (limit_level _ _ poc _) eqn:E3;
    [injection Hret as <-; eapply limit_level_unfavourable; eassumption |].
  eapply limit_level_unfavourable; eassumption.
Qed.

End StructuralLimit.

(** C9. [select_structural_limit] raises exactly when the ATR is not
    positive, the error then is [ValueError]; with a positive ATR it
    returns, a price or [None]. *)
Theorem select_structural_limit_raises_iff_atr_not_positive
    (entry_price atr : Q) (swing_high swing_low trendline_price poc
     low_volume_exit : option Q) (side : string) :
  ((exists e, RiskUtils.select_structural_limit entry_price atr swing_high
                swing_low trendline_price poc low_volume_exit side = Raise e)
   <-> atr <= 0) /\
  (RiskUtils.select_structural_limit entry_price atr swing_high
     swing_low trendline_price poc low_volume_exit side = Raise ValueError
   <-> atr <= 0) /\
  (0 < atr <->
   exists r : option Q,
     RiskUtils.select_structural_limit entry_price atr swing_high
       swing_low trendline_price poc low_volume_exit side = Ok r).
Proof.
  unfold RiskUtils.select_structural_limit.
  destruct (leb_spec atr 0) as [H | H].
  - repeat split; intros; eauto; try lra.
    destruct H0 as [r H0]. discriminate.
  - repeat split; intros; eauto; try lra; try discriminate.
    destruct H0 as [e H0]. discriminate.
Qed.

(** ** risk_utils.py: the structural target *)

Section StructuralTarget.

Import RiskUtils.

Variables (entry_price : Q) (side : string).

Lemma swing_candidate_favourable (hi lo : option Q) (t : Q) :
  swing_candidate entry_price hi lo side = Some t ->
  favourable side entry_price t.
Proof.
  unfold swing_candidate, favourable.
  destruct (is_long side) eqn:L.
  - destruct (truthy hi) as [v |].
    + cbv zeta. cmp; try discriminate.
      intros Hret; injection Hret as <-. now left.
    + destruct (is_short side) eqn:S; [| discriminate].
      apply String.eqb_eq in L, S. congruence.
  - destruct (is_short side) eqn:S; [| discriminate].
    destruct (truthy lo) as [v |]; [| discriminate].
    cbv zeta. cmp; try discriminate.
    intros Hret; injection Hret as <-. now right.
Qed.

Lemma target_swing_favourable (sh sl nsh nsl : option Q) (b : bool) (t : Q) :
  target_swing entry_price sh sl nsh nsl side b = Some t ->
  favourable side entry_price t.
Proof.
  unfold target_swing. destruct b; apply swing_candidate_favourable.
Qed.

Lemma target_level_favourable (target level : option Q) (t : Q) :
  (forall t0, target = Some t0 -> favourable side entry_price t0) ->
  target_level target entry_price level side = Some t ->
  favourable side entry_price t.
Proof.
  unfold target_level. intros Hprev.
  destruct target as [t0 |]; [intros Hret; apply Hprev; assumption |].
  destruct (truthy level) as [p |]; [| discriminate].
  unfold on_target_side, favourable.
  destruct (is_long side), (is_short side); simpl; cmp; simpl;
    intros Hret; try discriminate; injection Hret as <-; auto.
Qed.

(** The fallback target is favourable as soon as the stop distance is
    positive and the side is one of the two directions. *)
Lemma fallback_favourable (stop_dist : Q) :
  0 < stop_dist -> side = "LONG"%string \/ side = "SHORT"%string ->
  favourable side entry_price
    (entry_price + stop_dist * Config.STRUCTURAL_TARGET_RATIO * sign side).
Proof.
  unfold favourable, sign, Config.STRUCTURAL_TARGET_RATIO.
  intros Hpos [-> | ->]; simpl.
  - left. split; [reflexivity | lra].
  - right. split; [reflexivity | lra].
Qed.

(** With a positive stop distance the target selection returns, and its
    target is favourable. *)
Lemma select_structural_target_favourable
    (structural_limit atr : Q) (sh sl nsh nsl tt poc lv : option Q)
    (b : bool) (conf : Q) :
  ~ structural_limit == entry_price ->
  side = "LONG"%string \/ side = "SHORT"%string ->
  exists (t : Q) (p : option Q) (d : bool),
    select_structural_target entry_price structural_limit atr
      sh sl nsh nsl tt poc lv side b conf = Ok (t, p, d) /\
    favourable side entry_price t.
Proof.
  intros Hne Hside. unfold select_structural_target. cbv zeta.
  assert (Hstop : 0 < Qabs (entry_price - structural_limit)).
  { destruct (Qabs_cases (entry_price - structural_limit)) as [[? ?] | [? ?]];
      destruct (Qlt_le_dec 0 (Qabs (entry_price - structural_limit)));
      try assumption; exfalso; apply Hne; lra. }
  set (stop_dist := Qabs (entry_price - structural_limit)) in *.
  set (target := target_level _ _ lv _).
  assert (Hfav : forall t, target = Some t -> favourable side entry_price t).
  { intros t. subst target.
    apply target_level_favourable. intros t1.
    apply target_level_favourable. intros t2.
    apply target_level_favourable. intros t3.
    apply target_swing_favourable. }
  set (final := match target with Some t => t | None => _ end).
  assert (Hfinal : favourable side entry_price final).
  { subst final. destruct target as [t |].
    - now apply Hfav.
    - now apply fallback_favourable. }
  unfold Py.div, Py.bind.
  destruct (eq0_spec stop_dist) as [H0 | H0]; [lra |].
  destruct (_ >? _); eauto.
Qed.

(** Whatever limit it is given, a target that the selection returns is
    favourable: with a zero stop distance the ratio raises instead. *)
Lemma select_structural_target_returned_favourable
    (structural_limit atr : Q) (sh sl nsh nsl tt poc lv : option Q)
    (b : bool) (conf : Q) (t : Q) (p : option Q) (d : bool) :
  side = "LONG"%string \/ side = "SHORT"%string ->
  select_structural_target entry_price structural_limit atr
    sh sl nsh nsl tt poc lv side b conf = Ok (t, p, d) ->
  favourable side entry_price t.
Proof.
  intros Hside Hcall.
  destruct (Qeq_dec structural_limit entry_price) as [Heq | Hne].
  - exfalso. revert Hcall. unfold select_structural_target. cbv zeta.
    unfold Py.div.
    destruct (eq0_spec (Qabs (entry_price - structural_limit))) as [_ | Hnz];
      [discriminate |].
    exfalso. apply Hnz. rewrite Heq.
    setoid_replace (entry_price - entry_price) with 0 by ring. reflexivity.
  - destruct (select_structural_target_favourable structural_limit atr
                sh sl nsh nsl tt poc lv b conf Hne Hside)
      as (t' & p' & d' & Hcall' & Hfav).
    rewrite Hcall in Hcall'. injection Hcall' as <- _ _. exact Hfav.
Qed.

End StructuralTarget.

(** C1. For a LONG or a SHORT with a positive ATR, a limit that the limit
    selection returns is strictly below the entry for a LONG and strictly
    above it for a SHORT, and the target selection run with that limit
    returns; a target that the target selection returns is strictly above
    the entry for a LONG and strictly below it for a SHORT. Neither is
    equal to the entry price. *)
Theorem structural_limit_and_target_sides
    (entry_price atr : Q) (side : string)
    (swing_high swing_low trendline_price poc low_volume_exit : option Q)
    (limit : Q)
    (swing_high' swing_low' next_swing_high next_swing_low trendline_target
     poc' low_volume_exit' : option Q) (breakout : bool) (confidence : Q) :
  side = "LONG"%string \/ side = "SHORT"%string ->
  0 < atr ->
  RiskUtils.select_structural_limit entry_price atr swing_high swing_low
    trendline_price poc low_volume_exit side = Ok (Some limit) ->
  (side = "LONG"%string -> limit < entry_price) /\
  (side = "SHORT"%string -> entry_price < limit) /\
  ~ limit == entry_price /\
  (exists (target : Q) (partial_target : option Q) (dynamic_adjustment : bool),
     RiskUtils.select_structural_target entry_price limit atr
       swing_high' swing_low' next_swing_high next_swing_low trendline_target
       poc' low_volume_exit' side breakout confidence
     = Ok (target, partial_target, dynamic_adjustment)) /\
  (forall (structural_limit target : Q) (partial_target : option Q)
          (dynamic_adjustment : bool),
     RiskUtils.select_structural_target entry_price structural_limit atr
       swing_high' swing_low' next_swing_high next_swing_low trendline_target
       poc' low_volume_exit' side breakout confidence
     = Ok (target, partial_target, dynamic_adjustment) ->
     (side = "LONG"%string -> entry_price < target) /\
     (side = "SHORT"%string -> target < entry_price) /\
     ~ target == entry_price).
Proof.
  intros Hside Hatr Hlimit.
  apply select_structural_limit_unfavourable in Hlimit as [_ Hl].
  assert (Hne : ~ limit == entry_price).
  { destruct Hl as [[_ ?] | [_ ?]]; lra. }
  unfold unfavourable in Hl.
  split; [| split; [| split; [exact Hne | split]]].
  - intros ->. destruct Hl as [[_ ?] | [S _]]; [assumption | discriminate].
  - intros ->. destruct Hl as [[L _] | [_ ?]]; [discriminate | assumption].
  - destruct (select_structural_target_favourable entry_price side limit atr
                swing_high' swing_low' next_swing_high next_swing_low
                trendline_target poc' low_volume_exit' breakout confidence
                Hne Hside) as (t & p & d & Hcall & _).
    eauto.
  - intros sl t p d Hcall.
    apply select_structural_target_returned_favourable in Hcall as Ht;
      [| exact Hside].
    unfold favourable in Ht. repeat split.
    + intros ->. destruct Ht as [[_ ?] | [S _]]; [assumption | discriminate].
    + intros ->. destruct Ht as [[L _] | [_ ?]]; [discriminate | assumption].
    + destruct Ht as [[_ ?] | [_ ?]]; lra.
Qed.

Lemma structural_limit_and_target_sides_witness :
  ("LONG"%string = "LONG"%string -> 95 * 0.997 - 0.25 * 2 < 100) /\
  ("LONG"%string = "SHORT"%string -> 100 < 95 * 0.997 - 0.25 * 2) /\
  ~ 95 * 0.997 - 0.25 * 2 == 100 /\
  (exists (target : Q) (partial_target : option Q) (dynamic_adjustment : bool),
     RiskUtils.select_structural_target 100 (95 * 0.997 - 0.25 * 2) 2
       None (Some 95) None None None None None "LONG" false 0
     = Ok (target, partial_target, dynamic_adjustment)) /\
  (forall (structural_limit target : Q) (partial_target : option Q)
          (dynamic_adjustment : bool),
     RiskUtils.select_structural_target 100 structural_limit 2
       None (Some 95) None None None None None "LONG" false 0
     = Ok (target, partial_target, dynamic_adjustment) ->
     ("LONG"%string = "LONG"%string -> 100 < target) /\
     ("LONG"%string = "SHORT"%string -> target < 100) /\
     ~ target == 100).
Proof.
  apply (structural_limit_and_target_sides 100 2 "LONG"
           None (Some 95) None None None (95 * 0.997 - 0.25 * 2)
           None (Some 95) None None None None None false 0).
  - left. reflexivity.
  - reflexivity.
  - reflexivity.
Defined.

(** The partial target and the flag are set exactly when the ratio of the
    returned target exceeds [STRUCTURAL_TARGET_RATIO]; [RR_MAX] is not
    read. *)
Lemma select_structural_target_partial_iff
    (entry_price structural_limit atr : Q)
    (sh sl nsh nsl tt poc lv : option Q) (side : string) (b : bool) (conf : Q)
    (t : Q) (p : option Q) (d : bool) :
  RiskUtils.select_structural_target entry_price structural_limit atr
    sh sl nsh nsl tt poc lv side b conf = Ok (t, p, d) ->
  exists r : Q,
    RiskUtils.rr entry_price structural_limit t = Ok r /\
    ((p <> None /\ d = true) <-> Config.STRUCTURAL_TARGET_RATIO < r) /\
    ((p = None /\ d = false) <-> r <= Config.STRUCTURAL_TARGET_RATIO).
Proof.
  unfold RiskUtils.select_structural_target, RiskUtils.rr. cbv zeta.
  set (final := match RiskUtils.target_level _ _ lv _ with
                | Some t0 => t0 | None => _ end).
  destruct (Py.div (Qabs (final - entry_price)) _) as [r | e] eqn:D;
    unfold Py.bind; [| discriminate].
  destruct (gtb_spec r Config.STRUCTURAL_TARGET_RATIO) as [G | G];
    intros Hret; injection Hret as <- <- <-; rewrite D; exists r;
    (split; [reflexivity |]); split; split;
    try (intros [? ?]); try intros ?; try discriminate; try congruence;
    try lra; try (split; congruence).
Qed.

(** C3. The code raises the partial target and the flag at a ratio of 5,
    which is above [STRUCTURAL_TARGET_RATIO] = 3 but does not exceed
    [RR_MAX] = 10: entry 100, limit 99, trendline target 105, LONG. *)
Theorem partial_target_raised_below_rr_max :
  exists (t p r : Q),
    RiskUtils.select_structural_target 100 99 1
      None None None None (Some 105) None None "LONG" false 0
    = Ok (t, Some p, true) /\
    t == 105 /\ p == 101.5 /\
    RiskUtils.rr 100 99 t = Ok r /\ r == 5 /\
    ~ Config.RR_MAX < r.
Proof.
  eexists. eexists. eexists.
  split; [vm_compute; reflexivity |].
  split; [reflexivity |].
  split; [reflexivity |].
  split; [vm_compute; reflexivity |].
  split; [reflexivity |].
  unfold Config.RR_MAX. intros H. vm_compute in H. discriminate.
Qed.

(** C8, as the spec states it: the limit of the fixture is not within
    0.01 of 94.265 (it is 94.215, see the next theorem). *)
Lemma fixture_limit_is_not_94_265 :
  ~ exists l : Q,
      RiskUtils.select_structural_limit 100 2 None (Some 95) None None None "LONG"
      = Ok (Some l) /\
      within 0.01 l 94.265.
Proof.
  intros (l & Hl & Hw).
  vm_compute in Hl. injection Hl as <-.
  unfold within in Hw. vm_compute in Hw. apply Hw. reflexivity.
Qed.

(** C8, amended. For entry 100, ATR 2, swing low 95, LONG and nothing else:
    the limit is 95 * 0.997 - 0.25 * 2 = 94.215 within a tolerance of
    0.000000001; without breakout and swing high the target falls back to
    100 + (100 - 94.215) * 3 = 117.355 within that tolerance; the ratio
    recomputed from the two is 3 within that tolerance. *)
Theorem fixture_limit_target_ratio :
  exists (l t r : Q) (p : option Q) (d : bool),
    RiskUtils.select_structural_limit 100 2 None (Some 95) None None None "LONG"
    = Ok (Some l) /\
    within 0.000000001 l (95 * 0.997 - 0.25 * 2) /\
    within 0.000000001 l 94.215 /\
    RiskUtils.select_structural_target 100 l 2
      None (Some 95) None None None None None "LONG" false 0
    = Ok (t, p, d) /\
    within 0.000000001 t (100 + (100 - 94.215) * 3.0) /\
    within 0.000000001 t 117.355 /\
    RiskUtils.rr 100 l t = Ok r /\
    within 0.000000001 r 3.0.
Proof.
  eexists. eexists. eexists. eexists. eexists.
  split; [vm_compute; reflexivity |].
  split; [unfold within; vm_compute; discriminate |].
  split; [unfold within; vm_compute; discriminate |].
  split; [vm_compute; reflexivity |].
  split; [unfold within; vm_compute; discriminate |].
  split; [unfold within; vm_compute; discriminate |].
  split; [vm_compute; reflexivity |].
  unfold within. vm_compute. discriminate.
Qed.

(** ** indicators.py *)

Lemma from_end_ok {A : Type} (xs : list A) (k : nat) :
  (1 <= k <= length xs)%nat -> exists x, from_end xs k = Ok x.
Proof.
  intros [Hk Hlen]. unfold from_end.
  destruct (Nat.ltb_spec (length xs) k) as [? | _]; [lia |].
  destruct (Nat.eqb_spec k 0) as [? | _]; [lia |]. simpl.
  destruct (nth_error xs (length xs - k)) as [x |] eqn:E; [eauto |].
  apply nth_error_None in E. lia.
Qed.

(** The two closes [calculate_trend] reads on a series that ends with six
    closes: the last one and the fifth from the end. *)
Lemma from_end_of_six {A : Type} (older : list A) (c6 c5 c4 c3 c2 c1 : A) :
  from_end (older ++ [c6; c5; c4; c3; c2; c1]) 1 = Ok c1 /\
  from_end (older ++ [c6; c5; c4; c3; c2; c1]) 5 = Ok c5.
Proof.
  unfold from_end. rewrite length_app. cbn [length].
  split.
  - destruct (Nat.ltb_spec (length older + 6) 1) as [? | _]; [lia |].
    cbn [Nat.eqb orb]. rewrite nth_error_app2 by lia.
    replace (length older + 6 - 1 - length older)%nat with 5%nat by lia.
    reflexivity.
  - destruct (Nat.ltb_spec (length older + 6) 5) as [? | _]; [lia |].
    cbn [Nat.eqb orb]. rewrite nth_error_app2 by lia.
    replace (length older + 6 - 5 - length older)%nat with 1%nat by lia.
    reflexivity.
Qed.

(** C4. The code does not compare the latest close with the close five
    bars back. With closes 0, 10, 10, 10, 10, 10 and ATR 1 the latest close,
    10, is above the close five bars back, [closes[-6]] = 0, by more than
    0.2 ATR, and the code answers "flat", not "up": it reads [closes[-5]],
    four bars back, although it asks for six closes. On every series of
    six closes or more the answer stays the same when the close five bars
    back is replaced by any other price. *)
Theorem calculate_trend_reads_four_bars_back :
  Indicators.calculate_trend [0; 10; 10; 10; 10; 10] 1 10 = Ok "flat"%string /\
  from_end [0; 10; 10; 10; 10; 10] 1 = Ok 10 /\
  from_end [0; 10; 10; 10; 10; 10] 6 = Ok 0 /\
  0 + 0.2 * 1 < 10 /\
  ~ trend_as_stated [0; 10; 10; 10; 10; 10] 1
      (Indicators.calculate_trend [0; 10; 10; 10; 10; 10] 1 10) /\
  forall (older : list Q) (back back' c5 c4 c3 c2 c1 atr : Q) (ema_period : Z),
    Indicators.calculate_trend (older ++ [back; c5; c4; c3; c2; c1]) atr
      ema_period
    = Indicators.calculate_trend (older ++ [back'; c5; c4; c3; c2; c1]) atr
        ema_period.
Proof.
  split; [reflexivity |]. split; [reflexivity |]. split; [reflexivity |].
  split; [reflexivity |]. split.
  - intros H. destruct (H 10 0 eq_refl eq_refl) as [[_ Hup] _].
    assert (Hflat : Indicators.calculate_trend [0; 10; 10; 10; 10; 10] 1 10
                    = Ok "flat"%string) by reflexivity.
    rewrite Hflat in Hup. discriminate Hup. reflexivity.
  - intros older back back' c5 c4 c3 c2 c1 atr ema_period.
    unfold Indicators.calculate_trend. rewrite !length_app. cbn [length].
    destruct (Nat.ltb_spec (length older + 6) 6) as [? | _]; [lia |].
    destruct (from_end_of_six older back c5 c4 c3 c2 c1) as [-> ->].
    destruct (from_end_of_six older back' c5 c4 c3 c2 c1) as [-> ->].
    reflexivity.
Qed.

(** Every value the classifier returns is one of these four; "flat" is not
    among them. *)
Lemma classify_market_mode_values
    (trend_1h : string) (atr_fast atr_slow : Q) (vols_15m : list Q) (m : string) :
  Indicators.classify_market_mode trend_1h atr_fast atr_slow vols_15m = Ok m ->
  In m ["flet"; "trend"; "scalp"; "neutral"]%string.
Proof.
  unfold Indicators.classify_market_mode.
  destruct (from_end vols_15m 1); [| discriminate].
  destruct (Py.max _); [| discriminate]. unfold Py.bind.
  destruct (_ && _); [intros Hret; injection Hret as <-; simpl; auto |].
  destruct (_ && _); [intros Hret; injection Hret as <-; simpl; auto |].
  destruct (_ >? _); intros Hret; injection Hret as <-; simpl; auto.
Qed.

(** C5. On a flat trend with a fast ATR under 0.6 of the slow one the
    classifier answers "flet", which is not a market mode. *)
Theorem classify_market_mode_returns_flet :
  Indicators.classify_market_mode "flat" 1 2 [1; 1; 1; 1; 1] = Ok "flet"%string /\
  ~ In "flet"%string Indicators.market_modes.
Proof.
  split; [reflexivity |].
  unfold Indicators.market_modes. simpl.
  intros [H | [H | [H | [H | []]]]]; discriminate.
Qed.

(** C10. With both swing levels zero and a positive price the direction is
    LONG, the only reason is the simple up breakout, and the price is not
    in the middle, whatever the trend, the ATR and the candle are. *)
Theorem evaluate_direction_zero_levels
    (current_price swing_high swing_low : Q) (trend_1h : string) (atr : Q)
    (highs lows : list Q) (cs : Indicators.candle_stats) :
  swing_high == 0 -> swing_low == 0 -> 0 < current_price ->
  Indicators.evaluate_direction current_price swing_high swing_low trend_1h atr
    highs lows cs
  = (Some "LONG"%string, ["Simple up breakout"%string], false).
Proof.
  intros Hh Hl Hp. unfold Indicators.evaluate_direction, Indicators.nonzero.
  destruct (eq0_spec swing_high) as [_ | ?]; [| contradiction].
  destruct (eq0_spec swing_low) as [_ | ?]; [| contradiction].
  cbn [negb andb].
  destruct (gtb_spec current_price swing_high) as [_ | ?]; [| lra].
  destruct (ltb_spec current_price swing_high) as [? | _]; [lra |].
  rewrite andb_false_r. reflexivity.
Qed.

Lemma evaluate_direction_zero_levels_witness :
  Indicators.evaluate_direction 100 0 0 "down" 2 [] []
    {| Indicators.body := 1; Indicators.upper_wick := 3;
       Indicators.lower_wick := 3; Indicators.volume := 5;
       Indicators.volume_spike := true; Indicators.strong_body := true;
       Indicators.doji := false; Indicators.weak_volume := false |}
  = (Some "LONG"%string, ["Simple up breakout"%string], false).
Proof.
  apply evaluate_direction_zero_levels; reflexivity.
Defined.

(** ** context_evaluator.py *)

Section Hygiene.

Import ContextEvaluator.

Variable today : string.

Lemma load_row_rejected (st : counters) (r : row) :
  rejected_row today r -> load_row today st r = Ok (bumped st).
Proof.
  intros (s & Hd & Hs & Hup). unfold load_row, date_differs, status_upper.
  rewrite Hd, Hs, String.eqb_refl. simpl. rewrite Hup. reflexivity.
Qed.

Lemma load_row_accepted (st : counters) (r : row) (s : string) :
  date r = Text today -> scenario_status r = Text s ->
  PyStr.upper s = "ACCEPTED"%string ->
  load_row today st r = Ok (settled st).
Proof.
  intros Hd Hs Hup. unfold load_row, date_differs, status_upper.
  rewrite Hd, Hs, String.eqb_refl. simpl. rewrite Hup. reflexivity.
Qed.

Lemma load_row_other_day (st : counters) (r : row) :
  date r <> Text today -> load_row today st r = Ok st.
Proof.
  intros Hd. unfold load_row, date_differs.
  destruct (date r) as [| | d]; try reflexivity.
  destruct (String.eqb_spec d today) as [-> | _]; [congruence | reflexivity].
Qed.

Lemma load_rows_rejected (rows : list row) :
  Forall (rejected_row today) rows ->
  forall st,
    load_rows today st rows
    = Ok {| daily_rejection_count :=
              daily_rejection_count st + Z.of_nat (length rows);
            consecutive_rejections :=
              consecutive_rejections st + Z.of_nat (length rows) |}.
Proof.
  induction 1 as [| r rows Hr _ IH]; intros st.
  - simpl. rewrite !Z.add_0_r. now destruct st.
  - cbn [load_rows]. rewrite (load_row_rejected st r Hr). unfold Py.bind.
    rewrite IH. unfold bumped. cbn [daily_rejection_count consecutive_rejections length].
    do 2 f_equal; lia.
Qed.

Lemma log_scenario_rejected (st : counters) (log : log_file) (sym s : string) :
  PyStr.upper s = "REJECTED"%string ->
  fst (log_scenario today st log today sym s) = bumped st.
Proof.
  intros Hup. unfold log_scenario.
  rewrite String.eqb_refl, Hup. reflexivity.
Qed.

Lemma log_scenario_accepted (st : counters) (log : log_file) (sym s : string) :
  PyStr.upper s = "ACCEPTED"%string ->
  fst (log_scenario today st log today sym s) = settled st.
Proof.
  intros Hup. unfold log_scenario.
  rewrite String.eqb_refl, Hup. reflexivity.
Qed.

Lemma log_scenario_other_day (st : counters) (log : log_file)
    (d sym s : string) :
  d <> today -> fst (log_scenario today st log d sym s) = st.
Proof.
  intros Hd. unfold log_scenario.
  destruct (String.eqb_spec d today) as [? | _]; [contradiction | reflexivity].
Qed.

Lemma log_scenarios_rejected (events : list event) :
  Forall (rejected_event today) events ->
  forall st log,
    fst (log_scenarios today st log events)
    = {| daily_rejection_count :=
           daily_rejection_count st + Z.of_nat (length events);
         consecutive_rejections :=
           consecutive_rejections st + Z.of_nat (length events) |}.
Proof.
  induction 1 as [| [[d sym] s] events [Hd Hup] _ IH]; intros st log.
  - simpl. rewrite !Z.add_0_r. now destruct st.
  - simpl in Hd, Hup. subst d. cbn [log_scenarios].
    pose proof (log_scenario_rejected st log sym s Hup) as Hstep.
    destruct (log_scenario today st log today sym s) as [st' log'].
    simpl in Hstep. subst st'. rewrite IH. unfold bumped.
    cbn [daily_rejection_count consecutive_rejections length].
    f_equal; lia.
Qed.

(** *** The log written by [log_scenario] replays to the same counters *)

Lemma upper_char_idempotent (c : ascii) :
  PyStr.upper_char (PyStr.upper_char c) = PyStr.upper_char c.
Proof. destruct c as [[] [] [] [] [] [] [] []]; reflexivity. Qed.

Lemma upper_idempotent (s : string) : PyStr.upper (PyStr.upper s) = PyStr.upper s.
Proof.
  unfold PyStr.upper. induction s as [| c s IH]; cbn [PyStr.map_string].
  - reflexivity.
  - now rewrite upper_char_idempotent, IH.
Qed.

Lemma load_rows_app (st : counters) (rows : list row) (r : row) :
  load_rows today st (rows ++ [r])
  = (st' <- load_rows today st rows ;; load_row today st' r).
Proof.
  revert st.
  induction rows as [| r0 rows IH]; intros st; cbn [app load_rows Py.bind].
  - now destruct (load_row today st r).
  - destruct (load_row today st r0) as [st1 | e]; cbn [Py.bind];
      [apply IH | reflexivity].
Qed.

(** What [log_scenario] does to the counters is what the replay does with
    the row it wrote. *)
Lemma load_row_of_logged (st : counters) (log : log_file) (d sym s : string) :
  load_row today st
    {| date := Text d; scenario_status := Text (PyStr.upper s) |}
  = Ok (fst (log_scenario today st log d sym s)).
Proof.
  unfold load_row, log_scenario, date_differs, status_upper.
  cbn [date scenario_status Py.bind]. rewrite upper_idempotent.
  destruct (String.eqb d today); cbn [negb]; [| reflexivity].
  destruct (String.eqb (PyStr.upper s) "REJECTED"); [reflexivity |].
  destruct (String.eqb (PyStr.upper s) "ACCEPTED"); reflexivity.
Qed.

Lemma log_scenario_replays (st0 st : counters) (log : log_file)
    (d sym s : string) :
  _load_today_stats today log st0 = Ok st ->
  _load_today_stats today (snd (log_scenario today st log d sym s)) st0
  = Ok (fst (log_scenario today st log d sym s)).
Proof.
  intros Hload.
  rewrite <- (load_row_of_logged st log d sym s).
  assert (Hlog : snd (log_scenario today st log d sym s)
                 = _write_csv_row log
                     {| date := Text d; scenario_status := Text (PyStr.upper s) |}).
  { unfold log_scenario.
    destruct (negb _); [reflexivity |].
    destruct (String.eqb _ "REJECTED"); [reflexivity |].
    destruct (String.eqb _ "ACCEPTED"); reflexivity. }
  rewrite Hlog. unfold _load_today_stats, _write_csv_row in *.
  destruct log as [rows |].
  - rewrite load_rows_app, Hload. reflexivity.
  - injection Hload as ->. cbn [load_rows Py.bind].
    now destruct (load_row today st _).
Qed.

(** A restart during the same UTC day: an instance built over the log that
    a run of [log_scenario] calls left behind has the counters of that
    run. *)
Lemma log_scenarios_replay (events : list event) :
  forall (st0 st : counters) (log : log_file),
    _load_today_stats today log st0 = Ok st ->
    _load_today_stats today (snd (log_scenarios today st log events)) st0
    = Ok (fst (log_scenarios today st log events)).
Proof.
  induction events as [| [[d sym] s] events IH]; intros st0 st log Hload.
  - exact Hload.
  - cbn [log_scenarios].
    pose proof (log_scenario_replays st0 st log d sym s Hload) as Hstep.
    destruct (log_scenario today st log d sym s) as [st' log'].
    apply IH. exact Hstep.
Qed.

End Hygiene.

(** C2. A fresh instance built over a log of N rows dated today with status
    REJECTED has a daily count (and a consecutive count) of N, and so has a
    fresh instance without a log after N such events were logged. An event
    dated today with status REJECTED moves both counters up by one, one
    with status ACCEPTED sets the consecutive counter to zero and keeps the
    daily one, and an event of another date changes neither, during the
    replay and in [log_scenario] alike. *)
Theorem hygiene_counters (today : string) :
  (forall rows : list ContextEvaluator.row,
     Forall (rejected_row today) rows ->
     ContextEvaluator.init today (Some rows)
     = Ok {| ContextEvaluator.daily_rejection_count := Z.of_nat (length rows);
             ContextEvaluator.consecutive_rejections := Z.of_nat (length rows) |}) /\
  (forall events : list ContextEvaluator.event,
     Forall (rejected_event today) events ->
     exists fresh,
       ContextEvaluator.init today None = Ok fresh /\
       fst (ContextEvaluator.log_scenarios today fresh None events)
       = {| ContextEvaluator.daily_rejection_count := Z.of_nat (length events);
            ContextEvaluator.consecutive_rejections := Z.of_nat (length events) |}) /\
  (forall st log sym s,
     PyStr.upper s = "REJECTED"%string ->
     fst (ContextEvaluator.log_scenario today st log today sym s) = bumped st /\
     ContextEvaluator.load_row today st
       {| ContextEvaluator.date := ContextEvaluator.Text today;
          ContextEvaluator.scenario_status := ContextEvaluator.Text s |}
     = Ok (bumped st)) /\
  (forall st log sym s,
     PyStr.upper s = "ACCEPTED"%string ->
     fst (ContextEvaluator.log_scenario today st log today sym s) = settled st /\
     ContextEvaluator.load_row today st
       {| ContextEvaluator.date := ContextEvaluator.Text today;
          ContextEvaluator.scenario_status := ContextEvaluator.Text s |}
     = Ok (settled st)) /\
  (forall st log d sym s,
     d <> today ->
     fst (ContextEvaluator.log_scenario today st log d sym s) = st) /\
  (forall st r,
     ContextEvaluator.date r <> ContextEvaluator.Text today ->
     ContextEvaluator.load_row today st r = Ok st).
Proof.
  repeat apply conj.
  - intros rows Hrows. unfold ContextEvaluator.init, ContextEvaluator._load_today_stats.
    rewrite (load_rows_rejected today rows Hrows). reflexivity.
  - intros events Hev. eexists. split; [reflexivity |].
    rewrite (log_scenarios_rejected today events Hev). reflexivity.
  - intros st log sym s Hup. split.
    + now apply log_scenario_rejected.
    + apply load_row_rejected. exists s. auto.
  - intros st log sym s Hup. split.
    + now apply log_scenario_accepted.
    + now apply load_row_accepted with (s := s).
  - intros. now apply log_scenario_other_day.
  - intros. now apply load_row_other_day.
Qed.

Lemma hygiene_counters_witness :
  ContextEvaluator.init "2026-01-05"
    (Some [ {| ContextEvaluator.date := ContextEvaluator.Text "2026-01-05";
               ContextEvaluator.scenario_status := ContextEvaluator.Text "REJECTED" |};
            {| ContextEvaluator.date := ContextEvaluator.Text "2026-01-05";
               ContextEvaluator.scenario_status := ContextEvaluator.Text "rejected" |} ])
  = Ok {| ContextEvaluator.daily_rejection_count := 2;
          ContextEvaluator.consecutive_rejections := 2 |}.
Proof.
  apply (proj1 (hygiene_counters "2026-01-05")
           [ {| ContextEvaluator.date := ContextEvaluator.Text "2026-01-05";
                ContextEvaluator.scenario_status := ContextEvaluator.Text "REJECTED" |};
             {| ContextEvaluator.date := ContextEvaluator.Text "2026-01-05";
                ContextEvaluator.scenario_status := ContextEvaluator.Text "rejected" |} ]).
  repeat constructor.
  - exists "REJECTED"%string. repeat split.
  - exists "rejected"%string. repeat split.
Defined.

(** ** entry_filter_retest.py *)

Lemma fold_max2_above (x : Q) (l : list Q) :
  forall a, x < fold_left Py.max2 l a <-> x < a \/ Exists (fun b => x < b) l.
Proof.
  induction l as [| b l IH]; intros a; cbn [fold_left].
  - split; [auto | intros [H | H]; [assumption | inversion H]].
  - rewrite IH, Exists_cons. unfold Py.max2.
    destruct (ltb_spec a b); intuition lra.
Qed.

(** [max(xs) > x] says that some element of [xs] is above [x]. *)
Lemma max_above (x m : Q) (xs : list Q) :
  Py.max xs = Ok m -> (x < m <-> Exists (fun b => x < b) xs).
Proof.
  destruct xs as [| a l]; [discriminate |].
  intros Hm; injection Hm as <-.
  rewrite fold_max2_above, Exists_cons. reflexivity.
Qed.

Lemma body_sizes_ok (closes : list Q) :
  (4 <= length closes)%nat ->
  exists b1 b2 b3, EntryFilterRetest.body_sizes closes = Ok [b1; b2; b3].
Proof.
  intros Hlen. unfold EntryFilterRetest.body_sizes.
  destruct (from_end_ok closes 1) as [x1 ->]; [lia |].
  destruct (from_end_ok closes 2) as [x2 ->]; [lia |].
  destruct (from_end_ok closes 3) as [x3 ->]; [lia |].
  destruct (from_end_ok closes 4) as [x4 ->]; [lia |].
  unfold Py.bind. eauto.
Qed.

Section RetestFilter.

Import Indicators EntryFilterRetest.

Variables (direction : string) (current_price : Q) (closes_15m : list Q)
          (swing_high swing_low atr : Q) (cs : candle_stats)
          (structural_target structural_limit rr : Q)
          (trend_1h trend_4h : option string) (macd_confirms : bool)
          (confidence : option Q) (debug : bool) (retest_age : Z)
          (reasons : option (list string)).

Local Abbreviation call :=
  (entry_filter_retest direction current_price closes_15m swing_high swing_low
     atr cs structural_target structural_limit rr trend_1h trend_4h
     macd_confirms confidence debug retest_age reasons).

(** The body-stretch rejection, which only an aged retest can get. *)
Lemma body_stretch_when_aged (bodies : list Q) :
  exempt reasons = false ->
  (0 < retest_age)%Z ->
  body_sizes closes_15m = Ok bodies ->
  Exists (fun b => atr * 1.2 < b) bodies ->
  strong_body cs = false -> volume_spike cs = false ->
  macd_confirms = false -> same trend_1h direction = false ->
  call = Ok (Some (Skip body_stretch_reason atr)).
Proof.
  intros Hex Hage Hb Hany Hs Hv Hm Ht.
  unfold entry_filter_retest. rewrite Hex, Hs, Hv, Hm, Ht, Hb.
  cbn [orb andb negb Py.bind].
  destruct (Z.ltb_spec 0 retest_age) as [_ | ?]; [| lia].
  destruct (Py.max bodies) as [m | e] eqn:Hmax.
  - cbn [Py.bind]. apply (max_above (atr * 1.2)) in Hmax.
    apply Hmax in Hany.
    destruct (gtb_spec m (atr * 1.2)) as [_ | ?]; [reflexivity | lra].
  - destruct bodies; [inversion Hany | discriminate].
Qed.

(** Every verdict of [phase_verdict] carries one of its three reasons. *)
Lemma phase_verdict_reason (i o z c : bool) (r1 r2 r3 : string) (v : verdict) :
  phase_verdict i o z c direction current_price atr structural_target
    structural_limit rr confidence r1 r2 r3 = Ok (Some v) ->
  reason v = r1 \/ reason v = r2 \/ reason v = r3.
Proof.
  unfold phase_verdict. destruct i; [discriminate |].
  destruct (if o then confidence_below_2 confidence else Ok false) as [[|] | e];
    cbn [Py.bind]; try discriminate.
  - intros Hret; injection Hret as <-. auto.
  - destruct (z && c); [intros Hret; injection Hret as <-; auto |].
    destruct z; [intros Hret; injection Hret as <-; auto | discriminate].
Qed.

(** Without a positive [retest_age] no verdict is the body stretch. *)
Lemma no_body_stretch_without_age (v : verdict) :
  (retest_age <= 0)%Z -> call = Ok (Some v) ->
  reason v <> body_stretch_reason.
Proof.
  intros Hage. unfold entry_filter_retest.
  destruct (exempt reasons); [discriminate |].
  destruct (_ && _ && _); [discriminate |].
  destruct (body_sizes closes_15m) as [bodies | e]; [| discriminate].
  cbn [Py.bind].
  destruct (Z.ltb_spec 0 retest_age) as [? | _]; [lia |].
  cbn [Py.bind andb].
  destruct (String.eqb direction "LONG");
    [| destruct (String.eqb direction "SHORT"); [| discriminate]];
    intros Hret; apply phase_verdict_reason in Hret;
    destruct Hret as [-> | [-> | ->]]; discriminate.
Qed.

(** In the impulse band above the swing high a LONG passes, when the
    retest has no age and the closes suffice for the body sizes. *)
Lemma impulse_long_passes :
  direction = "LONG"%string ->
  swing_high < current_price -> current_price <= swing_high + atr * 0.3 ->
  (retest_age <= 0)%Z -> (4 <= length closes_15m)%nat ->
  call = Ok None.
Proof.
  intros -> Hlo Hhi Hage Hlen. unfold entry_filter_retest.
  destruct (exempt reasons); [reflexivity |].
  destruct (_ && _ && _); [reflexivity |].
  destruct (body_sizes_ok closes_15m Hlen) as (b1 & b2 & b3 & ->).
  cbn [Py.bind].
  destruct (Z.ltb_spec 0 retest_age) as [? | _]; [lia |].
  cbn [Py.bind andb String.eqb Ascii.eqb Bool.eqb].
  unfold phase_verdict.
  destruct (ltb_spec swing_high current_price) as [_ | ?]; [| lra].
  destruct (leb_spec current_price (swing_high + atr * 0.3)) as [_ | ?]; [| lra].
  reflexivity.
Qed.

End RetestFilter.

(** *** The exemption test reads the joined reasons *)










(** The exemption is tested on the reasons joined by spaces: two reasons
    can spell a phrase that neither of them mentions. *)
Lemma exempt_reads_joined_reasons :
  EntryFilterRetest.exempt (Some ["exit from"; "low-volume area"]%string) = true /\
  EntryFilterRetest.exempt (Some ["exit from"%string]) = false /\
  EntryFilterRetest.exempt (Some ["low-volume area"%string]) = false.
Proof. repeat split. Qed.

(** C6, as the spec states it. A LONG bounce at 101 off a swing low of 100,
    swing high 110, ATR 2, closes 95, 100, 104, 101: the bodies are 5, 4
    and 3, two of them above 1.2 ATR = 2.4; no reason mentions a breakout,
    and there is no strong body, no volume spike, no MACD agreement and no
    trend agreement. With the [retest_age] of 0 that [check_entry] passes
    the scenario is not rejected: the filter returns [None]. *)
Lemma body_stretch_not_applied_at_age_zero :
  EntryFilterRetest.exempt (Some ["Bounce from swing-LOW within 1.8 ATR"%string])
  = false /\
  EntryFilterRetest.body_sizes [95; 100; 104; 101] = Ok [5; 4; 3] /\
  Exists (fun b => 2 * 1.2 < b) [5; 4; 3] /\
  EntryFilterRetest.same (Some "flat"%string) "LONG" = false /\
  EntryFilterRetest.entry_filter_retest "LONG" 101 [95; 100; 104; 101] 110 100 2
    {| Indicators.body := 3; Indicators.upper_wick := 0;
       Indicators.lower_wick := 5; Indicators.volume := 1;
       Indicators.volume_spike := false; Indicators.strong_body := false;
       Indicators.doji := false; Indicators.weak_volume := false |}
    109.45 99.2 4 (Some "flat"%string) (Some "flat"%string) false (Some 1)
    false 0 (Some ["Bounce from swing-LOW within 1.8 ATR"%string])
  = Ok None.
Proof.
  repeat split. constructor. reflexivity.
Qed.

(** C6, amended. When the reasons, joined by spaces and in lower case,
    contain neither "breakout" nor "exit from low-volume area", the retest
    has a positive age, one of the last three bodies exceeds 1.2 ATR, and
    there is no strong body, no volume spike, no MACD agreement and no
    agreement of the 1h trend, the filter returns the "skip" verdict with
    the body-stretch reason. With a [retest_age] of 0 or less no verdict
    carries that reason; [check_entry] passes 0, so its call never returns
    it. *)
Theorem body_stretch_needs_retest_age
    (direction : string) (current_price : Q) (closes_15m : list Q)
    (swing_high swing_low atr : Q) (cs : Indicators.candle_stats)
    (structural_target structural_limit rr : Q)
    (trend_1h trend_4h : option string) (macd_confirms : bool)
    (confidence : option Q) (debug : bool) (retest_age : Z)
    (reasons : option (list string)) :
  (forall bodies : list Q,
     EntryFilterRetest.exempt reasons = false ->
     (0 < retest_age)%Z ->
     EntryFilterRetest.body_sizes closes_15m = Ok bodies ->
     Exists (fun b => atr * 1.2 < b) bodies ->
     Indicators.strong_body cs = false ->
     Indicators.volume_spike cs = false ->
     macd_confirms = false ->
     EntryFilterRetest.same trend_1h direction = false ->
     exists v,
       EntryFilterRetest.entry_filter_retest direction current_price closes_15m
         swing_high swing_low atr cs structural_target structural_limit rr
         trend_1h trend_4h macd_confirms confidence debug retest_age reasons
       = Ok (Some v) /\
       EntryFilterRetest.status v = "skip"%string /\
       EntryFilterRetest.reason v = EntryFilterRetest.body_stretch_reason) /\
  (forall v,
     (retest_age <= 0)%Z ->
     EntryFilterRetest.entry_filter_retest direction current_price closes_15m
       swing_high swing_low atr cs structural_target structural_limit rr
       trend_1h trend_4h macd_confirms confidence debug retest_age reasons
     = Ok (Some v) ->
     EntryFilterRetest.reason v <> EntryFilterRetest.body_stretch_reason) /\
  (forall (t1 t4 : string) (conf : Q) (rs : list string) v,
     EntryFilter.retest_check direction current_price closes_15m
       swing_high swing_low atr cs structural_target structural_limit rr
       t1 t4 conf rs
     = Ok (Some v) ->
     EntryFilterRetest.reason v <> EntryFilterRetest.body_stretch_reason).
Proof.
  repeat apply conj.
  - intros bodies Hex Hage Hb Hany Hs Hv Hm Ht.
    eexists. split;
      [now apply body_stretch_when_aged with (bodies := bodies) |].
    split; reflexivity.
  - intros v Hage. now apply no_body_stretch_without_age.
  - intros t1 t4 conf rs v. unfold EntryFilter.retest_check.
    apply no_body_stretch_without_age. lia.
Qed.

Lemma body_stretch_needs_retest_age_witness :
  exists v,
    EntryFilterRetest.entry_filter_retest "LONG" 101 [95; 100; 104; 101] 110 100 2
      {| Indicators.body := 3; Indicators.upper_wick := 0;
         Indicators.lower_wick := 5; Indicators.volume := 1;
         Indicators.volume_spike := false; Indicators.strong_body := false;
         Indicators.doji := false; Indicators.weak_volume := false |}
      109.45 99.2 4 (Some "flat"%string) (Some "flat"%string) false (Some 1)
      false 1 (Some ["Bounce from swing-LOW within 1.8 ATR"%string])
    = Ok (Some v) /\
    EntryFilterRetest.status v = "skip"%string /\
    EntryFilterRetest.reason v = EntryFilterRetest.body_stretch_reason.
Proof.
  apply (proj1 (body_stretch_needs_retest_age "LONG" 101 [95; 100; 104; 101]
                  110 100 2
                  {| Indicators.body := 3; Indicators.upper_wick := 0;
                     Indicators.lower_wick := 5; Indicators.volume := 1;
                     Indicators.volume_spike := false;
                     Indicators.strong_body := false;
                     Indicators.doji := false; Indicators.weak_volume := false |}
                  109.45 99.2 4 (Some "flat"%string) (Some "flat"%string) false
                  (Some 1) false 1
                  (Some ["Bounce from swing-LOW within 1.8 ATR"%string]))
           [5; 4; 3]);
    try reflexivity.
  constructor. reflexivity.
Defined.

(** C7, as the spec states it: at the fixture (LONG, swing high 100, ATR 2,
    price 100.5) a retest of age 1 with bodies 5, 5 and 0.5 and no
    confirmation is rejected for body stretch; the same call with a strong
    body passes; and with fewer than four closes the call raises. *)
Lemma impulse_fixture_depends_on_other_arguments :
  EntryFilterRetest.entry_filter_retest "LONG" 100.5 [90; 95; 100; 100.5] 100 80 2
    {| Indicators.body := 0.5; Indicators.upper_wick := 0;
       Indicators.lower_wick := 0; Indicators.volume := 1;
       Indicators.volume_spike := false; Indicators.strong_body := false;
       Indicators.doji := false; Indicators.weak_volume := false |}
    120 95 4 None None false None false 1 None
  = Ok (Some (EntryFilterRetest.Skip EntryFilterRetest.body_stretch_reason 2)) /\
  EntryFilterRetest.entry_filter_retest "LONG" 100.5 [90; 95; 100; 100.5] 100 80 2
    {| Indicators.body := 0.5; Indicators.upper_wick := 0;
       Indicators.lower_wick := 0; Indicators.volume := 1;
       Indicators.volume_spike := false; Indicators.strong_body := true;
       Indicators.doji := false; Indicators.weak_volume := false |}
    120 95 4 None None false None false 1 None
  = Ok None /\
  EntryFilterRetest.entry_filter_retest "LONG" 100.5 [100; 100.5] 100 80 2
    {| Indicators.body := 0.5; Indicators.upper_wick := 0;
       Indicators.lower_wick := 0; Indicators.volume := 1;
       Indicators.volume_spike := false; Indicators.strong_body := false;
       Indicators.doji := false; Indicators.weak_volume := false |}
    120 95 4 None None false None false 0 None
  = Raise IndexError.
Proof. repeat split. Qed.

(** C7, amended. For a LONG at price 100.5 with swing high 100 and ATR 2
    the filter returns [None] whatever the confirmation flags and the
    other arguments are, as long as [retest_age] is 0 or less (0 is the
    default and what [check_entry] passes) and there are at least four
    closes. *)
Theorem impulse_fixture_passes
    (closes_15m : list Q) (swing_low : Q) (cs : Indicators.candle_stats)
    (structural_target structural_limit rr : Q)
    (trend_1h trend_4h : option string) (macd_confirms : bool)
    (confidence : option Q) (debug : bool) (retest_age : Z)
    (reasons : option (list string)) :
  (retest_age <= 0)%Z ->
  (4 <= length closes_15m)%nat ->
  EntryFilterRetest.entry_filter_retest "LONG" 100.5 closes_15m 100 swing_low 2
    cs structural_target structural_limit rr trend_1h trend_4h macd_confirms
    confidence debug retest_age reasons
  = Ok None.
Proof.
  intros Hage Hlen. apply impulse_long_passes; try assumption; reflexivity || lra.
Qed.

Lemma impulse_fixture_passes_witness :
  EntryFilterRetest.entry_filter_retest "LONG" 100.5 [90; 95; 100; 100.5] 100 80 2
    {| Indicators.body := 0.5; Indicators.upper_wick := 0;
       Indicators.lower_wick := 0; Indicators.volume := 1;
       Indicators.volume_spike := false; Indicators.strong_body := false;
       Indicators.doji := false; Indicators.weak_volume := false |}
    120 95 4 None None false None false 0 None
  = Ok None.
Proof.
  apply impulse_fixture_passes.
  - lia.
  - simpl. lia.
Defined.

(** * Further properties of the code *)

(** ** context_evaluator.py: what the counters count *)

Section Replay.

Import ContextEvaluator.

Variable today : string.

Lemma load_row_cases (st st' : counters) (r : row) :
  load_row today st r = Ok st' ->
  (is_rejected_today today r = true /\ st' = bumped st) \/
  (is_rejected_today today r = false /\ is_accepted_today today r = true /\
   st' = settled st) \/
  (is_rejected_today today r = false /\ is_accepted_today today r = false /\
   st' = st).
Proof.
  unfold load_row, date_differs, status_upper, is_rejected_today,
    is_accepted_today.
  destruct (date r) as [| | d]; cbn [negb].
  - intros H; injection H as <-. destruct (scenario_status r); auto.
  - intros H; injection H as <-. destruct (scenario_status r); auto.
  - destruct (String.eqb d today); cbn [negb andb].
    + destruct (scenario_status r) as [| | s]; cbn [Py.bind].
      * intros H; injection H as <-. auto.
      * discriminate.
      * destruct (String.eqb (PyStr.upper s) "REJECTED") eqn:R.
        -- intros H; injection H as <-. auto.
        -- destruct (String.eqb (PyStr.upper s) "ACCEPTED");
             intros H; injection H as <-; auto.
    + intros H; injection H as <-. destruct (scenario_status r); auto.
Qed.

Lemma replay_counts_fresh (rows : list row) :
  forall st,
    load_rows today {| daily_rejection_count := 0; consecutive_rejections := 0 |} rows
    = Ok st ->
    daily_rejection_count st = Z.of_nat (count_rejected today rows) /\
    consecutive_rejections st = Z.of_nat (streak today (rev rows)).
Proof.
  induction rows as [| r rows IH] using rev_ind; intros st.
  - intros H; injection H as <-. split; reflexivity.
  - rewrite load_rows_app.
    destruct (load_rows today _ rows) as [st1 | e]; cbn [Py.bind];
      [| discriminate].
    destruct (IH st1 eq_refl) as [Hd Hc]. intros Hrow.
    unfold count_rejected in *. rewrite filter_app, length_app, rev_app_distr.
    cbn [rev app streak filter].
    apply load_row_cases in Hrow
      as [[R ->] | [[R [A ->]] | [R [A ->]]]]; rewrite R.
    + assert (A : is_accepted_today today r = false).
      { revert R. unfold is_rejected_today, is_accepted_today.
        destruct (date r), (scenario_status r); try discriminate.
        destruct (String.eqb s today); cbn [andb]; [| discriminate].
        destruct (String.eqb_spec (PyStr.upper s0) "REJECTED") as [-> |];
          [reflexivity | discriminate]. }
      rewrite A. unfold bumped.
      cbn [daily_rejection_count consecutive_rejections length].
      split; lia.
    + rewrite A. unfold settled.
      cbn [daily_rejection_count consecutive_rejections length].
      split; lia.
    + rewrite A. cbn [length]. split; lia.
Qed.

End Replay.

(** X1. A fresh instance built over a log counts, as its daily count, the
    rows dated today whose status reads REJECTED and, as its consecutive
    count, those of them that come after today's last ACCEPTED row. It
    reports the daily limit exactly when there are at least 10 of the
    former and the consecutive limit exactly when there are at least 3 of
    the latter. *)
Theorem fresh_instance_counts
    (today : string) (rows : list ContextEvaluator.row)
    (st : ContextEvaluator.counters) :
  ContextEvaluator.init today (Some rows) = Ok st ->
  ContextEvaluator.daily_rejection_count st
  = Z.of_nat (count_rejected today rows) /\
  ContextEvaluator.consecutive_rejections st
  = Z.of_nat (streak today (rev rows)) /\
  (ContextEvaluator.check_daily_rejection_limit st = true
   <-> (10 <= count_rejected today rows)%nat) /\
  (ContextEvaluator.check_consecutive_rejections st = true
   <-> (3 <= streak today (rev rows))%nat).
Proof.
  unfold ContextEvaluator.init, ContextEvaluator._load_today_stats.
  intros H. apply replay_counts_fresh in H as [Hd Hc].
  unfold ContextEvaluator.check_daily_rejection_limit,
    ContextEvaluator.check_consecutive_rejections,
    Config.DAILY_REJECTION_LIMIT, Config.MAX_CONSECUTIVE_REJECTIONS.
  rewrite Hd, Hc, !Z.leb_le. cbn [Z.abs]. repeat split; lia.
Qed.

Lemma fresh_instance_counts_witness :
  ContextEvaluator.daily_rejection_count
    {| ContextEvaluator.daily_rejection_count := 2;
       ContextEvaluator.consecutive_rejections := 1 |}
  = Z.of_nat (count_rejected "2026-01-05"
      [ {| ContextEvaluator.date := ContextEvaluator.Text "2026-01-05";
           ContextEvaluator.scenario_status := ContextEvaluator.Text "REJECTED" |};
        {| ContextEvaluator.date := ContextEvaluator.Text "2026-01-05";
           ContextEvaluator.scenario_status := ContextEvaluator.Text "ACCEPTED" |};
        {| ContextEvaluator.date := ContextEvaluator.Text "2026-01-04";
           ContextEvaluator.scenario_status := ContextEvaluator.Text "REJECTED" |};
        {| ContextEvaluator.date := ContextEvaluator.Text "2026-01-05";
           ContextEvaluator.scenario_status := ContextEvaluator.Text "rejected" |} ]).
Proof.
  apply (fresh_instance_counts "2026-01-05"
      [ {| ContextEvaluator.date := ContextEvaluator.Text "2026-01-05";
           ContextEvaluator.scenario_status := ContextEvaluator.Text "REJECTED" |};
        {| ContextEvaluator.date := ContextEvaluator.Text "2026-01-05";
           ContextEvaluator.scenario_status := ContextEvaluator.Text "ACCEPTED" |};
        {| ContextEvaluator.date := ContextEvaluator.Text "2026-01-04";
           ContextEvaluator.scenario_status := ContextEvaluator.Text "REJECTED" |};
        {| ContextEvaluator.date := ContextEvaluator.Text "2026-01-05";
           ContextEvaluator.scenario_status := ContextEvaluator.Text "rejected" |} ]).
  reflexivity.
Defined.

Lemma load_rows_ordered (today : string) (rows : list ContextEvaluator.row) :
  forall st st',
    counters_ordered st ->
    ContextEvaluator.load_rows today st rows = Ok st' ->
    counters_ordered st'.
Proof.
  induction rows as [| r rows IH]; intros st st' Hst;
    cbn [ContextEvaluator.load_rows].
  - intros H; injection H as <-. exact Hst.
  - destruct (ContextEvaluator.load_row today st r) as [st1 | e] eqn:Hrow;
      cbn [Py.bind]; [| discriminate].
    apply IH.
    apply load_row_cases in Hrow as [[_ ->] | [[_ [_ ->]] | [_ [_ ->]]]];
      unfold counters_ordered, bumped, settled in *;
      cbn [ContextEvaluator.daily_rejection_count
           ContextEvaluator.consecutive_rejections]; lia.
Qed.

(** X2. The consecutive count of an instance is never negative and never
    above its daily count: this holds for a fresh instance over any log,
    and every [log_scenario] call keeps it, whatever the date of the call
    and of the event. *)
Theorem consecutive_within_daily
    (today : string) (log : ContextEvaluator.log_file)
    (st : ContextEvaluator.counters) :
  ContextEvaluator.init today log = Ok st ->
  counters_ordered st /\
  (forall (now : string) (st1 : ContextEvaluator.counters)
          (log1 : ContextEvaluator.log_file) (date_utc symbol status : string),
     counters_ordered st1 ->
     counters_ordered
       (fst (ContextEvaluator.log_scenario now st1 log1 date_utc symbol status))).
Proof.
  intros Hinit. split.
  - revert Hinit.
    unfold ContextEvaluator.init, ContextEvaluator._load_today_stats.
    destruct log as [rows |].
    + apply load_rows_ordered. unfold counters_ordered. simpl. lia.
    + intros H; injection H as <-. unfold counters_ordered. simpl. lia.
  - intros now st1 log1 d sym s H1. unfold ContextEvaluator.log_scenario.
    destruct (negb _); [exact H1 |].
    destruct (String.eqb _ "REJECTED");
      [unfold counters_ordered in *; simpl; lia |].
    destruct (String.eqb _ "ACCEPTED");
      [unfold counters_ordered in *; simpl; lia | exact H1].
Qed.

Lemma consecutive_within_daily_witness :
  counters_ordered
    {| ContextEvaluator.daily_rejection_count := 2;
       ContextEvaluator.consecutive_rejections := 1 |} /\
  counters_ordered
    (fst (ContextEvaluator.log_scenario "2026-01-05"
            {| ContextEvaluator.daily_rejection_count := 2;
               ContextEvaluator.consecutive_rejections := 1 |} None
            "2026-01-05" "BTC-USDT" "accepted")).
Proof.
  destruct (consecutive_within_daily "2026-01-05"
              (Some [ {| ContextEvaluator.date := ContextEvaluator.Text "2026-01-05";
                         ContextEvaluator.scenario_status :=
                           ContextEvaluator.Text "REJECTED" |};
                      {| ContextEvaluator.date := ContextEvaluator.Text "2026-01-05";
                         ContextEvaluator.scenario_status :=
                           ContextEvaluator.Text "ACCEPTED" |};
                      {| ContextEvaluator.date := ContextEvaluator.Text "2026-01-04";
                         ContextEvaluator.scenario_status :=
                           ContextEvaluator.Text "REJECTED" |};
                      {| ContextEvaluator.date := ContextEvaluator.Text "2026-01-05";
                         ContextEvaluator.scenario_status :=
                           ContextEvaluator.Text "rejected" |} ])
              {| ContextEvaluator.daily_rejection_count := 2;
                 ContextEvaluator.consecutive_rejections := 1 |} eq_refl)
    as [Hfresh Hkept].
  split; [exact Hfresh | apply Hkept; exact Hfresh].
Defined.

(** X3. A restart on the same UTC day loses nothing when the run wrote
    the log itself: after any run of [log_scenario] calls on a fresh
    instance that found no log file, a new instance built over the log
    the run left behind has the counters the run ended with. *)
Theorem restart_restores_counters
    (today : string) (st : ContextEvaluator.counters)
    (events : list ContextEvaluator.event) :
  ContextEvaluator.init today None = Ok st ->
  ContextEvaluator.init today
    (snd (ContextEvaluator.log_scenarios today st None events))
  = Ok (fst (ContextEvaluator.log_scenarios today st None events)).
Proof.
  unfold ContextEvaluator.init. apply log_scenarios_replay.
Qed.

Lemma restart_restores_counters_witness :
  ContextEvaluator.init "2026-01-05"
    (snd (ContextEvaluator.log_scenarios "2026-01-05"
            {| ContextEvaluator.daily_rejection_count := 0;
               ContextEvaluator.consecutive_rejections := 0 |} None
            [("2026-01-05", "BTC-USDT", "rejected");
             ("2026-01-04", "ETH-USDT", "REJECTED");
             ("2026-01-05", "ETH-USDT", "ACCEPTED");
             ("2026-01-05", "SOL-USDT", "REJECTED")]%string))
  = Ok (fst (ContextEvaluator.log_scenarios "2026-01-05"
               {| ContextEvaluator.daily_rejection_count := 0;
                  ContextEvaluator.consecutive_rejections := 0 |} None
               [("2026-01-05", "BTC-USDT", "rejected");
                ("2026-01-04", "ETH-USDT", "REJECTED");
                ("2026-01-05", "ETH-USDT", "ACCEPTED");
                ("2026-01-05", "SOL-USDT", "REJECTED")]%string)).
Proof.
  apply (restart_restores_counters "2026-01-05"). reflexivity.
Defined.

(** ** indicators.py: the direction *)

Section Direction.

Import Indicators.

Variables (current_price swing_high swing_low : Q) (trend_1h : string)
          (atr : Q) (highs lows : list Q) (cs : candle_stats).

Local Abbreviation call :=
  (evaluate_direction current_price swing_high swing_low trend_1h atr
     highs lows cs).

(** The seven answers of [evaluate_direction], each with what the code
    tested on the way to it. *)
Lemma evaluate_direction_cases :
  (call = (Some "LONG"%string, ["Breakout up + volume + 1H trend"%string],
           (swing_low <? current_price) && (current_price <? swing_high)) /\
   swing_high + 0.1 * atr < current_price /\
   strong_body cs = true /\ volume_spike cs = true /\ trend_1h = "up"%string) \/
  (call = (Some "SHORT"%string, ["Breakout down + volume + 1H trend"%string],
           (swing_low <? current_price) && (current_price <? swing_high)) /\
   current_price < swing_low - 0.1 * atr /\
   strong_body cs = true /\ volume_spike cs = true /\ trend_1h = "down"%string) \/
  (call = (Some "LONG"%string, ["Bounce from swing-LOW within 1.8 ATR"%string],
           (swing_low <? current_price) && (current_price <? swing_high)) /\
   swing_low < current_price /\ Qabs (current_price - swing_low) < 1.8 * atr /\
   body cs * 1.5 < lower_wick cs /\ trend_1h <> "down"%string) \/
  (call = (Some "SHORT"%string, ["Bounce from swing-HIGH within 1.8 ATR"%string],
           (swing_low <? current_price) && (current_price <? swing_high)) /\
   current_price < swing_high /\ Qabs (current_price - swing_high) < 1.8 * atr /\
   body cs * 1.5 < upper_wick cs /\ trend_1h <> "up"%string) \/
  (call = (Some "LONG"%string, ["Simple up breakout"%string], false) /\
   swing_high < current_price) \/
  (call = (Some "SHORT"%string, ["Simple down breakout"%string], false) /\
   current_price < swing_low /\ current_price <= swing_high) \/
  (call = (Some "LONG"%string, ["Flat-breakout + volume"%string],
           (swing_low <? current_price) && (current_price <? swing_high)) /\
   swing_low <= current_price <= swing_high /\
   swing_high + 0.1 * atr < current_price /\ atr < 0) \/
  (call = (Some "SHORT"%string, ["Flat-breakout + volume"%string],
           (swing_low <? current_price) && (current_price <? swing_high)) /\
   swing_low <= current_price <= swing_high /\
   current_price < swing_low - 0.1 * atr /\ atr < 0) \/
  (call = (None, [], (swing_low <? current_price) && (current_price <? swing_high)) /\
   swing_low <= current_price <= swing_high).
Proof.
  unfold evaluate_direction, str_eq.
  set (mid := (swing_low <? current_price) && (current_price <? swing_high)).
  destruct (nonzero swing_high && (current_price >? swing_high + 0.1 * atr) &&
            strong_body cs && volume_spike cs && String.eqb trend_1h "up") eqn:BU.
  { left. repeat (apply andb_prop in BU as [BU ?]).
    repeat split; auto.
    - destruct (gtb_spec current_price (swing_high + 0.1 * atr));
        [assumption | discriminate].
    - now apply String.eqb_eq. }
  destruct (nonzero swing_low && (current_price <? swing_low - 0.1 * atr) &&
            strong_body cs && volume_spike cs && String.eqb trend_1h "down") eqn:BD.
  { right; left. repeat (apply andb_prop in BD as [BD ?]).
    repeat split; auto.
    - destruct (ltb_spec current_price (swing_low - 0.1 * atr));
        [assumption | discriminate].
    - now apply String.eqb_eq. }
  destruct (nonzero swing_low && (lower_wick cs >? body cs * 1.5) &&
            (current_price >? swing_low) && negb (String.eqb trend_1h "down") &&
            (Qabs (current_price - swing_low) <? 1.8 * atr)) eqn:UP.
  { right; right; left. repeat (apply andb_prop in UP as [UP ?]).
    repeat split; auto.
    - destruct (gtb_spec current_price swing_low); [assumption | discriminate].
    - destruct (ltb_spec (Qabs (current_price - swing_low)) (1.8 * atr));
        [assumption | discriminate].
    - destruct (gtb_spec (lower_wick cs) (body cs * 1.5));
        [assumption | discriminate].
    - intros ->. discriminate. }
  destruct (nonzero swing_high && (upper_wick cs >? body cs * 1.5) &&
            (current_price <? swing_high) && negb (String.eqb trend_1h "up") &&
            (Qabs (current_price - swing_high) <? 1.8 * atr)) eqn:DN.
  { right; right; right; left. repeat (apply andb_prop in DN as [DN ?]).
    repeat split; auto.
    - destruct (ltb_spec current_price swing_high); [assumption | discriminate].
    - destruct (ltb_spec (Qabs (current_price - swing_high)) (1.8 * atr));
        [assumption | discriminate].
    - destruct (gtb_spec (upper_wick cs) (body cs * 1.5));
        [assumption | discriminate].
    - intros ->. discriminate. }
  cbn [app].
  destruct (gtb_spec current_price swing_high) as [Hh | Hh].
  { do 4 right; left. split; [| assumption].
    subst mid. destruct (ltb_spec current_price swing_high); [lra |].
    now rewrite andb_false_r. }
  destruct (ltb_spec current_price swing_low) as [Hl | Hl].
  { do 5 right; left. split; [| split; assumption].
    subst mid. destruct (ltb_spec swing_low current_price); [lra | reflexivity]. }
  destruct (strong_body cs && volume_spike cs);
    [| do 8 right; split; [reflexivity | split; assumption]].
  destruct (gtb_spec current_price (swing_high + 0.1 * atr)) as [F | F].
  { do 6 right; left. repeat split; try assumption; lra. }
  destruct (ltb_spec current_price (swing_low - 0.1 * atr)) as [G | G].
  { do 7 right; left. repeat split; try assumption; lra. }
  do 8 right. split; [reflexivity | split; assumption].
Qed.

End Direction.

(** X4. [evaluate_direction] leaves the direction open only when the
    price is inside the band of the two swing levels, borders included,
    and then gives no reason; a resolved direction is LONG or SHORT and
    comes with exactly one reason. *)
Theorem direction_open_only_inside_band
    (current_price swing_high swing_low : Q) (trend_1h : string) (atr : Q)
    (highs lows : list Q) (cs : Indicators.candle_stats)
    (direction : option string) (reasons : list string) (in_middle : bool) :
  Indicators.evaluate_direction current_price swing_high swing_low trend_1h atr
    highs lows cs = (direction, reasons, in_middle) ->
  (direction = None ->
   reasons = [] /\ swing_low <= current_price <= swing_high) /\
  (forall d, direction = Some d ->
     (d = "LONG"%string \/ d = "SHORT"%string) /\ exists r, reasons = [r]).
Proof.
  intros Hcall.
  destruct (evaluate_direction_cases current_price swing_high swing_low
              trend_1h atr highs lows cs)
    as [[E _] | [[E _] | [[E _] | [[E _] | [[E _] | [[E _] | [[E _] | [[E _] | [E B]]]]]]]]];
    rewrite E in Hcall; injection Hcall as <- <- <-;
    (split;
     [ intros H; first [discriminate H | split; [reflexivity | exact B]]
     | intros d H; first [discriminate H | injection H as <-; split; eauto] ]).
Qed.

Lemma direction_open_only_inside_band_witness :
  (@None string = None -> @nil string = [] /\ 95 <= 100 <= 110) /\
  (forall d, @None string = Some d ->
     (d = "LONG"%string \/ d = "SHORT"%string) /\ exists r, @nil string = [r]).
Proof.
  apply (direction_open_only_inside_band 100 110 95 "flat" 2 [] []
           {| Indicators.body := 1; Indicators.upper_wick := 1;
              Indicators.lower_wick := 1; Indicators.volume := 5;
              Indicators.volume_spike := false; Indicators.strong_body := false;
              Indicators.doji := false; Indicators.weak_volume := false |}
           None [] true).
  reflexivity.
Defined.

(** X5. With an ATR that is not negative, [evaluate_direction] never
    gives the reason "Flat-breakout + volume", and a price strictly
    between the swing levels ([in_middle]) gets a bounce reason or
    none. *)
Theorem flat_breakout_needs_negative_atr
    (current_price swing_high swing_low : Q) (trend_1h : string) (atr : Q)
    (highs lows : list Q) (cs : Indicators.candle_stats)
    (direction : option string) (reasons : list string) (in_middle : bool) :
  0 <= atr ->
  Indicators.evaluate_direction current_price swing_high swing_low trend_1h atr
    highs lows cs = (direction, reasons, in_middle) ->
  ~ In "Flat-breakout + volume"%string reasons /\
  (in_middle = true -> forall r, In r reasons -> In r bounce_reasons).
Proof.
  intros Hatr Hcall.
  destruct (evaluate_direction_cases current_price swing_high swing_low
              trend_1h atr highs lows cs)
    as [[E F] | [[E F] | [[E F] | [[E F] | [[E F] | [[E F] | [[E F] | [[E F] | [E F]]]]]]]]];
    rewrite E in Hcall; injection Hcall as <- <- <-;
    try (exfalso; lra).
  - split; [intros [H | []]; discriminate |].
    intros M. destruct F as [F _].
    destruct (ltb_spec swing_low current_price);
      destruct (ltb_spec current_price swing_high); try discriminate. lra.
  - split; [intros [H | []]; discriminate |].
    intros M. destruct F as [F _].
    destruct (ltb_spec swing_low current_price);
      destruct (ltb_spec current_price swing_high); try discriminate. lra.
  - split; [intros [H | []]; discriminate |].
    intros _ r [<- | []]. unfold bounce_reasons. simpl. auto.
  - split; [intros [H | []]; discriminate |].
    intros _ r [<- | []]. unfold bounce_reasons. simpl. auto.
  - split; [intros [H | []]; discriminate | discriminate].
  - split; [intros [H | []]; discriminate | discriminate].
  - split; [intros [] | intros _ r []].
Qed.

Lemma flat_breakout_needs_negative_atr_witness :
  ~ In "Flat-breakout + volume"%string
      ["Bounce from swing-LOW within 1.8 ATR"%string] /\
  (true = true ->
   forall r, In r ["Bounce from swing-LOW within 1.8 ATR"%string] ->
             In r bounce_reasons).
Proof.
  apply (flat_breakout_needs_negative_atr 101 110 100 "flat" 2 [] []
           {| Indicators.body := 1; Indicators.upper_wick := 0;
              Indicators.lower_wick := 3; Indicators.volume := 5;
              Indicators.volume_spike := false; Indicators.strong_body := false;
              Indicators.doji := false; Indicators.weak_volume := false |}
           (Some "LONG"%string)
           ["Bounce from swing-LOW within 1.8 ATR"%string] true).
  - discriminate.
  - reflexivity.
Defined.

(** X6. The two readers of the direction's reasons disagree on a
    confirmed breakout. The retest filter, which lower-cases the reasons,
    exempts every breakout reason, confirmed or plain, and no bounce;
    [is_breakout] in [check_entry], which does not lower-case, holds for
    the plain breakout reasons only, so that "Breakout up + volume + 1H
    trend" is not a breakout for the target selection. *)
Theorem breakout_readers_disagree
    (current_price swing_high swing_low : Q) (trend_1h : string) (atr : Q)
    (highs lows : list Q) (cs : Indicators.candle_stats)
    (direction : option string) (reasons : list string) (in_middle : bool) :
  Indicators.evaluate_direction current_price swing_high swing_low trend_1h atr
    highs lows cs = (direction, reasons, in_middle) ->
  (EntryFilterRetest.exempt (Some reasons) = true <->
   exists r, reasons = [r] /\
             (In r confirmed_breakout_reasons \/ In r plain_breakout_reasons)) /\
  (CheckEntry.is_breakout reasons = true <->
   exists r, reasons = [r] /\ In r plain_breakout_reasons).
Proof.
  intros Hcall.
  unfold confirmed_breakout_reasons, plain_breakout_reasons.
  destruct (evaluate_direction_cases current_price swing_high swing_low
              trend_1h atr highs lows cs)
    as [[E _] | [[E _] | [[E _] | [[E _] | [[E _] | [[E _] | [[E _] | [[E _] | [E _]]]]]]]]];
    rewrite E in Hcall; injection Hcall as <- <- <-;
    (split; (split; [intros H | intros (r & Hr & Hin)]));
    first
      [ vm_compute in H; discriminate H
      | eexists; split; [reflexivity | simpl; tauto]
      | reflexivity
      | discriminate Hr
      | injection Hr as <-; simpl in Hin; exfalso; intuition discriminate ].
Qed.

Lemma breakout_readers_disagree_witness :
  (EntryFilterRetest.exempt (Some ["Breakout up + volume + 1H trend"%string]) = true <->
   exists r, ["Breakout up + volume + 1H trend"%string] = [r] /\
             (In r confirmed_breakout_reasons \/ In r plain_breakout_reasons)) /\
  (CheckEntry.is_breakout ["Breakout up + volume + 1H trend"%string] = true <->
   exists r, ["Breakout up + volume + 1H trend"%string] = [r] /\
             In r plain_breakout_reasons).
Proof.
  apply (breakout_readers_disagree 103 100 95 "up" 2 [] []
           {| Indicators.body := 2; Indicators.upper_wick := 0;
              Indicators.lower_wick := 0; Indicators.volume := 5;
              Indicators.volume_spike := true; Indicators.strong_body := true;
              Indicators.doji := false; Indicators.weak_volume := false |}
           (Some "LONG"%string) ["Breakout up + volume + 1H trend"%string] false).
  reflexivity.
Defined.

(** ** trendline_detector.py and entry_filter.py: the reasons of the
    pipeline *)

Lemma trendline_reasons_not_macd
    (current_price : Q) (direction : string)
    (up_15m up_1h down_15m down_1h : option TrendlineDetector.trendline) :
  existsb (String.eqb "MACD does not confirm")
    (TrendlineDetector.check_trendline_breakout current_price direction
       up_15m up_1h down_15m down_1h) = false.
Proof.
  unfold TrendlineDetector.check_trendline_breakout,
    TrendlineDetector.breakout_reason.
  destruct (String.eqb direction "LONG");
    [| destruct (String.eqb direction "SHORT"); [| reflexivity]];
    destruct up_15m, up_1h, down_15m, down_1h;
    repeat match goal with
      | |- context [if ?b then _ else _] => destruct b
      end; reflexivity.
Qed.


Section ConfirmedRetest.

Import Indicators EntryFilterRetest.

Variables (direction : string) (current_price : Q) (closes_15m : list Q)
          (swing_high swing_low atr : Q) (cs : candle_stats)
          (structural_target structural_limit rr : Q)
          (trend_1h trend_4h : option string)
          (confidence : option Q) (debug : bool) (retest_age : Z)
          (reasons : option (list string)).

(** With the MACD flag set the filter neither waits for a retest nor
    rejects for body stretch. *)
Lemma confirmed_never_waits (v : verdict) :
  entry_filter_retest direction current_price closes_15m swing_high swing_low
    atr cs structural_target structural_limit rr trend_1h trend_4h
    true confidence debug retest_age reasons = Ok (Some v) ->
  status v = "skip"%string \/ status v = "valid"%string.
Proof.
  unfold entry_filter_retest.
  replace (strong_body cs || volume_spike cs || true || same trend_1h direction)
    with true by (destruct (strong_body cs), (volume_spike cs); reflexivity).
  destruct (exempt reasons); [discriminate |].
  destruct (_ && _ && _); [discriminate |].
  destruct (body_sizes closes_15m) as [bodies | e]; [| discriminate].
  cbn [Py.bind].
  destruct (if (0 <? retest_age)%Z then _ else _) as [stretched | e];
    [| discriminate].
  cbn [Py.bind negb]. rewrite andb_false_r.
  unfold phase_verdict.
  destruct (String.eqb direction "LONG");
    [| destruct (String.eqb direction "SHORT"); [| discriminate]];
    (destruct (_ && _); [discriminate |]);
    match goal with
    | |- context [if ?c then confidence_below_2 _ else _] => destruct c
    end;
    try (destruct (confidence_below_2 confidence) as [[|] | e]);
    cbn [Py.bind]; try discriminate;
    try (intros H; injection H as <-; left; reflexivity);
    rewrite andb_true_r;
    (destruct (_ <=? _); [| discriminate]);
    intros H; injection H as <-; right; reflexivity.
Qed.

End ConfirmedRetest.

(** X7. In [check_entry] the reasons handed to the retest filter are those
    of [evaluate_direction] followed by those of
    [check_trendline_breakout]; "MACD does not confirm" is never among
    them, so the filter is always called with [macd_confirms=True]. Its
    verdict there is "skip" or "valid": the pipeline never gets
    "wait_retest" from it. *)
Theorem pipeline_retest_never_waits
    (current_price swing_high swing_low : Q) (trend : string) (atr : Q)
    (highs lows : list Q) (cs : Indicators.candle_stats)
    (direction : string) (reasons : list string) (in_middle : bool)
    (up_15m up_1h down_15m down_1h : option TrendlineDetector.trendline) :
  Indicators.evaluate_direction current_price swing_high swing_low trend atr
    highs lows cs = (Some direction, reasons, in_middle) ->
  EntryFilter.macd_not_denied
    (reasons ++ TrendlineDetector.check_trendline_breakout current_price
                  direction up_15m up_1h down_15m down_1h) = true /\
  (forall (closes_15m : list Q) (structural_target structural_limit rr : Q)
          (trend_1h trend_4h : string) (confidence : Q)
          (v : EntryFilterRetest.verdict),
     EntryFilter.retest_check direction current_price closes_15m swing_high
       swing_low atr cs structural_target structural_limit rr trend_1h trend_4h
       confidence
       (reasons ++ TrendlineDetector.check_trendline_breakout current_price
                     direction up_15m up_1h down_15m down_1h)
     = Ok (Some v) ->
     EntryFilterRetest.status v = "skip"%string \/
     EntryFilterRetest.status v = "valid"%string).
Proof.
  intros Hcall.
  assert (Hm : EntryFilter.macd_not_denied
                 (reasons ++ TrendlineDetector.check_trendline_breakout
                               current_price direction up_15m up_1h
                               down_15m down_1h) = true).
  { unfold EntryFilter.macd_not_denied.
    rewrite existsb_app, trendline_reasons_not_macd, orb_false_r.
    destruct (evaluate_direction_cases current_price swing_high swing_low
                trend atr highs lows cs)
      as [[E _] | [[E _] | [[E _] | [[E _] | [[E _] | [[E _] | [[E _] | [[E _] | [E _]]]]]]]]];
      rewrite E in Hcall; first [discriminate Hcall | injection Hcall as _ <- _];
      reflexivity. }
  split; [exact Hm |].
  intros closes tgt lim rr t1 t4 conf v.
  unfold EntryFilter.retest_check. rewrite Hm.
  apply confirmed_never_waits.
Qed.

Lemma pipeline_retest_never_waits_witness :
  EntryFilter.macd_not_denied
    (["Bounce from swing-LOW within 1.8 ATR"%string]
     ++ TrendlineDetector.check_trendline_breakout 101 "LONG"
          None None None None) = true.
Proof.
  apply (pipeline_retest_never_waits 101 110 100 "flat" 2 [] []
           {| Indicators.body := 1; Indicators.upper_wick := 0;
              Indicators.lower_wick := 3; Indicators.volume := 5;
              Indicators.volume_spike := false; Indicators.strong_body := false;
              Indicators.doji := false; Indicators.weak_volume := false |}
           "LONG" ["Bounce from swing-LOW within 1.8 ATR"%string] true
           None None None None).
  reflexivity.
Defined.



(** ** indicators.py: sums, candle statistics, true range and ATR *)

Lemma fold_plus_shift (xs : list Q) :
  forall a, fold_left Qplus xs a == a + fold_left Qplus xs 0.
Proof.
  induction xs as [| x xs IH]; intros a; cbn [fold_left].
  - lra.
  - rewrite (IH (a + x)), (IH (0 + x)). lra.
Qed.

Lemma py_sum_cons (x : Q) (xs : list Q) :
  Candles.py_sum (x :: xs) == x + Candles.py_sum xs.
Proof.
  unfold Candles.py_sum. cbn [fold_left]. rewrite fold_plus_shift. lra.
Qed.

Lemma py_sum_nonneg (xs : list Q) :
  Forall (fun x => 0 <= x) xs -> 0 <= Candles.py_sum xs.
Proof.
  induction 1 as [| x xs Hx _ IH].
  - unfold Candles.py_sum. simpl. lra.
  - rewrite py_sum_cons. lra.
Qed.


Lemma last_n_Forall {A : Type} (P : A -> Prop) (n : nat) (xs : list A) :
  Forall P xs -> Forall P (Candles.last_n n xs).
Proof.
  unfold Candles.last_n. intros H. apply Forall_forall. intros x Hin.
  eapply Forall_forall; [exact H |].
  rewrite <- (firstn_skipn (length xs - n) xs). apply in_or_app. now right.
Qed.

Lemma last_n_length {A : Type} (n : nat) (xs : list A) :
  (n <= length xs)%nat -> length (Candles.last_n n xs) = n.
Proof. unfold Candles.last_n. intros H. rewrite length_skipn. lia. Qed.

Lemma len_positive (xs : list Q) : xs <> [] -> 0 < Candles.len xs.
Proof.
  destruct xs as [| x xs]; [contradiction |]. intros _.
  unfold Candles.len. cbn [length].
  change 0 with (inject_Z 0). rewrite <- Zlt_Qlt. lia.
Qed.

(** The window the average volume is taken over. *)
Lemma volume_window_nonempty (vs : list Q) :
  vs <> [] ->
  (if Nat.leb 10 (length vs) then Candles.last_n 10 vs else vs) <> [].
Proof.
  intros Hne. destruct (Nat.leb_spec 10 (length vs)) as [H | H]; [| exact Hne].
  intros E. apply (f_equal (@length Q)) in E.
  rewrite last_n_length in E by exact H. discriminate.
Qed.

(** X9. [calculate_candle_stats] raises, a [ZeroDivisionError], exactly
    when the volume series is empty; with any volume in it the statistics
    are returned. *)
Theorem candle_stats_raises_iff_no_volumes
    (candle : Candles.kline) (atr : Q) (volume_series : list Q) :
  (Candles.calculate_candle_stats candle atr volume_series
   = Raise ZeroDivisionError <-> volume_series = []) /\
  ((exists e, Candles.calculate_candle_stats candle atr volume_series = Raise e)
   <-> volume_series = []) /\
  ((exists st, Candles.calculate_candle_stats candle atr volume_series = Ok st)
   <-> volume_series <> []).
Proof.
  unfold Candles.calculate_candle_stats. cbv zeta.
  destruct volume_series as [| v vs].
  - cbn. repeat split; intros; eauto; try discriminate; try congruence.
    destruct H as [st H]. discriminate.
  - set (w := if Nat.leb 10 (length (v :: vs)) then _ else _).
    assert (Hw : 0 < Candles.len w).
    { apply len_positive. subst w. apply volume_window_nonempty. discriminate. }
    unfold Py.div. destruct (eq0_spec (Candles.len w)) as [H0 | _]; [lra |].
    cbn [Py.bind].
    repeat split; intros; eauto; try discriminate.
    destruct H as [e H]. discriminate.
Qed.

(** The fields of the statistics, as the code computes them. *)
Lemma candle_stats_fields
    (candle : Candles.kline) (atr : Q) (volume_series : list Q)
    (st : Indicators.candle_stats) :
  Candles.calculate_candle_stats candle atr volume_series = Ok st ->
  exists avg_v : Q,
    Py.div
      (Candles.py_sum (if Nat.leb 10 (length volume_series)
                       then Candles.last_n 10 volume_series else volume_series))
      (Candles.len (if Nat.leb 10 (length volume_series)
                    then Candles.last_n 10 volume_series else volume_series))
    = Ok avg_v /\
    Indicators.body st = Qabs (Candles.k_close candle - Candles.k_open candle) /\
    Indicators.upper_wick st
    = Candles.k_high candle
      - Py.max2 (Candles.k_open candle) (Candles.k_close candle) /\
    Indicators.lower_wick st
    = Candles.min2 (Candles.k_open candle) (Candles.k_close candle)
      - Candles.k_low candle /\
    Indicators.volume_spike st = (Candles.k_volume candle >? avg_v * 1.6) /\
    Indicators.strong_body st = (Indicators.body st >? atr * 0.6) /\
    Indicators.doji st
    = ((Indicators.body st <? atr * 0.1)
       && (Indicators.upper_wick st >? Indicators.body st)
       && (Indicators.lower_wick st >? Indicators.body st)) /\
    Indicators.weak_volume st = (Candles.k_volume candle <? avg_v * 0.8).
Proof.
  unfold Candles.calculate_candle_stats. cbv zeta.
  destruct (Py.div _ _) as [avg | e]; [| discriminate].
  intros H. exists avg. split; [reflexivity |].
  cbn [Py.bind] in H. injection H as <-. repeat split.
Qed.

(** X10. In the statistics of a candle [doji] and [strong_body] are never
    both set, whatever the ATR is, and the body is not negative; when no
    volume of the series is negative, [volume_spike] and [weak_volume]
    are never both set either. *)
Theorem candle_flags_exclude_each_other
    (candle : Candles.kline) (atr : Q) (volume_series : list Q)
    (st : Indicators.candle_stats) :
  Candles.calculate_candle_stats candle atr volume_series = Ok st ->
  0 <= Indicators.body st /\
  ~ (Indicators.doji st = true /\ Indicators.strong_body st = true) /\
  (Forall (fun v => 0 <= v) volume_series ->
   ~ (Indicators.volume_spike st = true /\ Indicators.weak_volume st = true)).
Proof.
  intros H.
  destruct (candle_stats_fields candle atr volume_series st H)
    as (avg & Havg & Hb & _ & _ & Hs & Hstrong & Hd & Hw).
  assert (Hbody : 0 <= Indicators.body st)
    by (rewrite Hb; apply Qabs_nonneg).
  split; [exact Hbody |]. split.
  - rewrite Hd, Hstrong. intros [D S].
    apply andb_prop in D as [D _]. apply andb_prop in D as [D _].
    destruct (ltb_spec (Indicators.body st) (atr * 0.1)); [| discriminate].
    destruct (gtb_spec (Indicators.body st) (atr * 0.6)); [| discriminate].
    lra.
  - intros Hvs. rewrite Hs, Hw. intros [S W].
    set (w := if Nat.leb 10 (length volume_series) then _ else _) in Havg.
    unfold Py.div in Havg.
    destruct (eq0_spec (Candles.len w)) as [| Hlen]; [discriminate |].
    injection Havg as <-.
    assert (Hsum : 0 <= Candles.py_sum w).
    { apply py_sum_nonneg. subst w.
      destruct (Nat.leb 10 (length volume_series));
        [now apply last_n_Forall | assumption]. }
    assert (Hpos : 0 < Candles.len w).
    { apply len_positive. intros E. apply Hlen. rewrite E. reflexivity. }
    assert (Hnn : 0 <= Candles.py_sum w / Candles.len w).
    { apply Qle_shift_div_l; [exact Hpos | lra]. }
    destruct (gtb_spec (Candles.k_volume candle)
                (Candles.py_sum w / Candles.len w * 1.6)); [| discriminate].
    destruct (ltb_spec (Candles.k_volume candle)
                (Candles.py_sum w / Candles.len w * 0.8)); [| discriminate].
    lra.
Qed.

Lemma candle_flags_exclude_each_other_witness :
  0 <= Indicators.body
         {| Indicators.body := Qabs (101 - 100);
            Indicators.upper_wick := 102 - Py.max2 100 101;
            Indicators.lower_wick := Candles.min2 100 101 - 99;
            Indicators.volume := 5;
            Indicators.volume_spike := 5 >? (Candles.py_sum [4; 5] / Candles.len [4; 5]) * 1.6;
            Indicators.strong_body := Qabs (101 - 100) >? 2 * 0.6;
            Indicators.doji := (Qabs (101 - 100) <? 2 * 0.1)
                               && (102 - Py.max2 100 101 >? Qabs (101 - 100))
                               && (Candles.min2 100 101 - 99 >? Qabs (101 - 100));
            Indicators.weak_volume := 5 <? (Candles.py_sum [4; 5] / Candles.len [4; 5]) * 0.8 |}.
Proof.
  apply (candle_flags_exclude_each_other
           {| Candles.k_open := 100; Candles.k_high := 102; Candles.k_low := 99;
              Candles.k_close := 101; Candles.k_volume := 5 |} 2 [4; 5]).
  reflexivity.
Defined.

(** X11. For a candle whose low is not above its open and close and whose
    high is not below them, the body and the two wicks each lie between
    zero and the range high - low. *)
Theorem candle_parts_within_range
    (candle : Candles.kline) (atr : Q) (volume_series : list Q)
    (st : Indicators.candle_stats) :
  Candles.k_low candle <= Candles.k_open candle <= Candles.k_high candle ->
  Candles.k_low candle <= Candles.k_close candle <= Candles.k_high candle ->
  Candles.calculate_candle_stats candle atr volume_series = Ok st ->
  0 <= Indicators.body st <= Candles.k_high candle - Candles.k_low candle /\
  0 <= Indicators.upper_wick st
    <= Candles.k_high candle - Candles.k_low candle /\
  0 <= Indicators.lower_wick st
    <= Candles.k_high candle - Candles.k_low candle.
Proof.
  intros Ho Hc H.
  destruct (candle_stats_fields candle atr volume_series st H)
    as (avg & _ & -> & -> & -> & _).
  unfold Py.max2, Candles.min2.
  destruct (Qabs_cases (Candles.k_close candle - Candles.k_open candle))
    as [[? Ha] | [? Ha]]; rewrite Ha;
    destruct (ltb_spec (Candles.k_open candle) (Candles.k_close candle));
    destruct (ltb_spec (Candles.k_close candle) (Candles.k_open candle));
    repeat split; lra.
Qed.

Lemma candle_parts_within_range_witness :
  0 <= Qabs (101 - 100) <= 102 - 99 /\
  0 <= 102 - Py.max2 100 101 <= 102 - 99 /\
  0 <= Candles.min2 100 101 - 99 <= 102 - 99.
Proof.
  apply (candle_parts_within_range
           {| Candles.k_open := 100; Candles.k_high := 102; Candles.k_low := 99;
              Candles.k_close := 101; Candles.k_volume := 5 |} 2 [4; 5]
           {| Indicators.body := Qabs (101 - 100);
              Indicators.upper_wick := 102 - Py.max2 100 101;
              Indicators.lower_wick := Candles.min2 100 101 - 99;
              Indicators.volume := 5;
              Indicators.volume_spike := 5 >? (Candles.py_sum [4; 5] / Candles.len [4; 5]) * 1.6;
              Indicators.strong_body := Qabs (101 - 100) >? 2 * 0.6;
              Indicators.doji := (Qabs (101 - 100) <? 2 * 0.1)
                                 && (102 - Py.max2 100 101 >? Qabs (101 - 100))
                                 && (Candles.min2 100 101 - 99 >? Qabs (101 - 100));
              Indicators.weak_volume := 5 <? (Candles.py_sum [4; 5] / Candles.len [4; 5]) * 0.8 |}).
  - cbn. split; discriminate.
  - cbn. split; discriminate.
  - reflexivity.
Defined.

Lemma max2_ge_l (a b : Q) : a <= Py.max2 a b.
Proof. unfold Py.max2. destruct (ltb_spec a b); lra. Qed.

Lemma max2_ge_r (a b : Q) : b <= Py.max2 a b.
Proof. unfold Py.max2. destruct (ltb_spec a b); lra. Qed.

(** The three ways a broadcast succeeds. *)
Lemma broadcast_cases (f : Q -> Q -> Q) (xs ys zs : list Q) :
  Candles.broadcast f xs ys = Ok zs ->
  zs = map (fun p => f (fst p) (snd p)) (combine xs ys) \/
  (exists x, xs = [x] /\ zs = map (f x) ys) \/
  (exists y, ys = [y] /\ zs = map (fun a => f a y) xs).
Proof.
  unfold Candles.broadcast.
  destruct (Nat.eqb (length xs) (length ys)).
  - intros H; injection H as <-. now left.
  - destruct xs as [| x [| x' xs]]; destruct ys as [| y [| y' ys]];
      try discriminate; intros H; injection H as <-; right;
      first [ left; eexists; split; reflexivity
            | right; eexists; split; reflexivity ].
Qed.

(** What holds for every pairing of the elements holds for the elements of
    a broadcast. *)
Lemma broadcast_Forall (P : Q -> Prop) (f : Q -> Q -> Q) (xs ys zs : list Q) :
  (forall x y, In x xs -> In y ys -> P (f x y)) ->
  Candles.broadcast f xs ys = Ok zs -> Forall P zs.
Proof.
  intros Hf H.
  apply broadcast_cases in H as [-> | [(x & -> & ->) | (y & -> & ->)]];
    apply Forall_forall; intros z Hz; apply in_map_iff in Hz.
  - destruct Hz as ([x y] & <- & Hin).
    apply Hf; [eapply in_combine_l | eapply in_combine_r]; exact Hin.
  - destruct Hz as (y & <- & Hin). apply Hf; simpl; auto.
  - destruct Hz as (x & <- & Hin). apply Hf; simpl; auto.
Qed.

Lemma broadcast_aligned (f : Q -> Q -> Q) (xs ys : list Q) :
  length xs = length ys ->
  Candles.broadcast f xs ys
  = Ok (map (fun p => f (fst p) (snd p)) (combine xs ys)).
Proof.
  intros H. unfold Candles.broadcast. now rewrite H, Nat.eqb_refl.
Qed.

Lemma map_combine_length {A : Type} (g : Q * Q -> A) (xs ys : list Q) :
  length xs = length ys -> length (map g (combine xs ys)) = length xs.
Proof. intros H. rewrite length_map, length_combine. lia. Qed.

Lemma true_range_nonneg (high low close tr : list Q) :
  Candles._true_range high low close = Ok tr -> Forall (fun t => 0 <= t) tr.
Proof.
  unfold Candles._true_range.
  destruct (Candles.prev_close close) as [prev | e]; cbn [Py.bind];
    [| discriminate].
  destruct (Candles.broadcast Qminus high low) as [hl | e]; cbn [Py.bind];
    [| discriminate].
  destruct (Candles.broadcast Qminus high prev) as [hp | e]; cbn [Py.bind];
    [| discriminate].
  destruct (Candles.broadcast Qminus low prev) as [lp | e]; cbn [Py.bind];
    [| discriminate].
  destruct (Candles.broadcast Py.max2 (map Qabs hp) (map Qabs lp))
    as [inner | e] eqn:Hinner; [| discriminate].
  cbn [Py.bind]. intros Htr.
  assert (Hi : Forall (fun t => 0 <= t) inner).
  { eapply broadcast_Forall; [| exact Hinner].
    intros x y Hx _. apply in_map_iff in Hx as (u & <- & _).
    pose proof (Qabs_nonneg u). pose proof (max2_ge_l (Qabs u) y). lra. }
  eapply broadcast_Forall; [| exact Htr].
  intros x y _ Hy. pose proof (max2_ge_r x y).
  assert (0 <= y) by (eapply Forall_forall in Hi; eauto). lra.
Qed.

Lemma scaled_sum_nonneg (k : Q) (xs : list Q) :
  0 <= k -> Forall (fun t => 0 <= t) xs ->
  0 <= Candles.py_sum (map (fun t => t * k) xs).
Proof.
  intros Hk H. apply py_sum_nonneg. apply Forall_forall. intros z Hz.
  apply in_map_iff in Hz as (t & <- & Ht).
  assert (0 <= t) by (eapply Forall_forall in H; eauto).
  apply Qmult_le_0_compat; assumption.
Qed.

Lemma inverse_period_positive (period : Z) :
  (0 < period)%Z -> 0 < 1 / inject_Z period.
Proof.
  intros H. apply Qlt_shift_div_l.
  - change 0 with (inject_Z 0). now rewrite <- Zlt_Qlt.
  - lra.
Qed.

(** X12. The ATR that [calculate_atr] returns is never negative, whatever
    the three series and the period are. *)
Theorem atr_never_negative
    (highs lows closes : list Q) (period : Z) (atr : Q) :
  Candles.calculate_atr highs lows closes period = Ok atr -> 0 <= atr.
Proof.
  unfold Candles.calculate_atr.
  destruct (Z.ltb _ _); [intros H; injection H as <-; lra |].
  destruct (Candles._true_range highs lows closes) as [tr | e] eqn:Htr;
    [| discriminate].
  cbn [Py.bind].
  destruct (Z.leb_spec period 0) as [| Hp]; [discriminate |].
  destruct tr as [| t tr]; [discriminate |].
  intros H; injection H as <-.
  apply scaled_sum_nonneg.
  - apply Qlt_le_weak. now apply inverse_period_positive.
  - apply last_n_Forall. eapply true_range_nonneg. exact Htr.
Qed.

Lemma atr_never_negative_witness :
  0 <= Candles.py_sum
         (map (fun t => t * (1 / inject_Z 2))
            (Candles.last_n (Z.to_nat 2)
               [Py.max2 (10 - 8) (Py.max2 (Qabs (10 - 9)) (Qabs (8 - 9)));
                Py.max2 (12 - 9) (Py.max2 (Qabs (12 - 9)) (Qabs (9 - 9)));
                Py.max2 (11 - 10) (Py.max2 (Qabs (11 - 11)) (Qabs (10 - 11)))])).
Proof.
  apply (atr_never_negative [10; 12; 11] [8; 9; 10] [9; 11; 10] 2).
  reflexivity.
Defined.







(** X14. With no more than [period] highs, [calculate_atr] answers 0
    without looking at the other series, and the limit selection, which
    [check_entry] hands this ATR to, raises its [ValueError] whatever the
    levels are. *)
Theorem short_history_makes_limit_raise
    (highs lows closes : list Q) (period : Z) :
  (Z.of_nat (length highs) < period + 1)%Z ->
  exists atr : Q,
    Candles.calculate_atr highs lows closes period = Ok atr /\
    forall (entry_price : Q) (swing_high swing_low trendline_price poc
            low_volume_exit : option Q) (side : string),
      RiskUtils.select_structural_limit entry_price atr swing_high swing_low
        trendline_price poc low_volume_exit side = Raise ValueError.
Proof.
  intros H. exists 0. split.
  - unfold Candles.calculate_atr.
    destruct (Z.ltb_spec (Z.of_nat (length highs)) (period + 1));
      [reflexivity | lia].
  - intros. reflexivity.
Qed.

Lemma short_history_makes_limit_raise_witness :
  exists atr : Q,
    Candles.calculate_atr [10; 12; 11] [8] [] 5 = Ok atr /\
    forall (entry_price : Q) (swing_high swing_low trendline_price poc
            low_volume_exit : option Q) (side : string),
      RiskUtils.select_structural_limit entry_price atr swing_high swing_low
        trendline_price poc low_volume_exit side = Raise ValueError.
Proof.
  apply short_history_makes_limit_raise. simpl. lia.
Defined.

(** ** indicators.py: the confidence score *)

(** A value that is a whole number. *)
Lemma whole_plus_one (c : Q) :
  (exists z, c == inject_Z z) -> exists z, c + 1 == inject_Z z.
Proof.
  intros [z Hz]. exists (z + 1)%Z. rewrite inject_Z_plus, Hz. reflexivity.
Qed.

Lemma whole_minus_one (c : Q) :
  (exists z, c == inject_Z z) -> exists z, c - 1 == inject_Z z.
Proof.
  intros [z Hz]. exists (z - 1)%Z.
  unfold Z.sub. rewrite inject_Z_plus, inject_Z_opp, Hz. reflexivity.
Qed.

Lemma whole_minus_half (c : Q) :
  (exists z, c == inject_Z z) -> exists z, c - 0.5 == inject_Z z + 0.5.
Proof.
  intros [z Hz]. exists (z - 1)%Z.
  unfold Z.sub. rewrite inject_Z_plus, inject_Z_opp, Hz.
  change (inject_Z 1) with 1. lra.
Qed.

Lemma round_half_even_whole (x : Q) (z : Z) :
  x == inject_Z z -> EntryFilterRetest.round_half_even x = z.
Proof.
  intros Hx. unfold EntryFilterRetest.round_half_even.
  assert (Hf : Qfloor x = z) by (rewrite Hx; apply Qfloor_Z).
  rewrite Hf.
  destruct (ltb_spec (x - inject_Z z) 0.5) as [_ | H]; [reflexivity | lra].
Qed.

(** [round(confidence * 2) / 2] gives back a score that is whole or whole
    plus a half. *)
Lemma rounding_keeps_halves (c : Q) :
  (exists z, c == inject_Z z) \/ (exists z, c == inject_Z z + 0.5) ->
  inject_Z (EntryFilterRetest.round_half_even (c * 2)) / 2 == c.
Proof.
  intros [[z Hz] | [z Hz]].
  - rewrite (round_half_even_whole (c * 2) (2 * z)).
    + rewrite inject_Z_mult, Hz. change (inject_Z 2) with 2. field.
    + rewrite inject_Z_mult, Hz. change (inject_Z 2) with 2. ring.
  - rewrite (round_half_even_whole (c * 2) (2 * z + 1)).
    + rewrite inject_Z_plus, inject_Z_mult, Hz.
      change (inject_Z 2) with 2. change (inject_Z 1) with 1. field.
    + rewrite inject_Z_plus, inject_Z_mult, Hz.
      change (inject_Z 2) with 2. change (inject_Z 1) with 1. ring.
Qed.

(** Proves that a running score, a sum of the number of reasons and of
    steps of one, is whole. *)
Ltac whole_score :=
  repeat first [ apply whole_plus_one | apply whole_minus_one ];
  eexists; reflexivity.

(** Takes [assess_confidence] apart, branch by branch. *)
Ltac confidence_branches :=
  unfold Confidence.assess_confidence;
  repeat first
    [ progress cbv beta iota zeta
    | progress cbn [Confidence.nonempty app]
    | progress rewrite ?andb_true_r, ?andb_false_r
    | match goal with
      | |- context [if Py.leb 2 ?c then _ else _] => destruct (leb_spec 2 c)
      | |- context [match Confidence.poc ?vp with _ => _ end] =>
          destruct (Confidence.poc vp)
      | |- context [if ?b then _ else _] => destruct b
      end ].

Lemma confidence_result_shape
    (direction : option string) (reasons : list string) (swing_age : Z)
    (trend_4h : string) (vp : Confidence.volume_profile) (md : Macd.macd_data)
    (current_price atr : Q) (score : Q) (out : list string) :
  Confidence.assess_confidence direction reasons swing_age trend_4h vp md
    current_price atr = (score, out) ->
  (exists extra : list string, out = reasons ++ extra) /\
  number_of reasons - 4 <= score <= number_of reasons + 4 /\
  ((exists z : Z, score == inject_Z z) \/
   ((exists z : Z, score == inject_Z z + 0.5) /\ 1.5 <= score)).
Proof.
  unfold number_of.
  confidence_branches;
    intros E; apply pair_equal_spec in E as [<- <-];
    match goal with
    | |- _ /\ _ <= inject_Z (EntryFilterRetest.round_half_even (?c * 2)) / 2 <= _ /\ _ =>
        first
          [ assert (Hw : exists z, c == inject_Z z) by whole_score;
            pose proof (rounding_keeps_halves c (or_introl Hw)) as Hr
          | assert (Hh : exists z, c == inject_Z z + 0.5)
              by (apply whole_minus_half; whole_score);
            pose proof (rounding_keeps_halves c (or_intror Hh)) as Hr ]
    end;
    (split;
     [ first [ eexists; rewrite <- ?app_assoc; reflexivity
             | exists []; symmetry; apply app_nil_r ]
     | split;
       [ split; lra
       | first [ left; destruct Hw as [z Hz]; exists z; rewrite Hr; exact Hz
               | right; split;
                 [ destruct Hh as [z Hz]; exists z; rewrite Hr; exact Hz
                 | lra ] ] ] ]).
Qed.

(** X15. [assess_confidence] keeps the reasons it is given, in their
    order, and only appends to them. Its score is within 4 of the number
    of reasons given, and it is a whole number or, when the half-point
    penalty was taken, a whole number plus a half that is at least 1.5:
    the score is never 0.5. *)
Theorem confidence_score_shape
    (direction : option string) (reasons : list string) (swing_age : Z)
    (trend_4h : string) (vp : Confidence.volume_profile) (md : Macd.macd_data)
    (current_price atr : Q) :
  (exists extra : list string,
     snd (Confidence.assess_confidence direction reasons swing_age trend_4h
            vp md current_price atr) = reasons ++ extra) /\
  number_of reasons - 4
  <= fst (Confidence.assess_confidence direction reasons swing_age trend_4h
            vp md current_price atr)
  <= number_of reasons + 4 /\
  ((exists z : Z,
      fst (Confidence.assess_confidence direction reasons swing_age trend_4h
             vp md current_price atr) == inject_Z z) \/
   ((exists z : Z,
       fst (Confidence.assess_confidence direction reasons swing_age trend_4h
              vp md current_price atr) == inject_Z z + 0.5) /\
    1.5 <= fst (Confidence.assess_confidence direction reasons swing_age
                  trend_4h vp md current_price atr))).
Proof.
  apply (confidence_result_shape direction reasons swing_age trend_4h vp md
           current_price atr).
  apply surjective_pairing.
Qed.

(** Reads what was appended off an equation [out = reasons ++ extra]. *)
Ltac appended E reasons extra :=
  rewrite <- ?app_assoc in E;
  first [ apply app_inv_head in E
        | rewrite <- (app_nil_r reasons) in E at 1; apply app_inv_head in E ];
  subst extra.

(** X16. With fewer than 26 closes [calculate_normalized_macd] returns the
    empty dictionary, and [assess_confidence] reads it as a MACD of zero:
    whatever the direction, it appends neither "MACD does not confirm" nor
    a MACD confirmation to the reasons. *)
Theorem short_closes_leave_macd_out
    (closes : list Q) (direction : option string) (reasons : list string)
    (swing_age : Z) (trend_4h : string) (vp : Confidence.volume_profile)
    (current_price atr : Q) :
  (length closes < 26)%nat ->
  exists md : Macd.macd_data,
    Macd.calculate_normalized_macd closes = Ok md /\
    forall extra : list string,
      snd (Confidence.assess_confidence direction reasons swing_age trend_4h
             vp md current_price atr) = reasons ++ extra ->
      ~ In "MACD does not confirm"%string extra /\
      ~ In "MACD confirms"%string extra /\
      ~ In "MACD conforms"%string extra.
Proof.
  intros Hlen. exists Macd.empty_macd. split.
  - unfold Macd.calculate_normalized_macd.
    destruct (Nat.ltb_spec (length closes) 26); [reflexivity | lia].
  - intros extra.
    destruct (Confidence.assess_confidence direction reasons swing_age trend_4h
                vp Macd.empty_macd current_price atr) as [score out] eqn:Hcall.
    cbn [snd]. revert Hcall.
    unfold Confidence.assess_confidence.
    cbn [Confidence.get0 Macd.macd Macd.signal Macd.histogram Macd.empty_macd].
    replace ((0 >? 0) && (0 >? 0)) with false by reflexivity.
    replace ((0 <? 0) && (0 <? 0)) with false by reflexivity.
    replace (0 >? -0.002) with true by reflexivity.
    replace (0 <? 0.002) with true by reflexivity.
    confidence_branches;
      intros E; apply pair_equal_spec in E as [_ <-];
      intros E; appended E reasons extra;
      cbn [app In]; intuition discriminate.
Qed.

Lemma short_closes_leave_macd_out_witness :
  exists md : Macd.macd_data,
    Macd.calculate_normalized_macd [100; 101; 102] = Ok md /\
    forall extra : list string,
      snd (Confidence.assess_confidence (Some "LONG"%string)
             ["Simple up breakout"%string] 5 "up"
             {| Confidence.poc := None; Confidence.low_volume_nodes := [] |}
             md 102 2)
      = ["Simple up breakout"%string] ++ extra ->
      ~ In "MACD does not confirm"%string extra /\
      ~ In "MACD confirms"%string extra /\
      ~ In "MACD conforms"%string extra.
Proof.
  apply short_closes_leave_macd_out. simpl. lia.
Defined.

(** ** indicators.py: EMA and MACD *)

Lemma ema_loop_length (alpha prev : Q) (xs : list Q) :
  length (Macd.ema_loop alpha prev xs) = length xs.
Proof.
  revert prev. induction xs as [| x xs IH]; intros prev; cbn [Macd.ema_loop length];
    [reflexivity | now rewrite IH].
Qed.

Lemma alpha_of_period (period : Z) :
  (1 <= period)%Z ->
  exists alpha, Py.div 2 (inject_Z (period + 1)) = Ok alpha /\ 0 <= alpha <= 1.
Proof.
  intros Hp. unfold Py.div.
  assert (Hpos : 2 <= inject_Z (period + 1)).
  { change 2 with (inject_Z 2). rewrite <- Zle_Qle. lia. }
  destruct (eq0_spec (inject_Z (period + 1))) as [H0 | _]; [lra |].
  eexists. split; [reflexivity |]. split.
  - apply Qle_shift_div_l; lra.
  - apply Qle_shift_div_r; lra.
Qed.

Lemma period_plus_one_zero (period : Z) :
  inject_Z (period + 1) == 0 <-> period = (-1)%Z.
Proof.
  change 0 with (inject_Z 0). rewrite inject_Z_injective. lia.
Qed.

(** X17. The errors and the shape of [_ema]. With a period of -1 the
    smoothing factor 2 / (period + 1) is a [ZeroDivisionError], whatever
    the array. With any other period an empty array is an [IndexError],
    and an array that is not empty gives an array of the same length
    that starts with the first value of the input. *)
Theorem ema_errors_and_shape (arr : list Q) (period : Z) :
  (period = (-1)%Z -> Macd._ema arr period = Raise ZeroDivisionError) /\
  (period <> (-1)%Z -> arr = [] -> Macd._ema arr period = Raise IndexError) /\
  (period <> (-1)%Z ->
   forall (x0 : Q) (rest : list Q),
     arr = x0 :: rest ->
     exists out : list Q,
       Macd._ema arr period = Ok (x0 :: out) /\ length out = length rest).
Proof.
  unfold Macd._ema, Py.div.
  destruct (eq0_spec (inject_Z (period + 1))) as [H0 | H0];
    rewrite period_plus_one_zero in H0; cbn [Py.bind].
  - split; [reflexivity |]. split; intros Hp; contradiction.
  - split; [intros Hp; contradiction |]. split.
    + intros _ ->. reflexivity.
    + intros _ x0 rest ->. eexists. split; [reflexivity |].
      apply ema_loop_length.
Qed.

Lemma ema_errors_and_shape_witness :
  Macd._ema [10; 12; 11] (-1) = Raise ZeroDivisionError /\
  Macd._ema [] 12 = Raise IndexError /\
  exists out : list Q,
    Macd._ema [10; 12; 11] 12 = Ok (10 :: out) /\ length out = 2%nat.
Proof.
  split; [| split].
  - apply (proj1 (ema_errors_and_shape [10; 12; 11] (-1))). reflexivity.
  - apply (proj1 (proj2 (ema_errors_and_shape [] 12))); [lia | reflexivity].
  - apply (proj2 (proj2 (ema_errors_and_shape [10; 12; 11] 12)) ltac:(lia)
             10 [12; 11] eq_refl).
Defined.

(** [_ema] on an array that is not empty. *)
Lemma ema_returns (arr : list Q) (period : Z) :
  (1 <= period)%Z -> arr <> [] ->
  exists alpha x0 rest,
    arr = x0 :: rest /\
    Macd._ema arr period = Ok (x0 :: Macd.ema_loop alpha x0 rest).
Proof.
  intros Hp Hne. unfold Macd._ema.
  destruct (alpha_of_period period Hp) as (alpha & -> & _). cbn [Py.bind].
  destruct arr as [| x0 rest]; [contradiction |]. eauto.
Qed.

Lemma ema_length (arr out : list Q) (period : Z) :
  Macd._ema arr period = Ok out -> length out = length arr.
Proof.
  unfold Macd._ema. destruct (Py.div _ _) as [alpha | e]; [| discriminate].
  cbn [Py.bind]. destruct arr as [| x0 rest]; [discriminate |].
  intros H; injection H as <-. cbn [length]. now rewrite ema_loop_length.
Qed.

(** The steps of [calculate_normalized_macd] on at least 26 closes. *)
Lemma macd_steps (closes : list Q) :
  (26 <= length closes)%nat ->
  exists e12 e26 macd_line sig hist m s h,
    Macd._ema closes 12 = Ok e12 /\
    Macd._ema closes 26 = Ok e26 /\
    Candles.broadcast Qminus e12 e26 = Ok macd_line /\
    Macd._ema macd_line 9 = Ok sig /\
    Candles.broadcast Qminus macd_line sig = Ok hist /\
    from_end macd_line 1 = Ok m /\ from_end sig 1 = Ok s /\
    from_end hist 1 = Ok h /\
    Macd.calculate_normalized_macd closes
    = Ok {| Macd.macd := Some m; Macd.signal := Some s;
            Macd.histogram := Some h |}.
Proof.
  intros Hlen. unfold Macd.calculate_normalized_macd.
  destruct (Nat.ltb_spec (length closes) 26) as [| _]; [lia |].
  assert (Hne : closes <> []) by (intros ->; simpl in Hlen; lia).
  destruct (ema_returns closes 12) as (a12 & x0 & rest & Ec & H12);
    [lia | exact Hne |].
  destruct (ema_returns closes 26) as (a26 & x0' & rest' & Ec' & H26);
    [lia | exact Hne |].
  rewrite H12, H26. cbn [Py.bind].
  pose proof (ema_length _ _ _ H12) as L12.
  pose proof (ema_length _ _ _ H26) as L26.
  rewrite (broadcast_aligned Qminus _ _ (eq_trans L12 (eq_sym L26))).
  cbn [Py.bind].
  set (macd_line := map _ (combine _ _)).
  assert (Lm : length macd_line = length closes).
  { subst macd_line. rewrite length_map, length_combine, L12, L26. lia. }
  assert (Hm : macd_line <> []).
  { intros E. rewrite E in Lm. simpl in Lm. lia. }
  destruct (ema_returns macd_line 9) as (a9 & y0 & mrest & Em & H9);
    [lia | exact Hm |].
  rewrite H9. cbn [Py.bind].
  pose proof (ema_length _ _ _ H9) as L9.
  rewrite (broadcast_aligned Qminus _ _ (eq_sym L9)). cbn [Py.bind].
  set (sig := y0 :: Macd.ema_loop a9 y0 mrest) in *.
  set (hist := map _ (combine macd_line sig)).
  assert (Lh : length hist = length closes).
  { subst hist. rewrite length_map, length_combine, L9. lia. }
  destruct (from_end_ok macd_line 1) as [m Hfm]; [lia |].
  destruct (from_end_ok sig 1) as [s Hfs]; [lia |].
  destruct (from_end_ok hist 1) as [h Hfh]; [lia |].
  rewrite Hfm, Hfs, Hfh. cbn [Py.bind].
  exists (x0 :: Macd.ema_loop a12 x0 rest), (x0' :: Macd.ema_loop a26 x0' rest'),
    macd_line, sig, hist, m, s, h.
  repeat split; try assumption; try reflexivity.
  - apply broadcast_aligned. congruence.
  - apply broadcast_aligned. now symmetry.
Qed.

(** X18. [calculate_normalized_macd] never raises: below 26 closes it
    returns the empty dictionary, from 26 closes on a dictionary with the
    three values. *)
Theorem macd_never_raises (closes : list Q) :
  ((length closes < 26)%nat ->
   Macd.calculate_normalized_macd closes = Ok Macd.empty_macd) /\
  ((26 <= length closes)%nat ->
   exists m s h : Q,
     Macd.calculate_normalized_macd closes
     = Ok {| Macd.macd := Some m; Macd.signal := Some s;
             Macd.histogram := Some h |}).
Proof.
  split; intros Hlen.
  - unfold Macd.calculate_normalized_macd.
    destruct (Nat.ltb_spec (length closes) 26); [reflexivity | lia].
  - destruct (macd_steps closes Hlen)
      as (e12 & e26 & ml & sg & hs & m & s & h & _ & _ & _ & _ & _ & _ & _ & _ & H).
    eauto.
Qed.

Lemma macd_never_raises_witness :
  Macd.calculate_normalized_macd [100; 101; 102] = Ok Macd.empty_macd /\
  exists m s h : Q,
    Macd.calculate_normalized_macd (repeat 100 25 ++ [101])
    = Ok {| Macd.macd := Some m; Macd.signal := Some s;
            Macd.histogram := Some h |}.
Proof.
  split.
  - apply (proj1 (macd_never_raises [100; 101; 102])). simpl. lia.
  - apply (proj2 (macd_never_raises (repeat 100 25 ++ [101]))). simpl. lia.
Defined.

(** ** trendline_detector.py: the search for a line *)

Lemma count_hits_bounds (d : TrendlineDetector.detector) (prices : list Q)
    (x1 : nat) (y1 slope : Q) (ks : list nat) :
  forall hits r,
    TrendlineDetector.count_hits d prices x1 y1 slope ks hits = Ok r ->
    (hits <= r <= hits + length ks)%nat.
Proof.
  induction ks as [| k ks IH]; intros hits r; cbn [TrendlineDetector.count_hits].
  - intros H; injection H as <-. simpl. lia.
  - destruct (Py.div _ _) as [diff_pct | e]; [| discriminate]. cbn [Py.bind].
    intros H. apply IH in H. cbn [length].
    destruct (diff_pct <? _); lia.
Qed.

Lemma pairs_spec (n i j : nat) :
  In (i, j) (TrendlineDetector.pairs n) <-> (i + 3 <= j < n)%nat.
Proof.
  unfold TrendlineDetector.pairs. rewrite in_flat_map. split.
  - intros (i' & Hi & Hin). apply in_map_iff in Hin as (j' & E & Hj).
    injection E as -> ->. apply in_seq in Hi. apply in_seq in Hj. lia.
  - intros H. exists i. split; [apply in_seq; lia |].
    apply in_map_iff. exists j. split; [reflexivity | apply in_seq; lia].
Qed.

Lemma first_line_found (d : TrendlineDetector.detector) (prices : list Q)
    (kind : string) (t : TrendlineDetector.trendline) (ps : list (nat * nat)) :
  TrendlineDetector.first_line d prices kind ps = Ok (Some t) ->
  exists i j, In (i, j) ps /\
    TrendlineDetector.try_pair d prices kind i j = Ok (Some t).
Proof.
  induction ps as [| [i j] ps IH]; cbn [TrendlineDetector.first_line];
    [discriminate |].
  destruct (TrendlineDetector.try_pair d prices kind i j) as [[t' |] | e] eqn:E;
    cbn [Py.bind]; [| | discriminate].
  - intros H; injection H as <-. exists i, j. split; [now left | exact E].
  - intros H. destruct (IH H) as (i' & j' & Hin & Ht).
    exists i', j'. split; [now right | exact Ht].
Qed.

Lemma of_nat_sub (a b : nat) :
  (b <= a)%nat ->
  TrendlineDetector.of_nat a - TrendlineDetector.of_nat b
  == TrendlineDetector.of_nat (a - b).
Proof.
  intros H. unfold TrendlineDetector.of_nat. rewrite Nat2Z.inj_sub by exact H.
  unfold Z.sub, Qminus. now rewrite inject_Z_plus, inject_Z_opp.
Qed.

(** X20. A line [_find_trendline] returns is anchored on two prices of
    the series at least three indices apart; it counts at least two and
    at least [min_touches] touches, never more than the prices from one
    anchor to the other; its age lies between 1 and [n - 3]; its
    [price_now] is the line taken [age] steps past the second anchor,
    that is at index [n], one past the last price; a line through highs
    falls faster than [min_slope], a line through lows rises faster. *)
Theorem found_trendline_shape (d : TrendlineDetector.detector)
    (prices : list Q) (kind : string) (t : TrendlineDetector.trendline) :
  TrendlineDetector._find_trendline d prices kind = Ok (Some t) ->
  exists i j : nat,
    (i + 3 <= j < length prices)%nat /\
    TrendlineDetector.points t
    = ((i, TrendlineDetector.price_at prices i),
       (j, TrendlineDetector.price_at prices j)) /\
    (2 <= TrendlineDetector.touches t <= j - i + 1)%nat /\
    (TrendlineDetector.min_touches d
     <= Z.of_nat (TrendlineDetector.touches t))%Z /\
    TrendlineDetector.age t = (length prices - j)%nat /\
    (1 <= TrendlineDetector.age t <= length prices - 3)%nat /\
    TrendlineDetector.price_now t
    == TrendlineDetector.price_at prices j
       + TrendlineDetector.slope t
         * TrendlineDetector.of_nat (TrendlineDetector.age t) /\
    TrendlineDetector.slope t * TrendlineDetector.of_nat (j - i)
    == TrendlineDetector.price_at prices j
       - TrendlineDetector.price_at prices i /\
    (kind = "high"%string ->
     TrendlineDetector.slope t < - TrendlineDetector.min_slope d) /\
    (kind = "low"%string ->
     TrendlineDetector.min_slope d < TrendlineDetector.slope t).
Proof.
  unfold TrendlineDetector._find_trendline. intros H.
  apply first_line_found in H as (i & j & Hin & Ht).
  apply pairs_spec in Hin. exists i, j. split; [exact Hin |].
  unfold TrendlineDetector.try_pair in Ht.
  assert (Hij : TrendlineDetector.of_nat j - TrendlineDetector.of_nat i
                == TrendlineDetector.of_nat (j - i))
    by (apply of_nat_sub; lia).
  assert (Hpos : 0 < TrendlineDetector.of_nat (j - i)).
  { unfold TrendlineDetector.of_nat. change 0 with (inject_Z 0).
    rewrite <- Zlt_Qlt. lia. }
  assert (Hage : TrendlineDetector.of_nat (length prices)
                 - TrendlineDetector.of_nat j
                 == TrendlineDetector.of_nat (length prices - j))
    by (apply of_nat_sub; lia).
  destruct (String.eqb_spec kind "high") as [Eh | Nh];
    destruct (String.eqb_spec kind "low") as [El | Nl];
    try (rewrite Eh in El; discriminate El);
    cbn [andb] in Ht;
    repeat match type of Ht with
      | context [Py.leb ?x ?y] => destruct (leb_spec x y) as [Hle | Hlt]
      end;
    try discriminate Ht;
    (destruct (TrendlineDetector.count_hits _ _ _ _ _ _ _) as [hits | e] eqn:Eh';
       [| discriminate Ht]);
    cbn [Py.bind] in Ht;
    (destruct (Z.leb_spec (TrendlineDetector.min_touches d - 2) (Z.of_nat hits));
       [| discriminate Ht]);
    injection Ht as <-; cbn;
    apply count_hits_bounds in Eh'; rewrite length_seq in Eh';
    (repeat split;
       try lia;
       try (rewrite Hage; reflexivity);
       try (rewrite <- Hij; field; rewrite Hij; lra);
       try assumption;
       try (intros E; first [discriminate E | congruence])).
Qed.

Lemma found_trendline_shape_witness :
  exists (t : TrendlineDetector.trendline) (i j : nat),
    (i + 3 <= j < 4)%nat /\
    TrendlineDetector.points t
    = ((i, TrendlineDetector.price_at [1; 2; 3; 4] i),
       (j, TrendlineDetector.price_at [1; 2; 3; 4] j)) /\
    (2 <= TrendlineDetector.touches t <= j - i + 1)%nat.
Proof.
  eexists.
  destruct (found_trendline_shape TrendlineDetector.default_detector
              [1; 2; 3; 4] "low" _ eq_refl)
    as (i & j & H1 & H2 & H3 & _).
  exists i, j. repeat split; first [exact H2 | apply H1 | apply H3].
Defined.

(** X21. A series of fewer than four prices has no pair of anchors three
    indices apart: [_find_trendline] returns [None], whatever the kind
    and the settings. *)
Theorem short_series_has_no_trendline (d : TrendlineDetector.detector)
    (prices : list Q) (kind : string) :
  (length prices < 4)%nat ->
  TrendlineDetector._find_trendline d prices kind = Ok None.
Proof.
  intros H. destruct prices as [| a [| b [| c [| e rest]]]];
    try reflexivity. simpl in H. lia.
Qed.

Lemma short_series_has_no_trendline_witness :
  TrendlineDetector._find_trendline TrendlineDetector.default_detector
    [3; 2; 1] "high" = Ok None.
Proof. apply short_series_has_no_trendline. simpl. lia. Defined.



(** ** levels_detector.py: clusters and swing levels *)

Lemma counter_add_counted_same (k : Z) (c : list (Z * nat)) :
  Facts.counted k (LevelsDetector.counter_add k c) = S (Facts.counted k c).
Proof.
  induction c as [| [k' n] c IH]; cbn [LevelsDetector.counter_add Facts.counted].
  - now rewrite Z.eqb_refl.
  - destruct (Z.eqb_spec k k') as [-> | Hne]; cbn [Facts.counted].
    + now rewrite Z.eqb_refl.
    + destruct (Z.eqb_spec k k'); [contradiction | exact IH].
Qed.

Lemma counter_add_counted_other (k k' : Z) (c : list (Z * nat)) :
  k' <> k ->
  Facts.counted k' (LevelsDetector.counter_add k c) = Facts.counted k' c.
Proof.
  intros Hne.
  induction c as [| [k'' n] c IH]; cbn [LevelsDetector.counter_add Facts.counted].
  - destruct (Z.eqb_spec k' k); [contradiction | reflexivity].
  - destruct (Z.eqb_spec k k'') as [<- | Hne']; cbn [Facts.counted].
    + destruct (Z.eqb_spec k' k); [contradiction | reflexivity].
    + destruct (Z.eqb_spec k' k''); [reflexivity | exact IH].
Qed.

Lemma counter_counted (ks : list Z) :
  forall (c : list (Z * nat)) (k : Z),
    Facts.counted k (fold_left (fun c k => LevelsDetector.counter_add k c) ks c)
    = (Facts.counted k c + Facts.occurrences k ks)%nat.
Proof.
  induction ks as [| x ks IH]; intros c k; cbn [fold_left].
  - unfold Facts.occurrences. simpl. lia.
  - rewrite IH. unfold Facts.occurrences. cbn [filter].
    destruct (Z.eqb_spec x k) as [-> | Hne]; cbn [length].
    + rewrite counter_add_counted_same. lia.
    + rewrite counter_add_counted_other by congruence. lia.
Qed.

Lemma counter_add_keys (k k' : Z) (c : list (Z * nat)) :
  In k' (map fst (LevelsDetector.counter_add k c))
  <-> k' = k \/ In k' (map fst c).
Proof.
  induction c as [| [k'' n] c IH]; cbn [LevelsDetector.counter_add map fst In].
  - intuition congruence.
  - destruct (Z.eqb_spec k k'') as [<- | Hne]; cbn [map fst In].
    + intuition congruence.
    + rewrite IH. intuition congruence.
Qed.

Lemma counter_add_nodup (k : Z) (c : list (Z * nat)) :
  NoDup (map fst c) -> NoDup (map fst (LevelsDetector.counter_add k c)).
Proof.
  induction c as [| [k' n] c IH]; cbn [LevelsDetector.counter_add map fst];
    intros H.
  - constructor; [intros [] | constructor].
  - destruct (Z.eqb_spec k k') as [<- | Hne]; cbn [map fst]; [exact H |].
    inversion H as [| ? ? Hnin Hnd]; subst. constructor; [| now apply IH].
    rewrite counter_add_keys. intuition congruence.
Qed.

Lemma counter_add_positive (k : Z) (c : list (Z * nat)) :
  Forall (fun e => (1 <= snd e)%nat) c ->
  Forall (fun e => (1 <= snd e)%nat) (LevelsDetector.counter_add k c).
Proof.
  induction 1 as [| [k' n] c Hn Hc IH]; cbn [LevelsDetector.counter_add].
  - constructor; [simpl; lia | constructor].
  - destruct (Z.eqb k k'); constructor; simpl in *; try lia; assumption.
Qed.

Lemma counter_invariant (ks : list Z) :
  forall c : list (Z * nat),
    NoDup (map fst c) -> Forall (fun e => (1 <= snd e)%nat) c ->
    NoDup (map fst (fold_left (fun c k => LevelsDetector.counter_add k c) ks c))
    /\ Forall (fun e => (1 <= snd e)%nat)
         (fold_left (fun c k => LevelsDetector.counter_add k c) ks c).
Proof.
  induction ks as [| x ks IH]; intros c Hnd Hpos; cbn [fold_left].
  - now split.
  - apply IH; [now apply counter_add_nodup | now apply counter_add_positive].
Qed.

Lemma entry_counted (k : Z) (n : nat) (c : list (Z * nat)) :
  NoDup (map fst c) -> In (k, n) c -> Facts.counted k c = n.
Proof.
  induction c as [| [k' n'] c IH]; cbn [map fst Facts.counted];
    intros Hnd Hin; [destruct Hin |].
  inversion Hnd as [| ? ? Hnin Hnd']; subst.
  destruct Hin as [E | Hin].
  - injection E as -> ->. now rewrite Z.eqb_refl.
  - destruct (Z.eqb_spec k k') as [-> | _]; [| now apply IH].
    exfalso. apply Hnin. apply in_map_iff. now exists (k', n).
Qed.

Lemma counted_entry (k : Z) (c : list (Z * nat)) :
  (0 < Facts.counted k c)%nat -> In (k, Facts.counted k c) c.
Proof.
  induction c as [| [k' n] c IH]; cbn [Facts.counted]; [lia |].
  destruct (Z.eqb_spec k k') as [-> | _]; intros H; [now left | right; auto].
Qed.

Lemma most_common1_is_largest (c : list (Z * nat)) (top : Z * nat) :
  LevelsDetector.most_common1 c = Ok top ->
  In top c /\ forall e, In e c -> (snd e <= snd top)%nat.
Proof.
  unfold LevelsDetector.most_common1. destruct c as [| e0 rest]; [discriminate |].
  intros H; injection H as <-. revert e0.
  induction rest as [| e1 rest IH]; intros e0; cbn [fold_left].
  - split; [now left |]. intros e [<- | []]. lia.
  - destruct (IH (if Nat.ltb (snd e0) (snd e1) then e1 else e0)) as [Hin Hmax].
    split.
    + destruct Hin as [<- | Hin]; [| now right; right].
      destruct (Nat.ltb _ _); [right; now left | now left].
    + intros e He.
      assert (Hsel : (snd e0 <= snd (if Nat.ltb (snd e0) (snd e1) then e1 else e0)
                      /\ snd e1 <= snd (if Nat.ltb (snd e0) (snd e1) then e1 else e0))%nat).
      { destruct (Nat.ltb_spec (snd e0) (snd e1)); lia. }
      pose proof (Hmax _ (or_introl eq_refl)) as Hsel'.
      destruct He as [<- | [<- | He]]; [lia | lia |].
      apply Hmax. now right.
Qed.

Lemma occurrences_of_buckets (tol : Q) (k : Z) (values : list Q) :
  Facts.occurrences k (map (LevelsDetector.bucket tol) values)
  = length (Facts.in_bucket tol k values).
Proof.
  unfold Facts.occurrences, Facts.in_bucket.
  induction values as [| v values IH]; cbn [map filter]; [reflexivity |].
  destruct (Z.eqb _ k); cbn [length]; now rewrite IH.
Qed.

Lemma len_cons (x : Q) (xs : list Q) :
  Candles.len (x :: xs) == 1 + Candles.len xs.
Proof.
  unfold Candles.len. cbn [length]. rewrite Nat2Z.inj_succ. unfold Z.succ.
  rewrite inject_Z_plus. change (inject_Z 1) with 1. ring.
Qed.

Lemma py_sum_between (lo hi : Q) (xs : list Q) :
  Forall (fun v => lo <= v <= hi) xs ->
  lo * Candles.len xs <= Candles.py_sum xs <= hi * Candles.len xs.
Proof.
  induction 1 as [| x xs Hx _ IH].
  - change (Candles.len []) with 0. change (Candles.py_sum []) with 0. lra.
  - rewrite py_sum_cons, len_cons. lra.
Qed.

Lemma py_sum_above (c : Q) (xs : list Q) :
  Forall (fun v => c < v) xs -> xs <> [] ->
  c * Candles.len xs < Candles.py_sum xs.
Proof.
  induction 1 as [| x xs Hx Hxs IH]; intros Hne; [contradiction |].
  rewrite py_sum_cons, len_cons. destruct xs as [| y ys].
  - change (Candles.len []) with 0. change (Candles.py_sum []) with 0. lra.
  - assert (c * Candles.len (y :: ys) < Candles.py_sum (y :: ys))
      by (apply IH; discriminate).
    lra.
Qed.

Lemma py_sum_below (c : Q) (xs : list Q) :
  Forall (fun v => v < c) xs -> xs <> [] ->
  Candles.py_sum xs < c * Candles.len xs.
Proof.
  induction 1 as [| x xs Hx Hxs IH]; intros Hne; [contradiction |].
  rewrite py_sum_cons, len_cons. destruct xs as [| y ys].
  - change (Candles.len []) with 0. change (Candles.py_sum []) with 0. lra.
  - assert (Candles.py_sum (y :: ys) < c * Candles.len (y :: ys))
      by (apply IH; discriminate).
    lra.
Qed.

Lemma mean_returns (xs : list Q) :
  xs <> [] -> LevelsDetector.mean xs = Ok (Candles.py_sum xs / Candles.len xs).
Proof. destruct xs; [contradiction | reflexivity]. Qed.

(** What [_cluster_level] does on values: the level is the mean of the
    fullest bucket, the count the size of that bucket. *)
Lemma cluster_level_returns (values : list Q) (tol_pct : Q) :
  values <> [] ->
  exists (tol : Q) (k : Z),
    Facts.in_bucket tol k values <> [] /\
    (forall k', (length (Facts.in_bucket tol k' values)
                 <= length (Facts.in_bucket tol k values))%nat) /\
    LevelsDetector._cluster_level values tol_pct
    = Ok (Some (Candles.py_sum (Facts.in_bucket tol k values)
                / Candles.len (Facts.in_bucket tol k values)),
          length (Facts.in_bucket tol k values)).
Proof.
  intros Hne. unfold LevelsDetector._cluster_level.
  destruct values as [| v0 vs] eqn:Ev; [contradiction |]. rewrite <- Ev in *.
  assert (Hmax : exists hi, Py.max values = Ok hi) by (rewrite Ev; simpl; eauto).
  assert (Hmin : exists lo, LevelsDetector.py_min values = Ok lo)
    by (rewrite Ev; simpl; eauto).
  destruct Hmax as [hi ->], Hmin as [lo ->]. cbn [Py.bind].
  set (tol := LevelsDetector.tolerance (hi - lo) tol_pct).
  set (ks := map (LevelsDetector.bucket tol) values).
  assert (Hcnt : forall k, Facts.counted k (LevelsDetector.counter ks)
                           = Facts.occurrences k ks)
    by (intros k; apply (counter_counted ks [] k)).
  destruct (counter_invariant ks []) as [Hnd Hpos];
    [constructor | constructor |].
  fold (LevelsDetector.counter ks) in Hnd, Hpos.
  destruct (LevelsDetector.most_common1 (LevelsDetector.counter ks))
    as [[k n] | e] eqn:Etop.
  - cbn [Py.bind fst snd].
    apply most_common1_is_largest in Etop as [Hin Hlargest].
    pose proof (entry_counted _ _ _ Hnd Hin) as Hk.
    rewrite Hcnt in Hk. subst ks. rewrite occurrences_of_buckets in Hk.
    eapply Forall_forall in Hpos; [| exact Hin]. cbn [snd] in Hpos.
    fold (Facts.in_bucket tol k values).
    assert (Hvals : Facts.in_bucket tol k values <> []).
    { intros E. rewrite E in Hk. simpl in Hk. lia. }
    rewrite (mean_returns _ Hvals). cbn [Py.bind]. rewrite <- Hk.
    exists tol, k. split; [exact Hvals |]. split; [| reflexivity].
    intros k'. rewrite Hk.
    destruct (length (Facts.in_bucket tol k' values)) as [| m] eqn:Ek'; [lia |].
    rewrite <- Ek', <- occurrences_of_buckets, <- Hcnt.
    apply (Hlargest (k', _)). apply counted_entry.
    rewrite Hcnt, occurrences_of_buckets. lia.
  - exfalso. unfold LevelsDetector.most_common1 in Etop.
    destruct (LevelsDetector.counter ks) as [| e0 rest] eqn:Ec; [| discriminate].
    specialize (Hcnt (LevelsDetector.bucket tol v0)).
    cbn [Facts.counted] in Hcnt. subst ks. rewrite Ev in Hcnt.
    unfold Facts.occurrences in Hcnt. cbn [map filter] in Hcnt.
    rewrite Z.eqb_refl in Hcnt. simpl in Hcnt. lia.
Qed.

Lemma in_bucket_incl (tol : Q) (k : Z) (values : list Q) (P : Q -> Prop) :
  Forall P values -> Forall P (Facts.in_bucket tol k values).
Proof.
  intros H. apply Forall_forall. intros v Hv.
  apply filter_In in Hv as [Hv _]. eapply Forall_forall in H; eauto.
Qed.

Lemma in_bucket_length (tol : Q) (k : Z) (values : list Q) :
  (length (Facts.in_bucket tol k values) <= length values)%nat.
Proof. apply filter_length_le. Qed.

Lemma cluster_level_on_values (values : list Q) (tol_pct : Q) :
  values <> [] ->
  exists (level : Q) (freq : nat),
    LevelsDetector._cluster_level values tol_pct = Ok (Some level, freq) /\
    (1 <= freq <= length values)%nat /\
    forall lo hi : Q,
      Forall (fun v => lo <= v <= hi) values -> lo <= level <= hi.
Proof.
  intros Hne.
  destruct (cluster_level_returns values tol_pct Hne)
    as (tol & k & Hvals & _ & Hcall).
  eexists _, _. split; [exact Hcall |].
  pose proof (in_bucket_length tol k values) as Hlen.
  split.
  - split; [| exact Hlen].
    destruct (Facts.in_bucket tol k values); [contradiction | simpl; lia].
  - intros lo hi Hb.
    pose proof (py_sum_between lo hi _ (in_bucket_incl tol k values _ Hb)) as Hs.
    pose proof (len_positive _ Hvals) as Hl.
    split.
    + apply Qle_shift_div_l; [exact Hl | apply Hs].
    + apply Qle_shift_div_r; [exact Hl | apply Hs].
Qed.

(** X23. [_cluster_level] never raises. On an empty list it returns
    [(None, 0)]. On values it returns a level and a count: the count is
    at least 1 and at most the number of values, and the level lies
    between any two bounds the values lie between. *)
Theorem cluster_level_shape (values : list Q) (tol_pct : Q) :
  (values = [] ->
   LevelsDetector._cluster_level values tol_pct = Ok (None, 0%nat)) /\
  (values <> [] ->
   exists (level : Q) (freq : nat),
     LevelsDetector._cluster_level values tol_pct = Ok (Some level, freq) /\
     (1 <= freq <= length values)%nat /\
     forall lo hi : Q,
       Forall (fun v => lo <= v <= hi) values -> lo <= level <= hi).
Proof.
  split; [intros ->; reflexivity | apply cluster_level_on_values].
Qed.

Lemma cluster_level_shape_witness :
  LevelsDetector._cluster_level [] 0.15 = Ok (None, 0%nat) /\
  exists (level : Q) (freq : nat),
    LevelsDetector._cluster_level [100; 101; 100] 0.15 = Ok (Some level, freq) /\
    (1 <= freq <= 3)%nat /\ 100 <= level <= 101.
Proof.
  split.
  - apply (proj1 (cluster_level_shape [] 0.15)). reflexivity.
  - destruct (proj2 (cluster_level_shape [100; 101; 100] 0.15))
      as (level & freq & Hcall & Hfreq & Hlevel); [discriminate |].
    exists level, freq. split; [exact Hcall |]. split; [exact Hfreq |].
    apply Hlevel. repeat constructor; discriminate.
Defined.

(** A level [_cluster_level] returns stays strictly on the side of a
    price that all the values are on. *)
Lemma cluster_level_side (values : list Q) (tol_pct : Q) :
  exists (o : option Q) (n : nat),
    LevelsDetector._cluster_level values tol_pct = Ok (o, n) /\
    forall x, o = Some x ->
      forall c, (Forall (fun v => c < v) values -> c < x) /\
                (Forall (fun v => v < c) values -> x < c).
Proof.
  destruct values as [| v0 vs] eqn:Ev.
  - exists None, 0%nat. split; [reflexivity | discriminate].
  - rewrite <- Ev.
    destruct (cluster_level_returns values tol_pct) as (tol & k & Hvals & _ & ->);
      [rewrite Ev; discriminate |].
    eexists _, _. split; [reflexivity |].
    intros x Hx c. injection Hx as <-.
    pose proof (len_positive _ Hvals) as Hl. split; intros Hc.
    + apply Qlt_shift_div_l; [exact Hl |].
      apply py_sum_above; [now apply in_bucket_incl | exact Hvals].
    + apply Qlt_shift_div_r; [exact Hl |].
      apply py_sum_below; [now apply in_bucket_incl | exact Hvals].
Qed.

Lemma age_scan_bounds (level : Q) (reversed : list Q) :
  forall pos a,
    LevelsDetector.age_scan level reversed pos = Some a ->
    (pos <= a < pos + length reversed)%nat.
Proof.
  induction reversed as [| x rest IH]; intros pos a;
    cbn [LevelsDetector.age_scan length]; [discriminate |].
  destruct (_ <? _).
  - intros H; injection H as <-. lia.
  - intros H. apply IH in H. lia.
Qed.

Lemma age_bounds (level : Q) (series : list Q) :
  series <> [] ->
  (1 <= LevelsDetector._age level series <= length series)%nat.
Proof.
  intros Hne. unfold LevelsDetector._age.
  destruct (LevelsDetector.age_scan level (rev series) 1) as [a |] eqn:E.
  - apply age_scan_bounds in E. rewrite length_rev in E. lia.
  - destruct series; [contradiction | simpl; lia].
Qed.

(** X24. On klines that are not empty [detect_swing_levels] never raises
    and never returns the empty dictionary: it returns the levels. The
    swing high lies between any two bounds of the highs, the swing low
    between any two bounds of the lows; the test counts and the age lie
    between 1 and the number of klines; a next swing high, when there is
    one, is more than 1% above the swing high, a next swing low more
    than 1% below the swing low. *)
Theorem swing_levels_shape (data : list Candles.kline) :
  data <> [] ->
  exists l : LevelsDetector.swing_levels,
    LevelsDetector.detect_swing_levels data = Ok (LevelsDetector.Levels l) /\
    (forall lo hi, Forall (fun v => lo <= v <= hi) (Facts.highs_of data) ->
                   lo <= LevelsDetector.swing_high l <= hi) /\
    (forall lo hi, Forall (fun v => lo <= v <= hi) (Facts.lows_of data) ->
                   lo <= LevelsDetector.swing_low l <= hi) /\
    (1 <= LevelsDetector.tests_high l <= length data)%nat /\
    (1 <= LevelsDetector.tests_low l <= length data)%nat /\
    (1 <= LevelsDetector.swing_age l <= length data)%nat /\
    (forall x, LevelsDetector.next_swing_high l = Some x ->
               LevelsDetector.swing_high l * 1.01 < x) /\
    (forall x, LevelsDetector.next_swing_low l = Some x ->
               x < LevelsDetector.swing_low l * 0.99).
Proof.
  intros Hne. unfold LevelsDetector.detect_swing_levels.
  destruct data as [| c0 cs] eqn:Ed; [contradiction |]. rewrite <- Ed in *.
  fold (Facts.highs_of data). fold (Facts.lows_of data).
  assert (Hh : Facts.highs_of data <> [])
    by (rewrite Ed; discriminate).
  assert (Hl : Facts.lows_of data <> [])
    by (rewrite Ed; discriminate).
  assert (Lh : length (Facts.highs_of data) = length data)
    by apply length_map.
  assert (Ll : length (Facts.lows_of data) = length data)
    by apply length_map.
  destruct (cluster_level_on_values (Facts.highs_of data) 0.15 Hh)
    as (sh & th & -> & Hth & Hsh).
  destruct (cluster_level_on_values (Facts.lows_of data) 0.15 Hl)
    as (sl & tl & -> & Htl & Hsl).
  cbn [Py.bind fst snd].
  destruct (cluster_level_side
              (filter (fun h => h >? sh * 1.01) (Facts.highs_of data)) 0.10)
    as (nh & fh & -> & Hnh).
  destruct (cluster_level_side
              (filter (fun l => l <? sl * 0.99) (Facts.lows_of data)) 0.10)
    as (nl & fl & -> & Hnl).
  cbn [Py.bind fst snd].
  eexists. split; [reflexivity |].
  cbn [LevelsDetector.swing_high LevelsDetector.swing_low
       LevelsDetector.tests_high LevelsDetector.tests_low
       LevelsDetector.swing_age LevelsDetector.next_swing_high
       LevelsDetector.next_swing_low].
  pose proof (age_bounds sh _ Hh) as Ah. pose proof (age_bounds sl _ Hl) as Al.
  split; [exact Hsh |]. split; [exact Hsl |].
  split; [lia |]. split; [lia |]. split; [lia |]. split.
  - intros x Hx. apply (Hnh x Hx). apply Forall_forall. intros v Hv.
    apply filter_In in Hv as [_ Hv]. now destruct (gtb_spec v (sh * 1.01)).
  - intros x Hx. apply (Hnl x Hx). apply Forall_forall. intros v Hv.
    apply filter_In in Hv as [_ Hv]. now destruct (ltb_spec v (sl * 0.99)).
Qed.

Lemma swing_levels_shape_witness :
  exists l : LevelsDetector.swing_levels,
    LevelsDetector.detect_swing_levels
      [ {| Candles.k_open := 100; Candles.k_high := 102; Candles.k_low := 99;
           Candles.k_close := 101; Candles.k_volume := 5 |};
        {| Candles.k_open := 101; Candles.k_high := 110; Candles.k_low := 100;
           Candles.k_close := 109; Candles.k_volume := 7 |} ]
    = Ok (LevelsDetector.Levels l) /\
    (1 <= LevelsDetector.swing_age l <= 2)%nat.
Proof.
  match goal with
  | |- exists l, LevelsDetector.detect_swing_levels ?d = _ /\ _ =>
      destruct (swing_levels_shape d) as (l & Hcall & _ & _ & _ & _ & Hage & _);
        [discriminate |]; exists l; split; [exact Hcall | exact Hage]
  end.
Defined.

(** ** utils/market_watch.py: the volatility guard *)

Lemma deque_append_last_n (w : list Q) (x : Q) :
  (length w <= 60)%nat ->
  MarketWatch.deque_append w x = Candles.last_n 60 (w ++ [x]).
Proof.
  intros H. unfold MarketWatch.deque_append, Candles.last_n.
  rewrite length_app. cbn [length].
  destruct (Nat.ltb_spec (length w) 60) as [Hlt | Hge].
  - replace (length w + 1 - 60)%nat with 0%nat by lia. reflexivity.
  - replace (length w + 1 - 60)%nat with 1%nat by lia.
    destruct w; [simpl in Hge; lia | reflexivity].
Qed.

Lemma deque_append_length (w : list Q) (x : Q) :
  (length w <= 60)%nat ->
  length (MarketWatch.deque_append w x) = Nat.min (S (length w)) 60.
Proof.
  intros H. unfold MarketWatch.deque_append.
  destruct (Nat.ltb_spec (length w) 60) as [Hlt | Hge];
    rewrite length_app; cbn [length]; [lia |].
  destruct w; simpl in *; lia.
Qed.

Lemma push_window (now : Q) (g : MarketWatch.guard) (atr_1m : Q) :
  MarketWatch.window (snd (MarketWatch.push now g atr_1m))
  = MarketWatch.deque_append (MarketWatch.window g) atr_1m.
Proof.
  unfold MarketWatch.push. destruct (Nat.ltb _ 60); [reflexivity |].
  destruct (_ >? _); reflexivity.
Qed.

Lemma last_n_last_n_app {A : Type} (n : nat) (a b : list A) :
  Candles.last_n n (Candles.last_n n a ++ b) = Candles.last_n n (a ++ b).
Proof.
  unfold Candles.last_n.
  rewrite !length_app, length_skipn.
  replace (skipn (length a - n) a ++ b) with (skipn (length a - n) (a ++ b)).
  - rewrite skipn_skipn. f_equal. lia.
  - rewrite skipn_app. replace (length a - n - length a)%nat with 0%nat by lia.
    reflexivity.
Qed.

Lemma pushes_window (readings : list (Q * Q)) :
  forall g : MarketWatch.guard,
    (length (MarketWatch.window g) <= 60)%nat ->
    MarketWatch.window (snd (MarketWatch.pushes g readings))
    = Candles.last_n 60 (MarketWatch.window g ++ map snd readings).
Proof.
  induction readings as [| [now x] rest IH]; intros g Hg;
    cbn [MarketWatch.pushes map snd].
  - rewrite app_nil_r. unfold Candles.last_n.
    replace (length (MarketWatch.window g) - 60)%nat with 0%nat by lia.
    reflexivity.
  - pose proof (push_window now g x) as Hw.
    destruct (MarketWatch.push now g x) as [b g'] eqn:Ep. cbn [snd] in Hw.
    specialize (IH g').
    destruct (MarketWatch.pushes g' rest) as [bs g''] eqn:Eps. cbn [snd] in *.
    rewrite IH.
    + rewrite Hw, deque_append_last_n by exact Hg.
      rewrite last_n_last_n_app, <- app_assoc. reflexivity.
    + rewrite Hw, deque_append_length by exact Hg. lia.
Qed.

(** X25. Whatever readings a fresh [VolatilityGuard] is pushed, its
    window holds the last 60 of them, in their order. *)
Theorem guard_window_is_last_sixty (max_factor cool_off : Q)
    (readings : list (Q * Q)) :
  MarketWatch.window
    (snd (MarketWatch.pushes (MarketWatch.init max_factor cool_off) readings))
  = Candles.last_n 60 (map snd readings).
Proof.
  rewrite pushes_window; [reflexivity | simpl; lia].
Qed.

Lemma pushes_silent (readings : list (Q * Q)) :
  forall g : MarketWatch.guard,
    (length (MarketWatch.window g) + length readings < 60)%nat ->
    fst (MarketWatch.pushes g readings) = repeat false (length readings) /\
    MarketWatch.last_trigger (snd (MarketWatch.pushes g readings))
    = MarketWatch.last_trigger g.
Proof.
  induction readings as [| [now x] rest IH]; intros g Hg;
    cbn [MarketWatch.pushes length repeat]; [now split |].
  cbn [length] in Hg.
  pose proof (push_window now g x) as Hw.
  assert (Hp : fst (MarketWatch.push now g x) = false /\
               MarketWatch.last_trigger (snd (MarketWatch.push now g x))
               = MarketWatch.last_trigger g).
  { unfold MarketWatch.push.
    rewrite deque_append_length by lia.
    destruct (Nat.ltb_spec (Nat.min (S (length (MarketWatch.window g))) 60) 60);
      [now split | lia]. }
  destruct (MarketWatch.push now g x) as [b g'] eqn:Ep. cbn [fst snd] in *.
  destruct Hp as [-> Ht].
  specialize (IH g').
  destruct (MarketWatch.pushes g' rest) as [bs g''] eqn:Eps. cbn [fst snd] in *.
  destruct IH as [-> Ht'].
  - rewrite Hw, deque_append_length by lia. lia.
  - split; [reflexivity | congruence].
Qed.

(** X26. A fresh [VolatilityGuard] answers [False] to every one of its
    first 59 readings, whatever they are, and records no trigger. *)
Theorem guard_silent_before_sixty (max_factor cool_off : Q)
    (readings : list (Q * Q)) :
  (length readings < 60)%nat ->
  fst (MarketWatch.pushes (MarketWatch.init max_factor cool_off) readings)
  = repeat false (length readings) /\
  MarketWatch.last_trigger
    (snd (MarketWatch.pushes (MarketWatch.init max_factor cool_off) readings))
  = 0.
Proof.
  intros H.
  destruct (pushes_silent readings (MarketWatch.init max_factor cool_off))
    as [Hb Ht]; [simpl; lia |].
  split; [exact Hb | exact Ht].
Qed.

Lemma guard_silent_before_sixty_witness :
  fst (MarketWatch.pushes (MarketWatch.init 4 300) [(1000, 5); (1060, 500)])
  = repeat false 2 /\
  MarketWatch.last_trigger
    (snd (MarketWatch.pushes (MarketWatch.init 4 300) [(1000, 5); (1060, 500)]))
  = 0.
Proof. apply guard_silent_before_sixty. simpl. lia. Defined.

Lemma py_sum_steady (x : Q) (xs : list Q) :
  Forall (fun v => v == x) xs -> Candles.py_sum xs == x * Candles.len xs.
Proof.
  intros H.
  assert (Hb : Forall (fun v => x <= v <= x) xs).
  { eapply Forall_impl; [| exact H]. cbn. intros v Hv. rewrite Hv. lra. }
  apply py_sum_between in Hb. lra.
Qed.

(** X27. A reading equal to every reading in the window never triggers
    the guard, when readings are not negative and [max_factor] is at
    least 2. *)
Theorem steady_reading_never_triggers (now : Q) (g : MarketWatch.guard)
    (atr_1m : Q) :
  (length (MarketWatch.window g) <= 60)%nat ->
  Forall (fun v => v == atr_1m) (MarketWatch.window g) ->
  0 <= atr_1m ->
  2 <= MarketWatch.max_factor g ->
  fst (MarketWatch.push now g atr_1m) = false.
Proof.
  intros Hlen Hsteady Hx Hmf. unfold MarketWatch.push.
  pose proof (deque_append_length (MarketWatch.window g) atr_1m Hlen) as Hl.
  assert (Hw : Forall (fun v => v == atr_1m)
                 (MarketWatch.deque_append (MarketWatch.window g) atr_1m)).
  { unfold MarketWatch.deque_append. destruct (Nat.ltb _ 60).
    - apply Forall_app. split; [exact Hsteady | repeat constructor; reflexivity].
    - apply Forall_app. split; [| repeat constructor; reflexivity].
      destruct (MarketWatch.window g); [constructor |].
      now inversion Hsteady. }
  destruct (Nat.ltb_spec
              (length (MarketWatch.deque_append (MarketWatch.window g) atr_1m)) 60)
    as [| Hfull]; [reflexivity |].
  apply py_sum_steady in Hw. unfold Candles.len in Hw.
  replace (length (MarketWatch.deque_append (MarketWatch.window g) atr_1m))
    with 60%nat in Hw by lia.
  change (inject_Z (Z.of_nat 60)) with 60 in Hw.
  destruct (gtb_spec atr_1m
              (Candles.py_sum
                 (MarketWatch.deque_append (MarketWatch.window g) atr_1m) / 60
               * MarketWatch.max_factor g)) as [Hgt | _]; [| reflexivity].
  exfalso. rewrite Hw in Hgt.
  assert (E : atr_1m * 60 / 60 == atr_1m) by (field).
  rewrite E in Hgt. nra.
Qed.

Lemma steady_reading_never_triggers_witness :
  fst (MarketWatch.push 1000
         {| MarketWatch.max_factor := 4; MarketWatch.cool_off := 300;
            MarketWatch.last_trigger := 0; MarketWatch.window := repeat 5 60 |}
         5) = false.
Proof.
  apply steady_reading_never_triggers; cbn [MarketWatch.window MarketWatch.max_factor].
  - rewrite repeat_length. lia.
  - apply Forall_forall. intros v Hv. apply repeat_spec in Hv. now subst.
  - lra.
  - lra.
Defined.
